(** * Personal Library Manager: a shallow embedding of [index.py]

    The program keeps a list of book records in [library.csv] and offers
    seven console commands over it.  This development embeds the command
    handlers, and the menu that calls them, as state-passing functions
    over a small world (files, console input, console output) and proves
    properties of them.

    The built-ins that the handlers call ([str] methods, [int], [float],
    [csv], [json]) are embedded as CPython 3.11 defines them, as far as the
    handlers can reach them.

    Conventions of the embedding.
    - A Python [str] is a [string]; each [ascii] stands for one code point
      in U+0000..U+00FF.
    - A Python [int] is a [Z]; a Python [float] is a binary64 value of
      [spec_float], with the operations of [SpecFloat] at precision 53.
    - Console input is the list of lines still to be typed; [input] on the
      empty list raises [EOFError], as the interpreter does at end of input.
    - A file is its name and its text. Different names are different
      files (no two paths to one file), and text is written and read back
      unchanged (one encoding, no translation of line ends).
    - The recursion limit of the interpreter and the size of its memory
      are not part of the embedding. *)

From Stdlib Require Import ZArith List Ascii String Bool Lia DecimalString.
From Stdlib Require Import Floats.SpecFloat.
From stdpp Require Import gmap strings.
Import ListNotations.

Local Set Warnings "-register-all".
Local Open Scope Z_scope.
Local Open Scope list_scope.
Local Open Scope stdpp_scope.

(* ================================================================== *)
(** * Python built-ins used by the program *)
(* ================================================================== *)

Module Py.

(** ** Characters *)

Definition code (c : ascii) : Z := Z.of_N (N_of_ascii c).
Definition chr (n : Z) : ascii := ascii_of_N (Z.to_N n).

Definition LF : ascii := chr 10.
Definition CR : ascii := chr 13.
Definition TAB : ascii := chr 9.

(** [str.isspace] on one code point: the ASCII white space of CPython's
    table (9..13, 28..32) and, above 127, U+0085 and U+00A0. *)
Definition isspace (c : ascii) : bool :=
  let n := code c in
  ((9 <=? n) && (n <=? 13)) || ((28 <=? n) && (n <=? 32))
  || (n =? 133) || (n =? 160).

Definition isdigit (c : ascii) : bool :=
  let n := code c in (48 <=? n) && (n <=? 57).

Definition digit_val (c : ascii) : Z := code c - 48.

(** [str.lower] on one code point: A..Z, and the upper-case letters of the
    Latin-1 block (U+00C0..U+00DE without the multiplication sign U+00D7). *)
Definition lower_char (c : ascii) : ascii :=
  let n := code c in
  if ((65 <=? n) && (n <=? 90))
     || ((192 <=? n) && (n <=? 222) && negb (n =? 215))
  then chr (n + 32) else c.

(** ** Strings *)

Fixpoint lower (s : string) : string :=
  match s with
  | EmptyString => EmptyString
  | String c s' => String (lower_char c) (lower s')
  end.

(** White space taken off both ends of [s], for a notion [space] of white
    space. *)
Fixpoint lstrip (space : ascii -> bool) (s : string) : string :=
  match s with
  | EmptyString => EmptyString
  | String c s' => if space c then lstrip space s' else s
  end.

Fixpoint rstrip (space : ascii -> bool) (s : string) : string :=
  match s with
  | EmptyString => EmptyString
  | String c s' =>
      match rstrip space s' with
      | EmptyString => if space c then EmptyString else String c EmptyString
      | r => String c r
      end
  end.

(** [s.strip()] *)
Definition strip (s : string) : string := rstrip isspace (lstrip isspace s).

(** The white space that [int] and [float] skip around a number: that of
    C (9..13 and the blank) and, above 127, U+0085 and U+00A0; the
    separators 28..31 are not part of it. *)
Definition isspace_number (c : ascii) : bool :=
  let n := code c in
  ((9 <=? n) && (n <=? 13)) || (n =? 32) || (n =? 133) || (n =? 160).

Definition strip_number (s : string) : string :=
  rstrip isspace_number (lstrip isspace_number s).

(** [s.startswith(p)] *)
Fixpoint startswith (p s : string) : bool :=
  match p, s with
  | EmptyString, _ => true
  | String _ _, EmptyString => false
  | String a p', String b s' => Ascii.eqb a b && startswith p' s'
  end.

(** [needle in hay] on two strings *)
Fixpoint str_in (needle hay : string) : bool :=
  startswith needle hay ||
  match hay with
  | EmptyString => false
  | String _ hay' => str_in needle hay'
  end.

(** [s[n:]] *)
Fixpoint drop_prefix (n : nat) (s : string) : string :=
  match n, s with
  | O, _ => s
  | S _, EmptyString => EmptyString
  | S n', String _ s' => drop_prefix n' s'
  end.

(** [s.split(sep)] for a one-character separator *)
Fixpoint split (sep : ascii) (s : string) : list string :=
  match s with
  | EmptyString => [EmptyString]
  | String c s' =>
      if Ascii.eqb c sep then EmptyString :: split sep s'
      else match split sep s' with
           | h :: t => String c h :: t
           | [] => [String c EmptyString]
           end
  end.

(** Truth value of a string: [if s:] *)
Definition truthy (s : string) : bool :=
  match s with EmptyString => false | _ => true end.

(** ** Integers *)

(** [str(n)] for an [int]. *)
Definition str_of_int (n : Z) : string := NilZero.string_of_int (Z.to_int n).

(** The most digits that [int] reads and [str] writes. *)
Definition MAX_STR_DIGITS : Z := 4300.

(** The digits of [int(s)] after the sign: digits with single underscores
    between them ([prev_us] says that the previous character was one),
    [count] of them so far, and no more than [MAX_STR_DIGITS] in all. *)
Fixpoint int_digits (prev_us : bool) (acc count : Z) (s : string) : option Z :=
  match s with
  | EmptyString =>
      if prev_us || (MAX_STR_DIGITS <? count) then None else Some acc
  | String c s' =>
      if Ascii.eqb c "_"
      then if prev_us then None else int_digits true acc count s'
      else if isdigit c then int_digits false (10 * acc + digit_val c) (count + 1) s'
      else None
  end.

Definition int_unsigned (s : string) : option Z :=
  match s with
  | EmptyString => None
  | String c _ => if Ascii.eqb c "_" then None else int_digits false 0 0 s
  end.

(** [int(s)] in base ten; [None] is [ValueError]. *)
Definition int (s : string) : option Z :=
  match strip_number s with
  | String "+" s' => int_unsigned s'
  | String "-" s' => option_map Z.opp (int_unsigned s')
  | s' => int_unsigned s'
  end.

(** ** Floats (binary64) *)

Definition prec : Z := 53.
Definition emax : Z := 1024.

Abbreviation float := spec_float.

Definition fzero : float := S754_zero false.

(** The binary64 value nearest to [m * 10^e] (ties to even), for [m > 0]:
    what [strtod] returns for a decimal literal. *)
Definition float_of_decimal (neg : bool) (m : positive) (e : Z) : float :=
  match e with
  | Zneg k =>
      let '(q, e', l) := SFdiv_core_binary prec emax (Zpos m) 0 (10 ^ Zpos k) 0 in
      binary_round_aux prec emax neg q e' l
  | _ =>
      match Zpos m * 10 ^ e with
      | Zpos n => binary_round prec emax neg n 0
      | _ => S754_zero neg
      end
  end.

(** [float(n)] for an [int] *)
Definition float_of_int (n : Z) : float := binary_normalize prec emax n 0 false.

Definition fadd : float -> float -> float := SFadd prec emax.
Definition fdiv : float -> float -> float := SFdiv prec emax.
Definition fle : float -> float -> bool := SFleb.

(** Underscores in a numeric literal: only between two digits. The result
    is the literal without them; [None] is [ValueError]. *)
Fixpoint drop_underscores (prev : option ascii) (s : string) : option string :=
  match s with
  | EmptyString =>
      match prev with
      | Some "_"%char => None
      | _ => Some EmptyString
      end
  | String c s' =>
      if Ascii.eqb c "_" then
        match prev with
        | Some p => if isdigit p then drop_underscores (Some c) s' else None
        | None => None
        end
      else
        match prev with
        | Some "_"%char =>
            if isdigit c
            then option_map (String c) (drop_underscores (Some c) s')
            else None
        | _ => option_map (String c) (drop_underscores (Some c) s')
        end
  end.

(** Leading digits of [s]: their value continued from [acc], how many
    there are, and the rest of [s]. *)
Fixpoint take_digits (acc : Z) (n : nat) (s : string) : Z * nat * string :=
  match s with
  | String c s' =>
      if isdigit c then take_digits (10 * acc + digit_val c) (S n) s'
      else (acc, n, s)
  | EmptyString => (acc, n, s)
  end.

(** The exponent part of a decimal literal, which must reach the end. *)
Definition float_exponent (s : string) : option Z :=
  match s with
  | EmptyString => Some 0
  | String c s1 =>
      if Ascii.eqb (lower_char c) "e" then
        let '(neg, s2) :=
          match s1 with
          | String "+" t => (false, t)
          | String "-" t => (true, t)
          | _ => (false, s1)
          end in
        match take_digits 0 0 s2 with
        | (_, O, _) => None
        | (v, S _, EmptyString) => Some (if neg then - v else v)
        | (_, S _, String _ _) => None
        end
      else None
  end.

(** An unsigned decimal literal: digits, an optional point and digits, an
    optional exponent; at least one digit before the exponent. *)
Definition float_decimal (neg : bool) (s : string) : option float :=
  let '(mi, ni, s1) := take_digits 0 0 s in
  let '(m, nf, s2) :=
    match s1 with
    | String "." t => take_digits mi 0 t
    | _ => (mi, O, s1)
    end in
  match (ni + nf)%nat with
  | O => None
  | S _ =>
      match float_exponent s2 with
      | None => None
      | Some ex =>
          Some match m with
               | Zpos p => float_of_decimal neg p (ex - Z.of_nat nf)
               | _ => S754_zero neg
               end
      end
  end.

Definition float_unsigned (neg : bool) (s : string) : option float :=
  let l := lower s in
  if String.eqb l "inf" || String.eqb l "infinity" then Some (S754_infinity neg)
  else if String.eqb l "nan" then Some S754_nan
  else float_decimal neg s.

(** [float(s)]; [None] is [ValueError]. *)
Definition float_of_str (s : string) : option float :=
  match drop_underscores None (strip_number s) with
  | None => None
  | Some t =>
      match t with
      | String "+" t' => float_unsigned false t'
      | String "-" t' => float_unsigned true t'
      | _ => float_unsigned false t
      end
  end.

(** *** Printing floats *)

Definition round_half_even (num den : Z) : Z :=
  let q := num / den in
  match 2 * (num mod den) ?= den with
  | Lt => q
  | Gt => q + 1
  | Eq => if Z.even q then q else q + 1
  end.

Definition two_digits (n : Z) : string :=
  if n <? 10 then "0" +:+ str_of_int n else str_of_int n.

(** A count of hundredths printed with two decimals. *)
Definition fixed2 (neg : bool) (hundredths : Z) : string :=
  (if neg then "-" else EmptyString) +:+ str_of_int (hundredths / 100) +:+ "."
  +:+ two_digits (hundredths mod 100).

(** [format(x, ".2f")]: the exact value of [x] rounded to two decimals,
    ties to even. *)
Definition format_2f (x : float) : string :=
  match x with
  | S754_nan => "nan"
  | S754_infinity s => if s then "-inf" else "inf"
  | S754_zero s => fixed2 s 0
  | S754_finite s m e =>
      fixed2 s match e with
               | Zneg k => round_half_even (Zpos m * 100) (2 ^ Zpos k)
               | _ => Zpos m * 2 ^ e * 100
               end
  end.

Fixpoint zeros (n : nat) : string :=
  match n with O => EmptyString | S n' => String "0" (zeros n') end.

Fixpoint take_prefix (n : nat) (s : string) : string :=
  match n, s with
  | S n', String c s' => String c (take_prefix n' s')
  | _, _ => EmptyString
  end.

(** The shortest decimal [n * 10^k] that reads back as the float
    [m * 2^e], the nearest to it among the shortest: searched from the
    exponent [k] downwards. Values are compared in units of [2^(e-2)]: the
    float is [4 m], and the reals that round to it lie between [lo] and
    [4 m + 2], bounds included when [m] is even. *)
Fixpoint shortest_digits (fuel : nat) (m : positive) (e : Z) (k : Z) : Z * Z :=
  let e2 := e - 2 in
  let P := 10 ^ Z.max k 0 * 2 ^ Z.max (- e2) 0 in
  let Q := 2 ^ Z.max e2 0 * 10 ^ Z.max (- k) 0 in
  let x := 4 * Zpos m * Q in
  let lo := (if (Zpos m =? 2 ^ 52) && (- 1074 <? e)
             then 4 * Zpos m - 1 else 4 * Zpos m - 2) * Q in
  let hi := (4 * Zpos m + 2) * Q in
  let inside n :=
    let v := n * P in
    if Z.even (Zpos m) then (lo <=? v) && (v <=? hi)
    else (lo <? v) && (v <? hi) in
  let n1 := x / P in
  let n2 := n1 + 1 in
  let pick :=
    match inside n1, inside n2 with
    | true, true =>
        match x - n1 * P ?= n2 * P - x with
        | Lt => Some n1
        | Gt => Some n2
        | Eq => Some (if Z.even n1 then n1 else n2)
        end
    | true, false => Some n1
    | false, true => Some n2
    | false, false => None
    end in
  match pick, fuel with
  | Some n, _ => (n, k)
  | None, S fuel' => shortest_digits fuel' m e (k - 1)
  | None, O => (x / P, k)
  end.

(** [repr(x)], which is also [str(x)]: the shortest digits, in scientific
    notation when the decimal point would be far from them. *)
Definition float_repr (x : float) : string :=
  match x with
  | S754_nan => "nan"
  | S754_infinity s => if s then "-inf" else "inf"
  | S754_zero s => if s then "-0.0" else "0.0"
  | S754_finite s m e =>
      let bits := Z.log2 (4 * Zpos m + 2) + (e - 2) + 1 in
      let '(n, k) := shortest_digits 400 m e (bits * 30103 / 100000 + 2) in
      let ds := str_of_int n in
      let nd := String.length ds in
      let decpt := k + Z.of_nat nd in
      (if s then "-" else EmptyString) +:+
      (if (decpt <=? -4) || (16 <? decpt) then
         let ex := decpt - 1 in
         take_prefix 1 ds
         +:+ (match nd with S (S _) => "." +:+ drop_prefix 1 ds | _ => EmptyString end)
         +:+ "e" +:+ (if ex <? 0 then "-" else "+")
         +:+ two_digits (Z.abs ex)
       else if decpt <=? 0 then
         "0." +:+ zeros (Z.to_nat (- decpt)) +:+ ds
       else if Z.of_nat nd <=? decpt then
         ds +:+ zeros (Z.to_nat (decpt - Z.of_nat nd)) +:+ ".0"
       else
         take_prefix (Z.to_nat decpt) ds +:+ "." +:+ drop_prefix (Z.to_nat decpt) ds)
  end.

End Py.

(* ================================================================== *)
(** * The csv module, in the default (excel) dialect *)
(* ================================================================== *)

(** The dialect: delimiter [,], the double quote as quote character, doubled inside fields, line
    terminator CR LF, minimal quoting, not strict, no escape character. *)

Module Csv.

Definition DELIM : ascii := ","%char.
Definition QUOTE : ascii := Py.chr 34.

Definition is_newline (c : ascii) : bool := Ascii.eqb c Py.CR || Ascii.eqb c Py.LF.

(** ** Writer *)

Definition special (c : ascii) : bool :=
  Ascii.eqb c DELIM || Ascii.eqb c QUOTE || is_newline c.

Fixpoint needs_quotes (s : string) : bool :=
  match s with
  | EmptyString => false
  | String c s' => special c || needs_quotes s'
  end.

Fixpoint double_quotes (s : string) : string :=
  match s with
  | EmptyString => EmptyString
  | String c s' =>
      if Ascii.eqb c QUOTE then String QUOTE (String QUOTE (double_quotes s'))
      else String c (double_quotes s')
  end.

Definition write_field (s : string) : string :=
  if needs_quotes s
  then String QUOTE (double_quotes s +:+ String QUOTE EmptyString)
  else s.

Fixpoint join_fields (fs : list string) : string :=
  match fs with
  | [] => EmptyString
  | [f] => write_field f
  | f :: fs' => write_field f +:+ String DELIM (join_fields fs')
  end.

Definition CRLF : string := String Py.CR (String Py.LF EmptyString).

(** [writer.writerow]: a record that would be empty (one empty field) is
    written as a pair of quotes. *)
Definition writerow (fs : list string) : string :=
  match fs with
  | [EmptyString] => String QUOTE (String QUOTE CRLF)
  | _ => join_fields fs +:+ CRLF
  end.

Fixpoint writerows (rows : list (list string)) : string :=
  match rows with
  | [] => EmptyString
  | r :: rows' => writerow r +:+ writerows rows'
  end.

(** ** Reader *)

(** Iterating over a file opened with [newline='']: lines end at LF, at
    CR LF, or at a CR alone, and keep their ending. *)
Fixpoint file_lines (s : string) : list string :=
  match s with
  | EmptyString => []
  | String c s' =>
      if Ascii.eqb c Py.LF then String c EmptyString :: file_lines s'
      else if Ascii.eqb c Py.CR then
        match s' with
        | String c' s'' =>
            if Ascii.eqb c' Py.LF
            then String c (String c' EmptyString) :: file_lines s''
            else String c EmptyString :: file_lines s'
        | EmptyString => [String c EmptyString]
        end
      else
        match file_lines s' with
        | l :: ls => String c l :: ls
        | [] => [String c EmptyString]
        end
  end.

Inductive state :=
  | START_RECORD | START_FIELD | IN_FIELD | IN_QUOTED_FIELD
  | QUOTE_IN_QUOTED_FIELD | EAT_CRNL.

Definition state_eqb (a b : state) : bool :=
  match a, b with
  | START_RECORD, START_RECORD | START_FIELD, START_FIELD
  | IN_FIELD, IN_FIELD | IN_QUOTED_FIELD, IN_QUOTED_FIELD
  | QUOTE_IN_QUOTED_FIELD, QUOTE_IN_QUOTED_FIELD | EAT_CRNL, EAT_CRNL => true
  | _, _ => false
  end.

(** The parser: its state, the field being read, the fields of the record
    read so far. *)
Record parser := Parser { st : state; field : string; fields : list string }.

Definition parse_reset : parser := Parser START_RECORD EmptyString [].

(** [csv.field_size_limit()]: the most characters a field may have. *)
Definition FIELD_LIMIT : Z := 131072.

(** [parse_add_char]; [None] is the [csv.Error] of a field that is full. *)
Definition parse_add_char (c : ascii) (next : state) (p : parser) : option parser :=
  if Z.of_nat (String.length (field p)) <? FIELD_LIMIT
  then Some (Parser next (field p +:+ String c EmptyString) (fields p))
  else None.

Definition parse_save_field (next : state) (p : parser) : parser :=
  Parser next EmptyString (fields p ++ [field p]).

Definition set_state (next : state) (p : parser) : parser :=
  Parser next (field p) (fields p).

(** The state after a field ended at [c]: the end of the line, or a
    newline character still to be eaten. *)
Definition after_record (c : option ascii) : state :=
  match c with None => START_RECORD | Some _ => EAT_CRNL end.

Definition ends_line (c : option ascii) : bool :=
  match c with None => true | Some ch => is_newline ch end.

(** [parse_process_char]; [None] as a character is the end-of-line mark
    the reader feeds after each line, [None] as a result is [csv.Error]. *)
Definition parse_process_char (c : option ascii) (p : parser) : option parser :=
  let start_field :=
    if ends_line c then Some (parse_save_field (after_record c) p)
    else match c with
         | None => Some p
         | Some ch =>
             if Ascii.eqb ch QUOTE then Some (set_state IN_QUOTED_FIELD p)
             else if Ascii.eqb ch DELIM then Some (parse_save_field START_FIELD p)
             else parse_add_char ch IN_FIELD p
         end in
  match st p with
  | START_RECORD =>
      match c with
      | None => Some p
      | Some ch => if is_newline ch then Some (set_state EAT_CRNL p) else start_field
      end
  | START_FIELD => start_field
  | IN_FIELD =>
      if ends_line c then Some (parse_save_field (after_record c) p)
      else match c with
           | None => Some p
           | Some ch =>
               if Ascii.eqb ch DELIM then Some (parse_save_field START_FIELD p)
               else parse_add_char ch IN_FIELD p
           end
  | IN_QUOTED_FIELD =>
      match c with
      | None => Some p
      | Some ch =>
          if Ascii.eqb ch QUOTE then Some (set_state QUOTE_IN_QUOTED_FIELD p)
          else parse_add_char ch IN_QUOTED_FIELD p
      end
  | QUOTE_IN_QUOTED_FIELD =>
      match c with
      | None => Some (parse_save_field START_RECORD p)
      | Some ch =>
          if Ascii.eqb ch QUOTE then parse_add_char ch IN_QUOTED_FIELD p
          else if Ascii.eqb ch DELIM then Some (parse_save_field START_FIELD p)
          else if is_newline ch then Some (parse_save_field EAT_CRNL p)
          else parse_add_char ch IN_FIELD p
      end
  | EAT_CRNL =>
      match c with
      | None => Some (set_state START_RECORD p)
      | Some ch => if is_newline ch then Some p else None
      end
  end.

(** One line: its characters, then the end-of-line mark. *)
Fixpoint feed_line (line : string) (p : parser) : option parser :=
  match line with
  | EmptyString => parse_process_char None p
  | String c line' =>
      match parse_process_char (Some c) p with
      | Some p' => feed_line line' p'
      | None => None
      end
  end.

(** [list(csv.reader(f))]: a record is complete when a line ends in state
    [START_RECORD]; at the end of the input a record cut short inside a
    quoted field is returned as it stands. *)
Fixpoint read_records (p : parser) (lines : list string) : option (list (list string)) :=
  match lines with
  | [] =>
      if negb (String.eqb (field p) EmptyString) || state_eqb (st p) IN_QUOTED_FIELD
      then Some [fields p ++ [field p]]
      else Some []
  | l :: ls =>
      match feed_line l p with
      | None => None
      | Some p' =>
          if state_eqb (st p') START_RECORD
          then option_map (cons (fields p')) (read_records parse_reset ls)
          else read_records p' ls
      end
  end.

Definition reader (text : string) : option (list (list string)) :=
  read_records parse_reset (file_lines text).

End Csv.

(* ================================================================== *)
(** * Values, records and the world *)
(* ================================================================== *)

(** Python values that can sit in a record handed to the csv writer or come
    out of [json.load]. A [VDict] keeps its items in insertion order. *)
Inductive value :=
  | VNone
  | VBool (b : bool)
  | VInt (n : Z)
  | VFloat (x : Py.float)
  | VStr (s : string)
  | VList (l : list value)
  | VDict (d : list (string * value)).

(** A mapping with exactly the keys Title, Author, Year, Genre, Rating. *)
Record row (A : Type) := Row {
  Title : A; Author : A; Year : A; Genre : A; Rating : A
}.
Arguments Row {A} _ _ _ _ _.
Arguments Title {A} _.
Arguments Author {A} _.
Arguments Year {A} _.
Arguments Genre {A} _.
Arguments Rating {A} _.

(** A book as [csv.DictReader] yields it: every value is a string. *)
Abbreviation book := (row string).
(** A record as the program builds it: any value may sit under a key. *)
Abbreviation entry := (row value).

Definition row_map {A B} (f : A -> B) (r : row A) : row B :=
  Row (f (Title r)) (f (Author r)) (f (Year r)) (f (Genre r)) (f (Rating r)).

Definition row_values {A} (r : row A) : list A :=
  [Title r; Author r; Year r; Genre r; Rating r].

Definition as_entry (b : book) : entry := row_map VStr b.

Definition book_eqb (a b : book) : bool :=
  String.eqb (Title a) (Title b) && String.eqb (Author a) (Author b)
  && String.eqb (Year a) (Year b) && String.eqb (Genre a) (Genre b)
  && String.eqb (Rating a) (Rating b).

(** [b in l] on a list of records: equality of the five values. *)
Definition book_in (b : book) (l : list book) : bool := existsb (book_eqb b) l.

Definition FIELDNAMES : list string := ["Title"; "Author"; "Year"; "Genre"; "Rating"].
Definition STORE : string := "library.csv".

(** The exceptions of the program. *)
Inductive exn :=
  | EOFError            (* [input] at the end of the input *)
  | CsvError            (* [csv.Error] *)
  | FileNotFoundError
  | JSONDecodeError
  | TypeError
  | ValueError
  | Unmodelled.         (* a value or file shape outside this embedding *)

(** What is written to the console: the prompt of an [input], the text of
    a [print] (without the newline that ends it), or the message printed
    for a caught exception. *)
Inductive event :=
  | Prompt (s : string)
  | Print (s : string)
  | PrintExn (s : string) (e : exn).  (* [print(f"{s}{e}")] for a caught [e] *)

Record world := World {
  files : gmap string string;   (* file name to contents *)
  stdin : list string;          (* lines still to be read *)
  console : list event          (* written so far, oldest first *)
}.

Inductive result (A : Type) := Ok (a : A) | Raise (e : exn).
Arguments Ok {A} _.
Arguments Raise {A} _.

(** Commands: state passing over the world, with exceptions. The world
    after a raise is the one the exception left behind. *)
Definition M (A : Type) : Type := world -> result A * world.

Definition ret {A} (a : A) : M A := fun w => (Ok a, w).
Definition raise {A} (e : exn) : M A := fun w => (Raise e, w).
Definition bind {A B} (m : M A) (k : A -> M B) : M B :=
  fun w => match m w with
           | (Ok a, w') => k a w'
           | (Raise e, w') => (Raise e, w')
           end.

Declare Scope cmd_scope.
Delimit Scope cmd_scope with cmd.
Notation "x <- m ;; k" := (bind m (fun x => k))
  (at level 100, m at next level, right associativity) : cmd_scope.
Notation "m ;; k" := (bind m (fun _ => k))
  (at level 100, right associativity) : cmd_scope.
Local Open Scope cmd_scope.

Definition emit (e : event) : M unit :=
  fun w => (Ok tt, World (files w) (stdin w) (console w ++ [e])).

(** [print(s)] *)
Definition print (s : string) : M unit := emit (Print s).

Fixpoint print_all (l : list string) : M unit :=
  match l with
  | [] => ret tt
  | s :: l' => print s ;; print_all l'
  end.

(** [input(prompt)] *)
Definition input (prompt : string) : M string :=
  fun w => match stdin w with
           | [] => (Raise EOFError, World (files w) [] (console w ++ [Prompt prompt]))
           | l :: rest => (Ok l, World (files w) rest (console w ++ [Prompt prompt]))
           end.

(** [open(name, 'r').read()], with [None] for [FileNotFoundError] *)
Definition read_file (name : string) : M (option string) :=
  fun w => (Ok (files w !! name), w).

(** [open(name, 'w').write(text)] *)
Definition write_file (name text : string) : M unit :=
  fun w => (Ok tt, World (<[name := text]> (files w)) (stdin w) (console w)).

(** A loop [while True: line = input(prompt); ...] whose body only prints
    and decides: go round again with a new state, or leave with a result. *)
Inductive step (S A : Type) := Continue (s : S) | Break (a : A).
Arguments Continue {S A} _.
Arguments Break {S A} _.

Fixpoint ask {S A} (prompt : string) (body : S -> string -> list string * step S A)
    (s : S) (inp : list string) : list event * list string * result A :=
  match inp with
  | [] => ([Prompt prompt], [], Raise EOFError)
  | line :: rest =>
      let '(msgs, next) := body s line in
      match next with
      | Break a => (Prompt prompt :: map Print msgs, rest, Ok a)
      | Continue s' =>
          let '(evs, rest', r) := ask prompt body s' rest in
          (Prompt prompt :: map Print msgs ++ evs, rest', r)
      end
  end.

Definition ask_loop {S A} (prompt : string)
    (body : S -> string -> list string * step S A) (s : S) : M A :=
  fun w => let '(evs, rest, r) := ask prompt body s (stdin w) in
           (r, World (files w) rest (console w ++ evs)).

(* ================================================================== *)
(** * The json module *)
(* ================================================================== *)

Module Json.

Definition QUOTE : ascii := Py.chr 34.
Definition BACKSLASH : ascii := Py.chr 92.

(** ** [json.dumps(v, indent=4)] *)

Definition hex_digit (n : Z) : ascii :=
  if n <? 10 then Py.chr (48 + n) else Py.chr (87 + n).

(** One character inside a string, with [ensure_ascii]: the short escapes,
    the printable ASCII characters as they are, [\u00XX] for the rest. *)
Definition encode_char (c : ascii) : string :=
  let n := Py.code c in
  if n =? 34 then String BACKSLASH (String QUOTE EmptyString)
  else if n =? 92 then String BACKSLASH (String BACKSLASH EmptyString)
  else if n =? 10 then String BACKSLASH "n"
  else if n =? 13 then String BACKSLASH "r"
  else if n =? 9 then String BACKSLASH "t"
  else if n =? 8 then String BACKSLASH "b"
  else if n =? 12 then String BACKSLASH "f"
  else if (32 <=? n) && (n <=? 126) then String c EmptyString
  else String BACKSLASH
         (String "u" (String "0" (String "0"
            (String (hex_digit (n / 16)) (String (hex_digit (n mod 16)) EmptyString))))).

Fixpoint encode_chars (s : string) : string :=
  match s with
  | EmptyString => EmptyString
  | String c s' => encode_char c +:+ encode_chars s'
  end.

Definition encode_string (s : string) : string :=
  String QUOTE (encode_chars s +:+ String QUOTE EmptyString).

Fixpoint spaces (n : nat) : string :=
  match n with O => EmptyString | S n' => String " " (spaces n') end.

(** A newline and the indentation of nesting depth [level]. *)
Definition newline_indent (level : nat) : string :=
  String Py.LF (spaces (4 * level)).

Definition encode_float (x : Py.float) : string :=
  match x with
  | S754_nan => "NaN"
  | S754_infinity false => "Infinity"
  | S754_infinity true => "-Infinity"
  | _ => Py.float_repr x
  end.

Fixpoint dumps (level : nat) (v : value) : string :=
  match v with
  | VNone => "null"
  | VBool true => "true"
  | VBool false => "false"
  | VInt n => Py.str_of_int n
  | VFloat x => encode_float x
  | VStr s => encode_string s
  | VList [] => "[]"
  | VList (x :: l) =>
      "[" +:+ newline_indent (S level) +:+ dumps (S level) x +:+
      (fix items (l : list value) : string :=
         match l with
         | [] => EmptyString
         | y :: l' => "," +:+ newline_indent (S level) +:+ dumps (S level) y +:+ items l'
         end) l
      +:+ newline_indent level +:+ "]"
  | VDict [] => "{}"
  | VDict ((k, x) :: d) =>
      "{" +:+ newline_indent (S level) +:+ encode_string k +:+ ": " +:+ dumps (S level) x +:+
      (fix members (d : list (string * value)) : string :=
         match d with
         | [] => EmptyString
         | (k', y) :: d' =>
             "," +:+ newline_indent (S level) +:+ encode_string k' +:+ ": "
             +:+ dumps (S level) y +:+ members d'
         end) d
      +:+ newline_indent level +:+ "}"
  end.

(** ** [json.loads] *)

Definition is_ws (c : ascii) : bool :=
  let n := Py.code c in (n =? 32) || (n =? 9) || (n =? 10) || (n =? 13).

Fixpoint skip_ws (s : string) : string :=
  match s with
  | String c s' => if is_ws c then skip_ws s' else s
  | EmptyString => EmptyString
  end.

Definition hex_val (c : ascii) : option Z :=
  let n := Py.code c in
  if (48 <=? n) && (n <=? 57) then Some (n - 48)
  else if (97 <=? n) && (n <=? 102) then Some (n - 87)
  else if (65 <=? n) && (n <=? 70) then Some (n - 55)
  else None.

Definition hex4 (a b c d : ascii) : option Z :=
  match hex_val a, hex_val b, hex_val c, hex_val d with
  | Some x, Some y, Some z, Some w => Some (((x * 16 + y) * 16 + z) * 16 + w)
  | _, _, _, _ => None
  end.

Definition unescape (c : ascii) : option ascii :=
  let n := Py.code c in
  if n =? 34 then Some QUOTE
  else if n =? 92 then Some BACKSLASH
  else if n =? 47 then Some "/"%char
  else if n =? 98 then Some (Py.chr 8)
  else if n =? 102 then Some (Py.chr 12)
  else if n =? 110 then Some Py.LF
  else if n =? 114 then Some Py.CR
  else if n =? 116 then Some Py.TAB
  else None.

(** The contents of a string literal after its opening quote, and what
    follows the closing quote. A [\uXXXX] above U+00FF has no character in
    this embedding. *)
Fixpoint scan_string (s : string) : result (string * string) :=
  match s with
  | EmptyString => Raise JSONDecodeError
  | String c s' =>
      if Ascii.eqb c QUOTE then Ok (EmptyString, s')
      else if Ascii.eqb c BACKSLASH then
        match s' with
        | String "u" (String h1 (String h2 (String h3 (String h4 s'')))) =>
            match hex4 h1 h2 h3 h4 with
            | None => Raise JSONDecodeError
            | Some n =>
                if n <? 256 then
                  match scan_string s'' with
                  | Ok (t, rest) => Ok (String (Py.chr n) t, rest)
                  | Raise e => Raise e
                  end
                else Raise Unmodelled
            end
        | String e s'' =>
            match unescape e with
            | None => Raise JSONDecodeError
            | Some ch =>
                match scan_string s'' with
                | Ok (t, rest) => Ok (String ch t, rest)
                | Raise e => Raise e
                end
            end
        | EmptyString => Raise JSONDecodeError
        end
      else if Py.code c <? 32 then Raise JSONDecodeError
      else
        match scan_string s' with
        | Ok (t, rest) => Ok (String c t, rest)
        | Raise e => Raise e
        end
  end.

(** A number after its optional minus sign: [0] or digits without a
    leading zero, then an optional fraction and an optional exponent, each
    taken only when complete. With a fraction or an exponent the number is
    a float; without, it goes through [int], which refuses more than
    [Py.MAX_STR_DIGITS] digits. *)
Definition scan_number (neg : bool) (s : string) : result (value * string) :=
  match s with
  | String c s' =>
      if Py.isdigit c then
        let '(mi, ni, s1) :=
          if Ascii.eqb c "0" then (0, 1%nat, s') else Py.take_digits 0 0 s in
        let '(m, nf, s2) :=
          match s1 with
          | String "." t =>
              match Py.take_digits mi 0 t with
              | (_, O, _) => (mi, O, s1)
              | r => r
              end
          | _ => (mi, O, s1)
          end in
        let '(has_exp, ex, s3) :=
          match s2 with
          | String e t =>
              if Ascii.eqb (Py.lower_char e) "e" then
                let '(eneg, t') :=
                  match t with
                  | String "+" u => (false, u)
                  | String "-" u => (true, u)
                  | _ => (false, t)
                  end in
                match Py.take_digits 0 0 t' with
                | (_, O, _) => (false, 0, s2)
                | (v, S _, rest) => (true, if eneg then - v else v, rest)
                end
              else (false, 0, s2)
          | EmptyString => (false, 0, s2)
          end in
        match nf, has_exp with
        | O, false =>
            if Py.MAX_STR_DIGITS <? Z.of_nat ni then Raise ValueError
            else Ok (VInt (if neg then - m else m), s3)
        | _, _ =>
            Ok (VFloat match m with
                       | Zpos p => Py.float_of_decimal neg p (ex - Z.of_nat nf)
                       | _ => S754_zero neg
                       end, s3)
        end
      else Raise JSONDecodeError
  | EmptyString => Raise JSONDecodeError
  end.

(** [s] with the prefix [p] taken off, when it starts with it. *)
Fixpoint strip_prefix (p s : string) : option string :=
  match p, s with
  | EmptyString, _ => Some s
  | String a p', String b s' => if Ascii.eqb a b then strip_prefix p' s' else None
  | String _ _, EmptyString => None
  end.

Definition scan_constant (s : string) : result (value * string) :=
  match strip_prefix "null" s with
  | Some r => Ok (VNone, r)
  | None =>
  match strip_prefix "true" s with
  | Some r => Ok (VBool true, r)
  | None =>
  match strip_prefix "false" s with
  | Some r => Ok (VBool false, r)
  | None =>
  match strip_prefix "NaN" s with
  | Some r => Ok (VFloat S754_nan, r)
  | None =>
  match strip_prefix "Infinity" s with
  | Some r => Ok (VFloat (S754_infinity false), r)
  | None =>
  match strip_prefix "-Infinity" s with
  | Some r => Ok (VFloat (S754_infinity true), r)
  | None => Raise JSONDecodeError
  end end end end end end.

(** [d[k] = v] on a dict: a key that is there keeps its place and takes
    the new value, a new key goes to the end. *)
Fixpoint dict_set (k : string) (v : value) (d : list (string * value))
    : list (string * value) :=
  match d with
  | [] => [(k, v)]
  | (k', v') :: d' =>
      if String.eqb k' k then (k', v) :: d' else (k', v') :: dict_set k v d'
  end.

(** [dict(pairs)] *)
Definition dict_of_pairs (pairs : list (string * value)) : list (string * value) :=
  fold_left (fun d kv => dict_set (fst kv) (snd kv) d) pairs [].

(** [d.get(k)] *)
Fixpoint dict_get (k : string) (d : list (string * value)) : option value :=
  match d with
  | [] => None
  | (k', v) :: d' => if String.eqb k' k then Some v else dict_get k d'
  end.

(** The recursive-descent scanner. Each call takes one unit of [fuel]; a
    text needs at most two nested calls for each of its characters (an
    opening bracket: one for the array, one for its first item). *)
Fixpoint scan_once (fuel : nat) (s : string) : result (value * string) :=
  match fuel with
  | O => Raise Unmodelled
  | S fuel' =>
      match s with
      | String c s' =>
          if Ascii.eqb c QUOTE then
            match scan_string s' with
            | Ok (t, rest) => Ok (VStr t, rest)
            | Raise e => Raise e
            end
          else if Ascii.eqb c "{" then
            match skip_ws s' with
            | String c1 s1 =>
                if Ascii.eqb c1 "}" then Ok (VDict [], s1)
                else
                  match scan_members fuel' (String c1 s1) with
                  | Ok (pairs, rest) => Ok (VDict (dict_of_pairs pairs), rest)
                  | Raise e => Raise e
                  end
            | EmptyString => Raise JSONDecodeError
            end
          else if Ascii.eqb c "[" then
            match skip_ws s' with
            | String c1 s1 =>
                if Ascii.eqb c1 "]" then Ok (VList [], s1)
                else
                  match scan_items fuel' (String c1 s1) with
                  | Ok (l, rest) => Ok (VList l, rest)
                  | Raise e => Raise e
                  end
            | EmptyString => Raise JSONDecodeError
            end
          else if Ascii.eqb c "-" then
            match s' with
            | String "I" _ => scan_constant s
            | _ => scan_number true s'
            end
          else if Py.isdigit c then scan_number false s
          else scan_constant s
      | EmptyString => Raise JSONDecodeError
      end
  end

(** The items of an array from the first character of an item on, up to
    and with the closing bracket. *)
with scan_items (fuel : nat) (s : string) : result (list value * string) :=
  match fuel with
  | O => Raise Unmodelled
  | S fuel' =>
      match scan_once fuel' s with
      | Raise e => Raise e
      | Ok (v, rest) =>
          match skip_ws rest with
          | String c r =>
              if Ascii.eqb c "]" then Ok ([v], r)
              else if Ascii.eqb c "," then
                match scan_items fuel' (skip_ws r) with
                | Ok (l, rest') => Ok (v :: l, rest')
                | Raise e => Raise e
                end
              else Raise JSONDecodeError
          | EmptyString => Raise JSONDecodeError
          end
      end
  end

(** The members of an object from the quote of a key on, up to and with
    the closing brace, as pairs in the order of the text. *)
with scan_members (fuel : nat) (s : string) : result (list (string * value) * string) :=
  match fuel with
  | O => Raise Unmodelled
  | S fuel' =>
      match s with
      | String q s' =>
          if Ascii.eqb q QUOTE then
            match scan_string s' with
            | Raise e => Raise e
            | Ok (k, s1) =>
                match skip_ws s1 with
                | String ":" s2 =>
                    match scan_once fuel' (skip_ws s2) with
                    | Raise e => Raise e
                    | Ok (v, s3) =>
                        match skip_ws s3 with
                        | String c r =>
                            if Ascii.eqb c "}" then Ok ([(k, v)], r)
                            else if Ascii.eqb c "," then
                              match scan_members fuel' (skip_ws r) with
                              | Ok (d, rest') => Ok ((k, v) :: d, rest')
                              | Raise e => Raise e
                              end
                            else Raise JSONDecodeError
                        | EmptyString => Raise JSONDecodeError
                        end
                    end
                | _ => Raise JSONDecodeError
                end
            end
          else Raise JSONDecodeError
      | EmptyString => Raise JSONDecodeError
      end
  end.

(** [json.loads(text)]: one value between white space, and nothing else. *)
Definition loads (text : string) : result value :=
  match scan_once (S (2 * String.length text)) (skip_ws text) with
  | Raise e => Raise e
  | Ok (v, rest) =>
      match skip_ws rest with
      | EmptyString => Ok v
      | String _ _ => Raise JSONDecodeError
      end
  end.


End Json.

(* ================================================================== *)
(** * The storage adapter *)
(* ================================================================== *)

(** The text the csv writer makes of a value: [None] is the empty string, a
    string is itself, anything else goes through [str]. [str] of a list or
    of a dict is not modelled. *)
Definition cell_text (v : value) : option string :=
  match v with
  | VNone => Some EmptyString
  | VStr s => Some s
  | VInt n => Some (Py.str_of_int n)
  | VFloat x => Some (Py.float_repr x)
  | VBool b => Some (if b then "True" else "False")
  | VList _ | VDict _ => None
  end.

Fixpoint cells_text (vs : list value) : option (list string) :=
  match vs with
  | [] => Some []
  | v :: vs' =>
      match cell_text v, cells_text vs' with
      | Some s, Some ss => Some (s :: ss)
      | _, _ => None
      end
  end.

Fixpoint entries_text (es : list entry) : option (list (list string)) :=
  match es with
  | [] => Some []
  | e :: es' =>
      match cells_text (row_values e), entries_text es' with
      | Some r, Some rs => Some (r :: rs)
      | _, _ => None
      end
  end.

(** The store holding the given data rows under the header row. *)
Definition store_text (rows : list (list string)) : string :=
  Csv.writerows (FIELDNAMES :: rows).

(** [csv.DictReader] on a table whose header is the five field names and
    whose rows have five cells. Blank rows are skipped, as DictReader does;
    other tables are not modelled. *)
Definition book_of_cells (cells : list string) : option book :=
  match cells with
  | [t; a; y; g; r] => Some (Row t a y g r)
  | _ => None
  end.

Fixpoint books_of_rows (rows : list (list string)) : option (list book) :=
  match rows with
  | [] => Some []
  | [] :: rows' => books_of_rows rows'
  | r :: rows' =>
      match book_of_cells r, books_of_rows rows' with
      | Some b, Some bs => Some (b :: bs)
      | _, _ => None
      end
  end.

Definition DictReader (text : string) : result (list book) :=
  match Csv.reader text with
  | None => Raise CsvError
  | Some [] => Ok []
  | Some (header :: rows) =>
      if decide (header = FIELDNAMES) then
        match books_of_rows rows with
        | Some bs => Ok bs
        | None => Raise Unmodelled
        end
      else if forallb (fun r => match r with [] => true | _ => false end) rows
      then Ok []
      else Raise Unmodelled
  end.

(** [load_books] *)
Definition load_books : M (list book) :=
  text <- read_file STORE ;;
  match text with
  | Some t =>
      match DictReader t with
      | Ok bs => ret bs
      | Raise e => raise e
      end
  | None =>
      (* FileNotFoundError: create the file with the header *)
      write_file STORE (Csv.writerow FIELDNAMES) ;;
      ret []
  end.

(** [save_books] *)
Definition save_books (books : list entry) : M unit :=
  match entries_text books with
  | Some rows => write_file STORE (store_text rows)
  | None => raise Unmodelled
  end.

(* ================================================================== *)
(** * The command handlers *)
(* ================================================================== *)

Definition NL : string := String Py.LF EmptyString.

Definition str_of_nat (n : nat) : string := Py.str_of_int (Z.of_nat n).

(** [enumerate(l, start)] *)
Fixpoint enumerate {A} (start : nat) (l : list A) : list (nat * A) :=
  match l with
  | [] => []
  | x :: l' => (start, x) :: enumerate (S start) l'
  end.

(** ** Add *)

Definition required_body (message : string) (_ : unit) (line : string)
    : list string * step unit string :=
  let answer := Py.strip line in
  if Py.truthy answer then ([], Break answer) else ([message], Continue tt).

(** The year loop. The variable [year] starts as the empty string; a
    parsed year is assigned to it before the range check. *)
Definition year_body (current_year : Z) (year : value) (line : string)
    : list string * step value value :=
  let year_input := Py.strip line in
  if negb (Py.truthy year_input) then ([], Break year)
  else
    match Py.int year_input with
    | Some y =>
        if (y <? 0) || (current_year <? y)
        then (["Year must be between 0 and " +:+ Py.str_of_int current_year +:+ "."],
              Continue (VInt y))
        else ([], Break (VStr (Py.str_of_int y)))
    | None => (["Please enter a valid integer for the year."], Continue year)
    end.

Definition rating_body (_ : unit) (line : string) : list string * step unit value :=
  let rating_input := Py.strip line in
  if negb (Py.truthy rating_input) then ([], Break (VStr EmptyString))
  else
    match Py.float_of_str rating_input with
    | Some rating_val =>
        if Py.fle Py.fzero rating_val && Py.fle rating_val (Py.float_of_int 5)
        then ([], Break (VStr (Py.float_repr rating_val)))
        else (["Rating must be between 0 and 5."], Continue tt)
    | None => (["Please enter a valid number for the rating."], Continue tt)
    end.

(** [add_book], with the year of the clock as a parameter *)
Definition add_book (current_year : Z) : M unit :=
  books <- load_books ;;
  title <- ask_loop "Enter the book's title: " (required_body "Title is required.") tt ;;
  author <- ask_loop "Enter the author's name: " (required_body "Author is required.") tt ;;
  year <- ask_loop "Enter the publication year (optional): "
            (year_body current_year) (VStr EmptyString) ;;
  line <- input "Enter the genre (optional): " ;;
  let genre := Py.strip line in
  rating <- ask_loop "Enter the rating (0-5, optional): " rating_body tt ;;
  let new_book := Row (VStr title) (VStr author) year (VStr genre) rating in
  save_books (map as_entry books ++ [new_book]) ;;
  print ("Book '" +:+ title +:+ "' added successfully!").

(** ** List *)

Definition book_line (ib : nat * book) : string :=
  let '(idx, b) := ib in
  str_of_nat idx +:+ ". " +:+ Title b +:+ " by " +:+ Author b +:+ " (" +:+ Year b
  +:+ ") - Genre: " +:+ Genre b +:+ ", Rating: " +:+ Rating b.

(** [list_books] *)
Definition list_books : M unit :=
  books <- load_books ;;
  match books with
  | [] => print "Your library is empty."
  | _ =>
      print (NL +:+ "--- Your Library ---") ;;
      print_all (map book_line (enumerate 1 books)) ;;
      print ("Total books: " +:+ str_of_nat (length books) +:+ NL)
  end.

(** ** Search *)

Definition search_match (search_term : string) (b : book) : bool :=
  Py.str_in search_term (Py.lower (Title b))
  || Py.str_in search_term (Py.lower (Author b))
  || Py.str_in search_term (Py.lower (Year b))
  || Py.str_in search_term (Py.lower (Genre b))
  || Py.str_in search_term (Py.lower (Rating b)).

(** [search_books] *)
Definition search_books : M unit :=
  line <- input "Enter a search term: " ;;
  let search_term := Py.lower (Py.strip line) in
  books <- load_books ;;
  let matches := List.filter (search_match search_term) books in
  match matches with
  | [] => print "No matching books found."
  | _ =>
      print (NL +:+ "Found " +:+ str_of_nat (length matches) +:+ " matching books:") ;;
      print_all (map book_line (enumerate 1 matches))
  end.

(** ** Delete *)

Definition title_match (search_term : string) (b : book) : bool :=
  Py.str_in search_term (Py.lower (Title b)).

Definition short_line (ib : nat * book) : string :=
  let '(idx, b) := ib in
  str_of_nat idx +:+ ". " +:+ Title b +:+ " by " +:+ Author b +:+ " (" +:+ Year b +:+ ")".

(** [[int(i.strip()) - 1 for i in choice.split(',')]]; [None] is the
    [ValueError] of the first token that is no integer. *)
Fixpoint parse_indices (tokens : list string) : option (list Z) :=
  match tokens with
  | [] => Some []
  | t :: ts =>
      match Py.int (Py.strip t) with
      | None => None
      | Some n =>
          match parse_indices ts with
          | None => None
          | Some l => Some (n - 1 :: l)
          end
      end
  end.

Definition valid_indices (matches : list book) (indices : list Z) : list Z :=
  List.filter (fun i => (0 <=? i) && (i <? Z.of_nat (length matches))) indices.

(** [[matches[i] for i in valid]] *)
Definition select (matches : list book) (valid : list Z) : list book :=
  flat_map (fun i => match nth_error matches (Z.to_nat i) with
                     | Some b => [b]
                     | None => []
                     end) valid.

(** [[book for book in books if book not in to_delete]] *)
Definition remove_books (to_delete books : list book) : list book :=
  List.filter (fun b => negb (book_in b to_delete)) books.

(** How the selection loop is left. *)
Inductive selection := Cancel | All | Indices (valid : list Z).

Definition choice_body (matches : list book) (_ : unit) (line : string)
    : list string * step unit selection :=
  let choice := Py.lower (Py.strip line) in
  if String.eqb choice "cancel" then ([], Break Cancel)
  else if String.eqb choice "all" then ([], Break All)
  else
    match parse_indices (Py.split "," choice) with
    | Some indices =>
        match valid_indices matches indices with
        | [] => (["No valid indices entered."], Continue tt)
        | valid => ([], Break (Indices valid))
        end
    | None =>
        (["Invalid input. Please enter numbers separated by commas."], Continue tt)
    end.

(** [delete_book] *)
Definition delete_book : M unit :=
  books <- load_books ;;
  line <- input "Enter the title to delete: " ;;
  let search_term := Py.lower (Py.strip line) in
  let matches := List.filter (title_match search_term) books in
  match matches with
  | [] => print "No books found with that title."
  | _ =>
      print "Matching books:" ;;
      print_all (map short_line (enumerate 1 matches)) ;;
      sel <- ask_loop "Enter numbers to delete (comma-separated), 'all', or 'cancel': "
               (choice_body matches) tt ;;
      match sel with
      | Cancel => print "Deletion cancelled."
      | All =>
          save_books (map as_entry (remove_books matches books)) ;;
          print ("Deleted " +:+ str_of_nat (length matches) +:+ " books.")
      | Indices valid =>
          let to_delete := select matches valid in
          save_books (map as_entry (remove_books to_delete books)) ;;
          print ("Deleted " +:+ str_of_nat (length valid) +:+ " books.")
      end
  end.

(** ** Reports *)

(** [genre_counts[genre] = genre_counts.get(genre, 0) + 1] on a dict that
    keeps its keys in the order of their first insertion. *)
Fixpoint bump (genre : string) (counts : list (string * nat)) : list (string * nat) :=
  match counts with
  | [] => [(genre, 1%nat)]
  | (g, n) :: rest =>
      if String.eqb g genre then (g, S n) :: rest else (g, n) :: bump genre rest
  end.

Definition genre_counts (books : list book) : list (string * nat) :=
  fold_left (fun counts b =>
               bump (if Py.truthy (Genre b) then Genre b else "Uncategorized") counts)
            books [].

(** The rating loop: [total] and [count] after the books seen so far. The
    integer [0] that [total] starts from adds like the float zero. *)
Definition rating_step (acc : Py.float * nat) (b : book) : Py.float * nat :=
  let '(total, count) := acc in
  if Py.truthy (Rating b) then
    match Py.float_of_str (Rating b) with
    | Some x => (Py.fadd total x, S count)
    | None => acc
    end
  else acc.

Definition rating_totals (books : list book) : Py.float * nat :=
  fold_left rating_step books (Py.fzero, O).

(** [f"{avg:.2f}"] with [avg = total / count if count > 0 else 0] *)
Definition average_text (books : list book) : string :=
  let '(total, count) := rating_totals books in
  match count with
  | O => Py.fixed2 false 0
  | S _ => Py.format_2f (Py.fdiv total (Py.float_of_int (Z.of_nat count)))
  end.

(** The list [years] *)
Definition years_of (books : list book) : list Z :=
  flat_map (fun b => if Py.truthy (Year b) then
                       match Py.int (Year b) with
                       | Some y => [y]
                       | None => []
                       end
                     else []) books.

Definition min_list (y : Z) (ys : list Z) : Z := fold_left Z.min ys y.
Definition max_list (y : Z) (ys : list Z) : Z := fold_left Z.max ys y.

(** [[book for book in books if book['Year'] == str(y)]] *)
Definition books_of_year (y : Z) (books : list book) : list book :=
  List.filter (fun b => String.eqb (Year b) (Py.str_of_int y)) books.

Definition year_line (b : book) : string :=
  Title b +:+ " by " +:+ Author b +:+ " (" +:+ Year b +:+ ")".

(** [generate_reports] *)
Definition generate_reports : M unit :=
  books <- load_books ;;
  match books with
  | [] => print "Your library is empty. No reports to generate."
  | _ =>
      print (NL +:+ "--- Genre Report ---") ;;
      print_all (map (fun gc => fst gc +:+ ": " +:+ str_of_nat (snd gc) +:+ " book(s)")
                     (genre_counts books)) ;;
      print (NL +:+ "--- Average Rating ---" +:+ NL +:+ average_text books +:+ " (from "
             +:+ str_of_nat (snd (rating_totals books)) +:+ " rated books)") ;;
      match years_of books with
      | y :: ys =>
          let oldest := min_list y ys in
          let newest := max_list y ys in
          print (NL +:+ "--- Oldest Book(s) ---") ;;
          print_all (map year_line (books_of_year oldest books)) ;;
          print (NL +:+ "--- Newest Book(s) ---") ;;
          print_all (map year_line (books_of_year newest books))
      | [] =>
          print (NL +:+ "No publication years available for oldest/newest report.")
      end
  end.

(** ** Export *)

(** A book as the dict that DictReader built: the keys in header order. *)
Definition book_dict (b : book) : value :=
  VDict [("Title", VStr (Title b)); ("Author", VStr (Author b)); ("Year", VStr (Year b));
         ("Genre", VStr (Genre b)); ("Rating", VStr (Rating b))].

(** [json.dump(books, f, indent=4)] *)
Definition json_text (books : list book) : string :=
  Json.dumps 0 (VList (map book_dict books)).

(** The five lines and the blank line written for each book. *)
Fixpoint txt_text (books : list book) : string :=
  match books with
  | [] => EmptyString
  | b :: books' =>
      "Title: " +:+ Title b +:+ NL +:+ "Author: " +:+ Author b +:+ NL +:+
      "Year: " +:+ Year b +:+ NL +:+ "Genre: " +:+ Genre b +:+ NL +:+
      "Rating: " +:+ Rating b +:+ NL +:+ NL +:+ txt_text books'
  end.

Definition known_format (fmt : string) : bool :=
  String.eqb fmt "json" || String.eqb fmt "txt".

(** [export_library] *)
Definition export_library : M unit :=
  books <- load_books ;;
  match books with
  | [] => print "Your library is empty. Nothing to export."
  | _ =>
      line <- input "Enter export format (json/txt): " ;;
      let fmt := Py.lower (Py.strip line) in
      if negb (known_format fmt) then print "Invalid format. Use 'json' or 'txt'."
      else
        line <- input "Enter filename: " ;;
        let filename := Py.strip line in
        if negb (Py.truthy filename) then print "Filename cannot be empty."
        else
          (if String.eqb fmt "json"
           then write_file filename (json_text books)
           else write_file filename (txt_text books)) ;;
          print ("Library exported to " +:+ filename +:+ " successfully.")
  end.

(** ** Import *)

(** [try: m except Exception as e: handler(e)]. What lies outside the
    embedding is not caught: nothing is known about it. *)
Definition try_except {A} (m : M A) (handler : exn -> M A) : M A :=
  fun w => match m w with
           | (Raise Unmodelled, w') => (Raise Unmodelled, w')
           | (Raise e, w') => handler e w'
           | r => r
           end.

Definition of_result {A} (r : result A) : M A :=
  match r with Ok a => ret a | Raise e => raise e end.

(** [for book in imported]: the items of a list, the keys of a dict, the
    characters of a string. *)
Fixpoint chars (s : string) : list value :=
  match s with
  | EmptyString => []
  | String c s' => VStr (String c EmptyString) :: chars s'
  end.

Definition iterate (v : value) : result (list value) :=
  match v with
  | VList l => Ok l
  | VDict d => Ok (map (fun kv => VStr (fst kv)) d)
  | VStr s => Ok (chars s)
  | _ => Raise TypeError
  end.

(** [key in v] *)
Definition has_key (key : string) (v : value) : result bool :=
  match v with
  | VDict d => Ok (match Json.dict_get key d with Some _ => true | None => false end)
  | VStr s => Ok (Py.str_in key s)
  | VList l => Ok (existsb (fun x => match x with
                                     | VStr t => String.eqb key t
                                     | _ => false
                                     end) l)
  | _ => Raise TypeError
  end.

(** [v[key]], reached only when [key in v] held *)
Definition subscript (key : string) (v : value) : result value :=
  match v with
  | VDict d => match Json.dict_get key d with
               | Some x => Ok x
               | None => Raise Unmodelled
               end
  | _ => Raise TypeError
  end.

(** [v.get(key, '')] on a dict *)
Definition get_or_empty (key : string) (v : value) : value :=
  match v with
  | VDict d => match Json.dict_get key d with
               | Some x => x
               | None => VStr EmptyString
               end
  | _ => VStr EmptyString
  end.

(** The body of the loop over the imported items: the record to append,
    if any. *)
Definition import_item (item : value) : result (option entry) :=
  match has_key "Title" item with
  | Raise e => Raise e
  | Ok false => Ok None
  | Ok true =>
      match has_key "Author" item with
      | Raise e => Raise e
      | Ok false => Ok None
      | Ok true =>
          match subscript "Title" item, subscript "Author" item with
          | Ok t, Ok a =>
              Ok (Some (Row t a (get_or_empty "Year" item) (get_or_empty "Genre" item)
                            (get_or_empty "Rating" item)))
          | Raise e, _ => Raise e
          | _, Raise e => Raise e
          end
      end
  end.

Fixpoint import_items (items : list value) : result (list entry) :=
  match items with
  | [] => Ok []
  | item :: items' =>
      match import_item item with
      | Raise e => Raise e
      | Ok o =>
          match import_items items' with
          | Raise e => Raise e
          | Ok es => Ok (match o with Some e => e :: es | None => es end)
          end
      end
  end.

Definition import_json (text : string) : result (list entry) :=
  match Json.loads text with
  | Raise e => Raise e
  | Ok imported =>
      match iterate imported with
      | Raise e => Raise e
      | Ok items => import_items items
      end
  end.

(** The text format. [current] is the dict being filled: a key is absent
    until its line was read. *)
Definition no_keys : row (option string) := Row None None None None None.

Definition complete (current : row (option string)) : bool :=
  match Title current, Author current with
  | Some _, Some _ => true
  | _, _ => false
  end.

(** A key that is absent reaches the csv writer as its default, the empty
    cell, which is also what [None] is written as. *)
Definition pending_entry (current : row (option string)) : entry :=
  row_map (fun o => match o with Some s => VStr s | None => VNone end) current.

Definition txt_line (acc : list entry * row (option string)) (raw : string)
    : list entry * row (option string) :=
  let '(new_books, current) := acc in
  let line := Py.strip raw in
  if Py.startswith "Title: " line then
    (new_books, Row (Some (Py.drop_prefix 7 line)) (Author current) (Year current)
                    (Genre current) (Rating current))
  else if Py.startswith "Author: " line then
    (new_books, Row (Title current) (Some (Py.drop_prefix 8 line)) (Year current)
                    (Genre current) (Rating current))
  else if Py.startswith "Year: " line then
    (new_books, Row (Title current) (Author current) (Some (Py.drop_prefix 6 line))
                    (Genre current) (Rating current))
  else if Py.startswith "Genre: " line then
    (new_books, Row (Title current) (Author current) (Year current)
                    (Some (Py.drop_prefix 7 line)) (Rating current))
  else if Py.startswith "Rating: " line then
    (new_books, Row (Title current) (Author current) (Year current) (Genre current)
                    (Some (Py.drop_prefix 8 line)))
  else if String.eqb line EmptyString then
    (if complete current then new_books ++ [pending_entry current] else new_books, no_keys)
  else acc.

(** The lines of a text file are those of [Csv.file_lines]: they differ
    from the lines of text mode only in their endings, which [strip]
    removes. *)
Definition import_txt (text : string) : list entry :=
  let '(new_books, current) := fold_left txt_line (Csv.file_lines text) ([], no_keys) in
  if complete current then new_books ++ [pending_entry current] else new_books.

(** [import_library] *)
Definition import_library : M unit :=
  line <- input "Enter import format (json/txt): " ;;
  let fmt := Py.lower (Py.strip line) in
  if negb (known_format fmt) then print "Invalid format. Use 'json' or 'txt'."
  else
    line <- input "Enter filename: " ;;
    let filename := Py.strip line in
    if negb (Py.truthy filename) then print "Filename cannot be empty."
    else
      try_except
        (existing <- load_books ;;
         text <- read_file filename ;;
         match text with
         | None => raise FileNotFoundError
         | Some t =>
             new_books <- (if String.eqb fmt "json" then of_result (import_json t)
                           else ret (import_txt t)) ;;
             let combined := map as_entry existing ++ new_books in
             save_books combined ;;
             print ("Imported " +:+ str_of_nat (length new_books) +:+ " books successfully.")
         end)
        (fun e => emit (PrintExn "Error importing: " e)).

(** ** The menu *)

(** The lines that [main_menu] prints at the start of every round. *)
Definition MENU : list string :=
  [NL +:+ "--- Personal Library Manager ---"; "1. Add a book"; "2. List all books";
   "3. Search for a book"; "4. Delete a book"; "5. Generate reports";
   "6. Export library"; "7. Import library"; "8. Exit"].

(** The command chosen at the menu; [true] is the [break] of choice 8. *)
Definition menu_choice (current_year : Z) (choice : string) : M bool :=
  if String.eqb choice "1" then (add_book current_year ;; ret false)
  else if String.eqb choice "2" then (list_books ;; ret false)
  else if String.eqb choice "3" then (search_books ;; ret false)
  else if String.eqb choice "4" then (delete_book ;; ret false)
  else if String.eqb choice "5" then (generate_reports ;; ret false)
  else if String.eqb choice "6" then (export_library ;; ret false)
  else if String.eqb choice "7" then (import_library ;; ret false)
  else if String.eqb choice "8" then (print "Goodbye!" ;; ret true)
  else (print "Invalid choice. Please enter a number between 1-8." ;; ret false).

(** One round of the loop of [main_menu]: the menu, the choice and the
    command chosen. *)
Definition menu_round (current_year : Z) : M bool :=
  print_all MENU ;;
  line <- input "Enter your choice: " ;;
  menu_choice current_year (Py.strip line).

(** The loop [while True] of [main_menu], with a bound on its rounds. *)
Fixpoint menu_rounds (rounds : nat) (current_year : Z) : M unit :=
  match rounds with
  | O => raise Unmodelled
  | S n =>
      stop <- menu_round current_year ;;
      if stop then ret tt else menu_rounds n current_year
  end.

(** [main_menu]. Every round reads a line, so the loop has no more rounds
    than there are lines to read, and one more for the round that finds
    the input at its end. *)
Definition main_menu (current_year : Z) : M unit :=
  fun w => menu_rounds (S (length (stdin w))) current_year w.

(* ================================================================== *)
(** * Vocabulary of the statements *)
(* ================================================================== *)


(** The console after a search that found [matches]. *)
Definition search_report (matches : list book) : list event :=
  match matches with
  | [] => [Print "No matching books found."]
  | _ =>
      Print (NL +:+ "Found " +:+ str_of_nat (length matches) +:+ " matching books:")
      :: map Print (map book_line (enumerate 1 matches))
  end.

(** The floats that the ratings of a collection denote: of each record whose
    Rating is not empty and reads as a float, in the order of the records. *)
Definition rated (books : list book) : list Py.float :=
  flat_map (fun b => match Rating b with
                     | EmptyString => []
                     | r => match Py.float_of_str r with
                            | Some x => [x]
                            | None => []
                            end
                     end) books.

(** The mean in binary64 arithmetic: the sum from the left, divided by the
    number of terms. *)
Definition mean (xs : list Py.float) : Py.float :=
  Py.fdiv (fold_left Py.fadd xs Py.fzero) (Py.float_of_int (Z.of_nat (length xs))).

(** The text of the average: the mean with two decimals, [0.00] without
    any rating. *)
Definition mean_text (xs : list Py.float) : string :=
  match xs with
  | [] => "0.00"
  | _ => Py.format_2f (mean xs)
  end.

(** The year a record denotes, if its Year is not empty and reads as an
    integer. *)
Definition year_of (b : book) : option Z :=
  match Year b with
  | EmptyString => None
  | y => Py.int y
  end.

(** A Year written the way [str] writes an integer. *)
Definition canonical_year (b : book) : Prop :=
  forall y, year_of b = Some y -> Year b = Py.str_of_int y.

(** The world with the console grown by [evs]. *)
Definition say (evs : list event) (w : world) : world :=
  World (files w) (stdin w) (console w ++ evs).

(** The world with [line] read at [prompt]. *)
Definition typed (prompt : string) (rest : list string) (w : world) : world :=
  World (files w) rest (console w ++ [Prompt prompt]).

(** ** The csv reader, character by character

    The reader seen as one pass over the text: [pos] says where the text
    stands in its line, and the end-of-line mark is fed where a line
    ends. *)

Inductive line_pos :=
  | Fresh      (* at the start of a line *)
  | Mid        (* inside a line *)
  | AfterCR.   (* after a CR that may still be followed by LF *)

(** The end of the text. *)
Definition finish (p : Csv.parser) : option (list (list string)) :=
  if negb (String.eqb (Csv.field p) EmptyString)
     || Csv.state_eqb (Csv.st p) Csv.IN_QUOTED_FIELD
  then Some [Csv.fields p ++ [Csv.field p]]
  else Some [].

(** The end of a line, and [k] for what follows it. *)
Definition end_line (p : Csv.parser) (k : Csv.parser -> option (list (list string)))
    : option (list (list string)) :=
  match Csv.parse_process_char None p with
  | None => None
  | Some p' =>
      if Csv.state_eqb (Csv.st p') Csv.START_RECORD
      then option_map (cons (Csv.fields p')) (k Csv.parse_reset)
      else k p'
  end.

Fixpoint scan (pos : line_pos) (p : Csv.parser) (s : string)
    : option (list (list string)) :=
  match s with
  | EmptyString =>
      match pos with
      | Fresh => finish p
      | _ => end_line p finish
      end
  | String c s' =>
      let feed (p0 : Csv.parser) :=
        match Csv.parse_process_char (Some c) p0 with
        | None => None
        | Some p' =>
            if Ascii.eqb c Py.LF then end_line p' (fun p2 => scan Fresh p2 s')
            else if Ascii.eqb c Py.CR then scan AfterCR p' s'
            else scan Mid p' s'
        end in
      match pos with
      | AfterCR => if Ascii.eqb c Py.LF then feed p else end_line p feed
      | _ => feed p
      end
  end.

(** What is read from the lines [ls] once a line has been fed. *)
Definition next_lines (p : Csv.parser) (ls : list string) : option (list (list string)) :=
  if Csv.state_eqb (Csv.st p) Csv.START_RECORD
  then option_map (cons (Csv.fields p)) (Csv.read_records Csv.parse_reset ls)
  else Csv.read_records p ls.

(** The parser stands at the start of a field. *)
Definition at_field_start (p : Csv.parser) : Prop :=
  (Csv.st p = Csv.START_RECORD \/ Csv.st p = Csv.START_FIELD)
  /\ Csv.field p = EmptyString.

(** The items of a list after its first, as [Json.dumps] writes them. *)
Definition items_text (level : nat) : list value -> string :=
  fix items (l : list value) : string :=
    match l with
    | [] => EmptyString
    | y :: l' =>
        "," +:+ Json.newline_indent (S level) +:+ Json.dumps (S level) y +:+ items l'
    end.

(** The members of a dict after its first, as [Json.dumps] writes them. *)
Definition members_text (level : nat) : list (string * value) -> string :=
  fix members (d : list (string * value)) : string :=
    match d with
    | [] => EmptyString
    | (k, y) :: d' =>
        "," +:+ Json.newline_indent (S level) +:+ Json.encode_string k +:+ ": "
        +:+ Json.dumps (S level) y +:+ members d'
    end.

(** A dict whose values are the strings of [d]. *)
Definition str_members (d : list (string * string)) : list (string * value) :=
  map (fun kv => (fst kv, VStr (snd kv))) d.

(** The line of the report that gives the average of the ratings [xs]. *)
Definition average_line (xs : list Py.float) : string :=
  NL +:+ "--- Average Rating ---" +:+ NL +:+ mean_text xs +:+ " (from "
  +:+ str_of_nat (length xs) +:+ " rated books)".

(** The console of the report on the genres. *)
Definition genre_events (books : list book) : list event :=
  Print (NL +:+ "--- Genre Report ---")
  :: map Print (map (fun gc => fst gc +:+ ": " +:+ str_of_nat (snd gc) +:+ " book(s)")
                    (genre_counts books)).

(** The console of the report on the oldest and the newest books. *)
Definition year_events (books : list book) : list event :=
  match years_of books with
  | y :: ys =>
      Print (NL +:+ "--- Oldest Book(s) ---")
      :: map Print (map year_line (books_of_year (min_list y ys) books))
      ++ Print (NL +:+ "--- Newest Book(s) ---")
      :: map Print (map year_line (books_of_year (max_list y ys) books))
  | [] => [Print (NL +:+ "No publication years available for oldest/newest report.")]
  end.

(** What the variable [year] of Add can hold: the empty string it starts
    with, the text of an accepted year, or a rejected year, still an
    integer. *)
Inductive year_value (current_year : Z) : value -> Prop :=
  | year_empty : year_value current_year (VStr EmptyString)
  | year_accepted (y : Z) :
      0 <= y <= current_year -> year_value current_year (VStr (Py.str_of_int y))
  | year_rejected (y : Z) :
      y < 0 \/ current_year < y -> year_value current_year (VInt y).

(** What the variable [rating] of Add can hold. *)
Inductive rating_value : value -> Prop :=
  | rating_empty : rating_value (VStr EmptyString)
  | rating_accepted (x : Py.float) :
      Py.fle Py.fzero x = true -> Py.fle x (Py.float_of_int 5) = true ->
      rating_value (VStr (Py.float_repr x)).

(** Two books and a store that holds them. *)
Definition dune : book := Row "Dune" "Herbert" "1965" "Sci-Fi" "4.8".
Definition emma : book := Row "Emma" "Austen" "1815" EmptyString EmptyString.
Definition two_books : gmap string string :=
  {[ STORE := store_text [row_values dune; row_values emma] ]}.

(** Four books with the ratings 4.5, none, bad and 3.0. *)
Definition four_ratings : list book :=
  [Row "A" "a" EmptyString EmptyString "4.5"; Row "B" "b" EmptyString EmptyString EmptyString;
   Row "C" "c" EmptyString EmptyString "bad"; Row "D" "d" EmptyString EmptyString "3.0"].

(** A field that the csv reader takes: one within the field size limit. *)
Definition fits (f : string) : bool :=
  Z.of_nat (String.length f) <=? Csv.FIELD_LIMIT.

(** A book whose five fields the csv reader takes. *)
Definition book_fits (b : book) : bool := forallb fits (row_values b).

(** The fields of a parser are within the field size limit. *)
Definition parser_fits (p : Csv.parser) : Prop :=
  fits (Csv.field p) = true /\ forallb fits (Csv.fields p) = true.

(** What a command may do to the world around the store: it leaves every
    file but the store as it is, it does not remove the store, it reads
    the input from the front and only adds to the console. *)
Definition frame (w w' : world) : Prop :=
  (forall name, name <> STORE -> files w' !! name = files w !! name)
  /\ (is_Some (files w !! STORE) -> is_Some (files w' !! STORE))
  /\ stdin w' `suffix_of` stdin w
  /\ console w `prefix_of` console w'.

(** The same, of a command that may also write other files. *)
Definition flow (w w' : world) : Prop :=
  (forall name, is_Some (files w !! name) -> is_Some (files w' !! name))
  /\ stdin w' `suffix_of` stdin w
  /\ console w `prefix_of` console w'.

(** Commands that keep to [frame], and commands that keep to [flow]. *)
Definition framed {A} (m : M A) : Prop := forall w, frame w (snd (m w)).
Definition flowing {A} (m : M A) : Prop := forall w, flow w (snd (m w)).

(** The genre a record is counted under in the report. *)
Definition genre_of (b : book) : string :=
  if Py.truthy (Genre b) then Genre b else "Uncategorized".

(** What a table of counts holds under a genre, [0] when it is absent. *)
Fixpoint tally (g : string) (counts : list (string * nat)) : nat :=
  match counts with
  | [] => O
  | (g', n) :: rest => if String.eqb g' g then (n + tally g rest)%nat else tally g rest
  end.

(** A text without a line end in it. *)
Fixpoint no_breaks (s : string) : bool :=
  match s with
  | EmptyString => true
  | String c s' => negb (Csv.is_newline c) && no_breaks s'
  end.

(** A field that the text format keeps: it is on one line and does not
    end in white space. *)
Definition txt_field (f : string) : bool :=
  no_breaks f && String.eqb (Py.rstrip Py.isspace f) f.

(** A record that the text format keeps: such fields, and a title and an
    author that are not empty. *)
Definition txt_book (b : book) : bool :=
  forallb txt_field (row_values b) && Py.truthy (Title b) && Py.truthy (Author b).

(** The key of the text format that a field is read back under: absent
    when the field is empty. *)
Definition txt_key (f : string) : option string :=
  match f with EmptyString => None | _ => Some f end.

(** The record that Import takes from a json object: none when the
    object has no Title or no Author, and the empty string for each of the
    other keys that it lacks. *)
Definition record_of_object (d : list (string * value)) : option entry :=
  match Json.dict_get "Title" d, Json.dict_get "Author" d with
  | Some t, Some a =>
      Some (Row t a (default (VStr EmptyString) (Json.dict_get "Year" d))
                (default (VStr EmptyString) (Json.dict_get "Genre" d))
                (default (VStr EmptyString) (Json.dict_get "Rating" d)))
  | _, _ => None
  end.

(** A record without a year, a listing of two records in the text format,
    and a json text of two objects, the second without an author. *)
Definition undated : book := Row "Persuasion" "Austen" EmptyString "Novel" EmptyString.
Definition listing : string :=
  "Title: Old" +:+ NL +:+ "Author: A" +:+ NL +:+ "Year: 01950" +:+ NL +:+ NL
  +:+ "Title: New" +:+ NL +:+ "Author: B" +:+ NL +:+ "Year: 2000" +:+ NL.
Definition two_objects : list (list (string * value)) :=
  [[("Title", VStr "T"); ("Author", VStr "A"); ("Pages", VInt 7)]; [("Title", VStr "X")]].

(* ================================================================== *)
(** * Strings *)
(* ================================================================== *)

Section Strings.

Lemma app_cons (c : ascii) (a b : string) : String c a +:+ b = String c (a +:+ b).
Proof. reflexivity. Qed.

Lemma app_nil_l (a : string) : EmptyString +:+ a = a.
Proof. reflexivity. Qed.

Lemma app_nil_r (a : string) : a +:+ EmptyString = a.
Proof. induction a as [|c a IH]; [reflexivity|]. rewrite app_cons, IH. reflexivity. Qed.

Lemma app_assoc (a b c : string) : (a +:+ b) +:+ c = a +:+ (b +:+ c).
Proof.
  induction a as [|x a IH]; [reflexivity|].
  rewrite !app_cons, IH. reflexivity.
Qed.

Lemma length_app (a b : string) :
  String.length (a +:+ b) = (String.length a + String.length b)%nat.
Proof.
  induction a as [|x a IH]; [reflexivity|].
  rewrite app_cons. simpl. rewrite IH. reflexivity.
Qed.



Lemma startswith_nil (s : string) : Py.startswith EmptyString s = true.
Proof. destruct s; reflexivity. Qed.

Lemma str_in_nil (s : string) : Py.str_in EmptyString s = true.
Proof. destruct s; reflexivity. Qed.

End Strings.

(* ================================================================== *)
(** * Running commands *)
(* ================================================================== *)

Section Commands.

Lemma bind_ok {A B} (m : M A) (k : A -> M B) (w w' : world) (a : A) :
  m w = (Ok a, w') -> bind m k w = k a w'.
Proof. intros H. unfold bind. rewrite H. reflexivity. Qed.

Lemma bind_raise {A B} (m : M A) (k : A -> M B) (w w' : world) (e : exn) :
  m w = (Raise e, w') -> bind m k w = (Raise e, w').
Proof. intros H. unfold bind. rewrite H. reflexivity. Qed.

Lemma print_run (s : string) (w : world) : print s w = (Ok tt, say [Print s] w).
Proof. reflexivity. Qed.

Lemma say_say (a b : list event) (w : world) : say b (say a w) = say (a ++ b) w.
Proof. unfold say. simpl. rewrite <- List.app_assoc. reflexivity. Qed.

Lemma say_nil (w : world) : say [] w = w.
Proof. destruct w. unfold say. simpl. rewrite List.app_nil_r. reflexivity. Qed.

Lemma print_all_run (l : list string) (w : world) :
  print_all l w = (Ok tt, say (map Print l) w).
Proof.
  revert w. induction l as [|s l IH]; intros w.
  - simpl. unfold ret. rewrite say_nil. reflexivity.
  - simpl. erewrite bind_ok by apply print_run. rewrite IH, say_say. reflexivity.
Qed.

Lemma input_run (prompt line : string) (rest : list string) (w : world) :
  stdin w = line :: rest -> input prompt w = (Ok line, typed prompt rest w).
Proof. intros H. unfold input. rewrite H. reflexivity. Qed.

Lemma input_eof (prompt : string) (w : world) :
  stdin w = [] -> input prompt w = (Raise EOFError, typed prompt [] w).
Proof. intros H. unfold input. rewrite H. reflexivity. Qed.

(** Reading the store changes no file, provided the store is there. *)
Lemma load_books_present (w : world) (text : string) :
  files w !! STORE = Some text ->
  load_books w = (DictReader text, w).
Proof.
  intros H. unfold load_books, bind, read_file. rewrite H.
  destruct (DictReader text); reflexivity.
Qed.

(** Without a store, reading creates it with the header and finds no
    book. *)
Lemma load_books_absent (w : world) :
  files w !! STORE = None ->
  load_books w
  = (Ok [], World (<[STORE := Csv.writerow FIELDNAMES]> (files w)) (stdin w) (console w)).
Proof. intros H. unfold load_books, bind, read_file. rewrite H. reflexivity. Qed.

Lemma load_books_io (w : world) :
  stdin (snd (load_books w)) = stdin w /\ console (snd (load_books w)) = console w.
Proof.
  destruct (files w !! STORE) as [text|] eqn:H.
  - rewrite (load_books_present _ _ H). auto.
  - rewrite (load_books_absent _ H). auto.
Qed.

(** Reading touches no file but the store. *)
Lemma load_books_other (w : world) (name : string) :
  name <> STORE -> files (snd (load_books w)) !! name = files w !! name.
Proof.
  intros Hne. destruct (files w !! STORE) as [text|] eqn:H.
  - rewrite (load_books_present _ _ H). reflexivity.
  - rewrite (load_books_absent _ H). simpl. apply lookup_insert_ne. congruence.
Qed.

End Commands.

(* ================================================================== *)
(** * The csv reader reads what the csv writer wrote *)
(* ================================================================== *)

Section CsvReader.

Import Csv.

Lemma read_records_nil p : read_records p [] = finish p.
Proof. reflexivity. Qed.

Lemma read_records_cons p l ls :
  read_records p (l :: ls) =
  match feed_line l p with None => None | Some p' => next_lines p' ls end.
Proof. reflexivity. Qed.

Lemma end_line_lines p ls :
  end_line p (fun p' => read_records p' ls)
  = match parse_process_char None p with None => None | Some p' => next_lines p' ls end.
Proof. reflexivity. Qed.

Lemma file_lines_nil s : file_lines s = [] -> s = EmptyString.
Proof.
  destruct s as [|c s]; [reflexivity|]. simpl.
  destruct (Ascii.eqb c Py.LF); [discriminate|].
  destruct (Ascii.eqb c Py.CR).
  - destruct s as [|c' s]; [discriminate|]. destruct (Ascii.eqb c' Py.LF); discriminate.
  - destruct (file_lines s); discriminate.
Qed.

Lemma end_line_ext p k1 k2 : (forall q, k1 q = k2 q) -> end_line p k1 = end_line p k2.
Proof.
  intros H. unfold end_line. destruct (parse_process_char None p); [|reflexivity].
  rewrite !H. reflexivity.
Qed.

Lemma scan_lines (s : string) :
  (forall p, scan Fresh p s = read_records p (file_lines s))
  /\ (forall p, scan Mid p s =
        match file_lines s with
        | [] => end_line p finish
        | ls => read_records p ls
        end)
  /\ (forall p, scan AfterCR p s =
        match s with
        | String c s' =>
            if Ascii.eqb c Py.LF
            then match feed_line (String c EmptyString) p with
                 | None => None
                 | Some p' => next_lines p' (file_lines s')
                 end
            else end_line p (fun p' => read_records p' (file_lines s))
        | EmptyString => end_line p finish
        end).
Proof.
  induction s as [|c s (IHf & IHm & IHc)].
  - repeat split; reflexivity.
  - assert (Hfeed : forall p,
      match parse_process_char (Some c) p with
      | None => None
      | Some p' =>
          if Ascii.eqb c Py.LF then end_line p' (fun p2 => scan Fresh p2 s)
          else if Ascii.eqb c Py.CR then scan AfterCR p' s
          else scan Mid p' s
      end = read_records p (file_lines (String c s))).
    { intros p. cbn [file_lines]. destruct (Ascii.eqb c Py.LF) eqn:Hlf.
      - rewrite read_records_cons. cbn [feed_line].
        destruct (parse_process_char (Some c) p) as [p'|]; [|reflexivity].
        rewrite (end_line_ext _ _ (fun q => read_records q (file_lines s)))
          by (intros q; apply IHf).
        apply end_line_lines.
      - destruct (Ascii.eqb c Py.CR) eqn:Hcr.
        + destruct (parse_process_char (Some c) p) as [p'|] eqn:Hp.
          * rewrite IHc. destruct s as [|c' s'].
            -- rewrite read_records_cons. cbn [feed_line]. rewrite Hp.
               unfold end_line, next_lines.
               destruct (parse_process_char None p') as [p2|]; [|reflexivity].
               destruct (state_eqb (st p2) START_RECORD); reflexivity.
            -- destruct (Ascii.eqb c' Py.LF) eqn:Hlf'.
               ++ rewrite read_records_cons. cbn [feed_line]. rewrite Hp. reflexivity.
               ++ rewrite read_records_cons. cbn [feed_line]. rewrite Hp.
                  apply end_line_lines.
          * destruct s as [|c' s'].
            -- rewrite read_records_cons. cbn [feed_line]. rewrite Hp. reflexivity.
            -- destruct (Ascii.eqb c' Py.LF); rewrite read_records_cons;
                 cbn [feed_line]; rewrite Hp; reflexivity.
        + destruct (parse_process_char (Some c) p) as [p'|] eqn:Hp.
          * rewrite IHm. destruct (file_lines s) as [|l ls] eqn:Hl.
            -- rewrite read_records_cons. cbn [feed_line]. rewrite Hp.
               unfold end_line, next_lines.
               destruct (parse_process_char None p') as [p2|]; [|reflexivity].
               destruct (state_eqb (st p2) START_RECORD); reflexivity.
            -- rewrite !read_records_cons. cbn [feed_line]. rewrite Hp. reflexivity.
          * destruct (file_lines s) as [|l ls]; rewrite read_records_cons;
              cbn [feed_line]; rewrite Hp; reflexivity. }
    repeat split; intros p.
    + cbn [scan]. apply Hfeed.
    + cbn [scan]. rewrite Hfeed.
      destruct (file_lines (String c s)) eqn:Hl; [|reflexivity].
      apply file_lines_nil in Hl. discriminate.
    + cbn [scan]. destruct (Ascii.eqb c Py.LF) eqn:Hlf.
      * cbn [feed_line].
        destruct (parse_process_char (Some c) p) as [p'|]; [|reflexivity].
        rewrite (end_line_ext _ _ (fun q => read_records q (file_lines s)))
          by (intros q; apply IHf).
        apply end_line_lines.
      * apply end_line_ext. intros q. apply Hfeed.
Qed.

Lemma reader_scan (text : string) : reader text = scan Fresh parse_reset text.
Proof. unfold reader. symmetry. apply scan_lines. Qed.

End CsvReader.

Section CsvRoundTrip.

Import Csv.

Lemma special_false (c : ascii) :
  special c = false ->
  Ascii.eqb c DELIM = false /\ Ascii.eqb c QUOTE = false
  /\ Ascii.eqb c Py.CR = false /\ Ascii.eqb c Py.LF = false.
Proof.
  unfold special, is_newline. rewrite !orb_false_iff. tauto.
Qed.

Lemma eqb_true (a b : ascii) : Ascii.eqb a b = true -> a = b.
Proof. apply Ascii.eqb_eq. Qed.

Lemma fits_le (f : string) : fits f = true <-> Z.of_nat (String.length f) <= FIELD_LIMIT.
Proof. unfold fits. apply Z.leb_le. Qed.

Lemma fits_nil : fits EmptyString = true.
Proof. reflexivity. Qed.

(** A character is added as long as there is room for it. *)
Lemma parse_add_char_room (c : ascii) (next : state) (p : parser) :
  fits (field p +:+ String c EmptyString) = true ->
  parse_add_char c next p
  = Some (Parser next (field p +:+ String c EmptyString) (fields p)).
Proof.
  intros H. apply fits_le in H. rewrite length_app in H. simpl in H.
  unfold parse_add_char.
  destruct (Z.ltb_spec (Z.of_nat (String.length (field p))) FIELD_LIMIT); [reflexivity|lia].
Qed.

Lemma fits_app_l (a b : string) : fits (a +:+ b) = true -> fits a = true.
Proof. rewrite !fits_le, length_app. lia. Qed.

(** An ordinary character in an unquoted field. *)
Lemma scan_plain (c : ascii) (pos : line_pos) (p : parser) (s : string) :
  special c = false -> pos <> AfterCR ->
  st p = START_RECORD \/ st p = START_FIELD \/ st p = IN_FIELD ->
  fits (field p +:+ String c EmptyString) = true ->
  scan pos p (String c s)
  = scan Mid (Parser IN_FIELD (field p +:+ String c EmptyString) (fields p)) s.
Proof.
  intros Hc Hpos Hst Hfit. apply special_false in Hc as (Hd & Hq & Hcr & Hlf).
  pose proof (parse_add_char_room c IN_FIELD p Hfit) as Hadd.
  destruct p as [state f fs]. simpl in Hst. cbn [field fields] in *.
  assert (Hstep : parse_process_char (Some c) (Parser state f fs)
                  = Some (Parser IN_FIELD (f +:+ String c EmptyString) fs)).
  { unfold parse_process_char, ends_line, is_newline. cbn [st].
    destruct Hst as [->|[->| ->]]; rewrite ?Hcr, ?Hlf, ?Hq, ?Hd; exact Hadd. }
  destruct pos; [| |congruence]; cbn [scan]; rewrite Hstep, Hlf, Hcr; reflexivity.
Qed.

Lemma scan_plain_body (f acc : string) (fs : list string) (rest : string) :
  needs_quotes f = false -> fits (acc +:+ f) = true ->
  scan Mid (Parser IN_FIELD acc fs) (f +:+ rest)
  = scan Mid (Parser IN_FIELD (acc +:+ f) fs) rest.
Proof.
  revert acc. induction f as [|c f IH]; intros acc Hf Hfit.
  - rewrite app_nil_r. reflexivity.
  - simpl in Hf. apply orb_false_iff in Hf as [Hc Hf].
    replace (acc +:+ String c f) with ((acc +:+ String c EmptyString) +:+ f) in *
      by (rewrite app_assoc; reflexivity).
    rewrite app_cons, scan_plain;
      [|exact Hc|discriminate|auto|exact (fits_app_l _ _ Hfit)].
    cbn [field fields]. apply IH; assumption.
Qed.

Lemma end_line_quoted (acc : string) (fs : list string)
    (k : parser -> option (list (list string))) :
  end_line (Parser IN_QUOTED_FIELD acc fs) k = k (Parser IN_QUOTED_FIELD acc fs).
Proof. reflexivity. Qed.

(** The body of a quoted field and its closing quote: line ends inside it
    change nothing. *)
Lemma scan_quoted_body (f acc : string) (fs : list string) (pos : line_pos)
    (rest : string) :
  fits (acc +:+ f) = true ->
  scan pos (Parser IN_QUOTED_FIELD acc fs) (double_quotes f +:+ String QUOTE rest)
  = scan Mid (Parser QUOTE_IN_QUOTED_FIELD (acc +:+ f) fs) rest.
Proof.
  revert acc pos. induction f as [|c f IH]; intros acc pos Hfit.
  - rewrite app_nil_r. destruct pos; reflexivity.
  - replace (acc +:+ String c f) with ((acc +:+ String c EmptyString) +:+ f) in *
      by (rewrite app_assoc; reflexivity).
    pose proof (fits_app_l _ _ Hfit) as Hroom.
    cbn [double_quotes]. destruct (Ascii.eqb c QUOTE) eqn:Hq.
    + apply eqb_true in Hq. subst c.
      rewrite !app_cons.
      transitivity (scan Mid (Parser IN_QUOTED_FIELD (acc +:+ String QUOTE EmptyString) fs)
                      (double_quotes f +:+ String QUOTE rest)).
      { pose proof (parse_add_char_room QUOTE IN_QUOTED_FIELD
                      (Parser QUOTE_IN_QUOTED_FIELD acc fs) Hroom) as Hadd.
        cbn [field fields] in Hadd.
        assert (Hopen : parse_process_char (Some QUOTE) (Parser IN_QUOTED_FIELD acc fs)
                        = Some (Parser QUOTE_IN_QUOTED_FIELD acc fs)) by reflexivity.
        assert (Hstep : parse_process_char (Some QUOTE) (Parser QUOTE_IN_QUOTED_FIELD acc fs)
                        = Some (Parser IN_QUOTED_FIELD (acc +:+ String QUOTE EmptyString) fs))
          by exact Hadd.
        assert (Hlf : Ascii.eqb QUOTE Py.LF = false) by reflexivity.
        assert (Hcr : Ascii.eqb QUOTE Py.CR = false) by reflexivity.
        destruct pos; cbn [scan]; rewrite ?Hlf, ?end_line_quoted, Hopen, ?Hlf, ?Hcr;
          cbn [scan]; rewrite ?Hlf, Hstep, ?Hlf, ?Hcr; reflexivity. }
      apply IH. exact Hfit.
    + rewrite app_cons.
      assert (Hstep : parse_process_char (Some c) (Parser IN_QUOTED_FIELD acc fs)
                      = Some (Parser IN_QUOTED_FIELD (acc +:+ String c EmptyString) fs)).
      { unfold parse_process_char. cbn [st]. rewrite Hq.
        apply (parse_add_char_room c IN_QUOTED_FIELD (Parser IN_QUOTED_FIELD acc fs)).
        exact Hroom. }
      assert (Hgo : exists pos',
                scan pos (Parser IN_QUOTED_FIELD acc fs)
                  (String c (double_quotes f +:+ String QUOTE rest))
                = scan pos' (Parser IN_QUOTED_FIELD (acc +:+ String c EmptyString) fs)
                    (double_quotes f +:+ String QUOTE rest)).
      { destruct (Ascii.eqb c Py.LF) eqn:Hlf.
        - exists Fresh. destruct pos; cbn [scan]; rewrite ?Hlf, Hstep; reflexivity.
        - destruct (Ascii.eqb c Py.CR) eqn:Hcr.
          + exists AfterCR.
            destruct pos; cbn [scan]; rewrite ?Hlf, ?end_line_quoted, Hstep, ?Hlf, Hcr;
              reflexivity.
          + exists Mid.
            destruct pos; cbn [scan]; rewrite ?Hlf, ?end_line_quoted, Hstep, ?Hlf, Hcr;
              reflexivity. }
      destruct Hgo as [pos' ->]. apply IH. exact Hfit.
Qed.

Lemma needs_quotes_cons (c : ascii) (f : string) :
  needs_quotes (String c f) = false -> special c = false /\ needs_quotes f = false.
Proof. simpl. apply orb_false_iff. Qed.

(** A written field up to the point where the parser has read it all. *)
Lemma scan_field (f : string) (pos : line_pos) (p : parser) (rest : string) :
  at_field_start p -> pos <> AfterCR -> f <> EmptyString \/ needs_quotes f = true ->
  fits f = true ->
  exists state, (state = IN_FIELD \/ state = QUOTE_IN_QUOTED_FIELD)
  /\ scan pos p (write_field f +:+ rest) = scan Mid (Parser state f (fields p)) rest.
Proof.
  intros [Hst Hf0] Hpos Hne Hfit. destruct p as [state f0 fs]. simpl in Hst, Hf0. subst f0.
  unfold write_field. destruct (needs_quotes f) eqn:Hq.
  - exists QUOTE_IN_QUOTED_FIELD. split; [auto|].
    rewrite app_cons, app_assoc, app_cons, app_nil_l.
    transitivity (scan Mid (Parser IN_QUOTED_FIELD EmptyString fs)
                    (double_quotes f +:+ String QUOTE rest)).
    { destruct pos; [| |congruence]; destruct Hst as [-> | ->]; reflexivity. }
    rewrite scan_quoted_body by exact Hfit. reflexivity.
  - exists IN_FIELD. split; [auto|].
    destruct f as [|c f]; [destruct Hne; congruence|].
    apply needs_quotes_cons in Hq as [Hc Hq].
    rewrite app_cons, scan_plain;
      [|exact Hc|exact Hpos|simpl; tauto|exact (fits_app_l (String c EmptyString) f Hfit)].
    cbn [field fields]. rewrite app_nil_l, scan_plain_body by assumption.
    reflexivity.
Qed.

Lemma scan_delim (state : state) (f : string) (fs : list string) (rest : string) :
  state = IN_FIELD \/ state = QUOTE_IN_QUOTED_FIELD ->
  scan Mid (Parser state f fs) (String DELIM rest)
  = scan Mid (Parser START_FIELD EmptyString (fs ++ [f])) rest.
Proof. intros [-> | ->]; reflexivity. Qed.

Lemma scan_crlf (state : state) (f : string) (fs : list string) (rest : string) :
  state = IN_FIELD \/ state = QUOTE_IN_QUOTED_FIELD ->
  scan Mid (Parser state f fs) (CRLF +:+ rest)
  = option_map (cons (fs ++ [f])) (scan Fresh parse_reset rest).
Proof. intros [-> | ->]; reflexivity. Qed.

Lemma scan_field_delim (f : string) (pos : line_pos) (p : parser) (rest : string) :
  at_field_start p -> pos <> AfterCR -> fits f = true ->
  scan pos p (write_field f +:+ String DELIM rest)
  = scan Mid (Parser START_FIELD EmptyString (fields p ++ [f])) rest.
Proof.
  intros Hp Hpos Hfit. destruct f as [|c f].
  - destruct Hp as [Hst Hf0]. destruct p as [state f0 fs]. simpl in *. subst f0.
    destruct pos; [| |congruence]; destruct Hst as [-> | ->]; reflexivity.
  - destruct (scan_field (String c f) pos p (String DELIM rest) Hp Hpos)
      as (state & Hstate & ->); [left; discriminate|exact Hfit|].
    apply scan_delim. exact Hstate.
Qed.

Lemma scan_field_crlf (f : string) (pos : line_pos) (p : parser) (rest : string) :
  at_field_start p -> pos <> AfterCR -> f <> EmptyString \/ st p = START_FIELD ->
  fits f = true ->
  scan pos p (write_field f +:+ CRLF +:+ rest)
  = option_map (cons (fields p ++ [f])) (scan Fresh parse_reset rest).
Proof.
  intros Hp Hpos Hne Hfit. destruct f as [|c f].
  - destruct Hne as [Hne|Hst]; [congruence|].
    destruct Hp as [_ Hf0]. destruct p as [state f0 fs]. simpl in *. subst.
    destruct pos; [| |congruence]; reflexivity.
  - destruct (scan_field (String c f) pos p (CRLF +:+ rest) Hp Hpos)
      as (state & Hstate & ->); [left; discriminate|exact Hfit|].
    apply scan_crlf. exact Hstate.
Qed.

(** The fields of a record after its first. *)
Lemma scan_row_tail (fs : list string) (acc : list string) (rest : string) :
  fs <> [] -> forallb fits fs = true ->
  scan Mid (Parser START_FIELD EmptyString acc) (join_fields fs +:+ CRLF +:+ rest)
  = option_map (cons (acc ++ fs)) (scan Fresh parse_reset rest).
Proof.
  revert acc. induction fs as [|f fs IH]; intros acc Hne Hfit; [congruence|].
  cbn [forallb] in Hfit. apply andb_true_iff in Hfit as [Hf Hfs].
  destruct fs as [|f2 fs].
  - cbn [join_fields]. apply (scan_field_crlf f Mid (Parser START_FIELD EmptyString acc));
      [split; auto | discriminate | auto | exact Hf].
  - change (join_fields (f :: f2 :: fs))
      with (write_field f +:+ String DELIM (join_fields (f2 :: fs))).
    rewrite app_assoc, app_cons.
    rewrite (scan_field_delim f Mid (Parser START_FIELD EmptyString acc))
      by (try split; auto; discriminate).
    cbn [fields]. rewrite IH by (discriminate || exact Hfs).
    rewrite <- List.app_assoc. reflexivity.
Qed.

(** One written record is read back as it was. *)
Lemma scan_row (r : list string) (rest : string) :
  forallb fits r = true ->
  scan Fresh parse_reset (writerow r +:+ rest)
  = option_map (cons r) (scan Fresh parse_reset rest).
Proof.
  intros Hfit. destruct r as [|f fs]; [reflexivity|].
  cbn [forallb] in Hfit. apply andb_true_iff in Hfit as [Hf Hfs].
  destruct fs as [|f2 fs].
  - destruct f as [|c f]; [reflexivity|].
    unfold writerow. cbn [join_fields]. rewrite app_assoc.
    apply (scan_field_crlf (String c f) Fresh parse_reset);
      [split; auto | discriminate | left; discriminate | exact Hf].
  - replace (writerow (f :: f2 :: fs))
      with ((write_field f +:+ String DELIM (join_fields (f2 :: fs))) +:+ CRLF)
      by (destruct f; reflexivity).
    rewrite !app_assoc, app_cons.
    rewrite (scan_field_delim f Fresh parse_reset) by (try split; auto; discriminate).
    apply (scan_row_tail (f2 :: fs) [f]); [discriminate | exact Hfs].
Qed.

(** What the writer wrote, the reader reads, when every field is within
    the field size limit. *)
Theorem reader_writerows (rows : list (list string)) :
  forallb (forallb fits) rows = true ->
  reader (writerows rows) = Some rows.
Proof.
  rewrite reader_scan. induction rows as [|r rows IH]; intros Hfit; [reflexivity|].
  cbn [forallb] in Hfit. apply andb_true_iff in Hfit as [Hr Hrows].
  cbn [writerows]. rewrite scan_row by exact Hr. rewrite IH by exact Hrows. reflexivity.
Qed.

End CsvRoundTrip.

Section CsvFieldLimit.

Import Csv.

Lemma forallb_snoc (fs : list string) (f : string) :
  forallb fits fs = true -> fits f = true -> forallb fits (fs ++ [f]) = true.
Proof. intros H1 H2. rewrite forallb_app, H1. simpl. rewrite H2. reflexivity. Qed.

Lemma parse_add_char_fits (c : ascii) (next : state) (p p' : parser) :
  parser_fits p -> parse_add_char c next p = Some p' -> parser_fits p'.
Proof.
  intros [Hf Hfs]. unfold parse_add_char.
  destruct (Z.ltb_spec (Z.of_nat (String.length (field p))) FIELD_LIMIT) as [Hlt|];
    [|discriminate].
  intros H. injection H as <-. split; [|exact Hfs].
  cbn [field]. apply fits_le. rewrite length_app. simpl. lia.
Qed.

Lemma parse_save_field_fits (next : state) (p : parser) :
  parser_fits p -> parser_fits (parse_save_field next p).
Proof. intros [Hf Hfs]. split; [reflexivity|]. apply forallb_snoc; assumption. Qed.

Lemma set_state_fits (next : state) (p : parser) :
  parser_fits p -> parser_fits (set_state next p).
Proof. intros H. exact H. Qed.

Lemma parse_process_char_fits (c : option ascii) (p p' : parser) :
  parser_fits p -> parse_process_char c p = Some p' -> parser_fits p'.
Proof.
  intros Hp. unfold parse_process_char.
  destruct (st p), c as [ch|]; cbn [ends_line];
    repeat match goal with
           | |- context [if ?b then _ else _] => destruct b
           end;
    intros H; try discriminate;
    try (injection H as <-;
         first [exact Hp | apply parse_save_field_fits, Hp | apply set_state_fits, Hp]);
    try (eapply parse_add_char_fits; [exact Hp | exact H]).
Qed.

Lemma feed_line_fits (line : string) (p p' : parser) :
  parser_fits p -> feed_line line p = Some p' -> parser_fits p'.
Proof.
  revert p. induction line as [|c line IH]; intros p Hp H.
  - apply (parse_process_char_fits None p p' Hp H).
  - cbn [feed_line] in H.
    destruct (parse_process_char (Some c) p) as [p1|] eqn:H1; [|discriminate].
    apply (IH p1); [|exact H]. apply (parse_process_char_fits _ _ _ Hp H1).
Qed.

Lemma read_records_fits (lines : list string) (p : parser) (rows : list (list string)) :
  parser_fits p -> read_records p lines = Some rows ->
  forallb (forallb fits) rows = true.
Proof.
  revert p rows. induction lines as [|l ls IH]; intros p rows Hp H.
  - cbn [read_records] in H. destruct Hp as [Hf Hfs].
    destruct (_ || _); injection H as <-; [|reflexivity].
    cbn [forallb]. rewrite forallb_snoc by assumption. reflexivity.
  - cbn [read_records] in H.
    destruct (feed_line l p) as [p1|] eqn:H1; [|discriminate].
    pose proof (feed_line_fits _ _ _ Hp H1) as Hp1.
    destruct (state_eqb (st p1) START_RECORD).
    + destruct (read_records parse_reset ls) as [rs|] eqn:H2; [|discriminate].
      injection H as <-. cbn [forallb].
      rewrite (proj2 Hp1). apply (IH parse_reset rs); [split; reflexivity | exact H2].
    + apply (IH p1 rows Hp1 H).
Qed.

(** Every field that the reader returns is within the field size limit. *)
Lemma reader_fits (text : string) (rows : list (list string)) :
  reader text = Some rows -> forallb (forallb fits) rows = true.
Proof. apply read_records_fits. split; reflexivity. Qed.

End CsvFieldLimit.


(* ================================================================== *)
(** * The json scanner reads what Export wrote *)
(* ================================================================== *)

Section JsonRoundTrip.

Import Json.

Lemma dumps_list (level : nat) (x : value) (l : list value) :
  dumps level (VList (x :: l))
  = "[" +:+ newline_indent (S level) +:+ dumps (S level) x +:+ items_text level l
    +:+ newline_indent level +:+ "]".
Proof. reflexivity. Qed.

Lemma dumps_dict (level : nat) (k : string) (x : value) (d : list (string * value)) :
  dumps level (VDict ((k, x) :: d))
  = "{" +:+ newline_indent (S level) +:+ encode_string k +:+ ": " +:+ dumps (S level) x
    +:+ members_text level d +:+ newline_indent level +:+ "}".
Proof. reflexivity. Qed.

Lemma scan_string_char (c : ascii) (X : string) :
  scan_string (encode_char c +:+ X)
  = match scan_string X with
    | Ok (t, r) => Ok (String c t, r)
    | Raise e => Raise e
    end.
Proof. destruct c as [[] [] [] [] [] [] [] []]; reflexivity. Qed.

(** An encoded string is scanned back to what it was. *)
Lemma scan_string_encode (s rest : string) :
  scan_string (encode_chars s +:+ String QUOTE rest) = Ok (s, rest).
Proof.
  induction s as [|c s IH]; [reflexivity|].
  cbn [encode_chars]. rewrite app_assoc, scan_string_char, IH. reflexivity.
Qed.

Lemma encode_string_app (s rest : string) :
  encode_string s +:+ rest = String QUOTE (encode_chars s +:+ String QUOTE rest).
Proof. unfold encode_string. rewrite app_cons, app_assoc. reflexivity. Qed.

Lemma skip_ws_spaces (n : nat) (X : string) : skip_ws (spaces n +:+ X) = skip_ws X.
Proof. induction n as [|n IH]; [reflexivity|]. exact IH. Qed.

Lemma skip_ws_indent (level : nat) (X : string) :
  skip_ws (newline_indent level +:+ X) = skip_ws X.
Proof. unfold newline_indent. rewrite app_cons. apply (skip_ws_spaces (4 * level)). Qed.

Lemma skip_ws_quote (X : string) : skip_ws (String QUOTE X) = String QUOTE X.
Proof. reflexivity. Qed.

Lemma skip_ws_keep (c : ascii) (X : string) :
  is_ws c = false -> skip_ws (String c X) = String c X.
Proof. intros H. simpl. rewrite H. reflexivity. Qed.

Lemma skip_ws_drop (c : ascii) (X : string) :
  is_ws c = true -> skip_ws (String c X) = skip_ws X.
Proof. intros H. simpl. rewrite H. reflexivity. Qed.

Lemma scan_once_string (fuel : nat) (s rest : string) :
  (1 <= fuel)%nat ->
  scan_once fuel (encode_string s +:+ rest) = Ok (VStr s, rest).
Proof.
  intros Hfuel. destruct fuel as [|fuel]; [lia|].
  rewrite encode_string_app. cbn [scan_once].
  change (Ascii.eqb QUOTE QUOTE) with true. cbv iota.
  rewrite scan_string_encode. reflexivity.
Qed.

(** A member with a string value, up to the text after it. *)
Lemma scan_member (fuel : nat) (k v T : string) :
  (1 <= fuel)%nat ->
  scan_members (S fuel) (encode_string k +:+ ": " +:+ encode_string v +:+ T)
  = match skip_ws T with
    | String c r =>
        if Ascii.eqb c "}" then Ok ([(k, VStr v)], r)
        else if Ascii.eqb c "," then
          match scan_members fuel (skip_ws r) with
          | Ok (d, rest') => Ok ((k, VStr v) :: d, rest')
          | Raise e => Raise e
          end
        else Raise JSONDecodeError
    | EmptyString => Raise JSONDecodeError
    end.
Proof.
  intros Hfuel. rewrite encode_string_app. cbn [scan_members].
  change (Ascii.eqb QUOTE QUOTE) with true. cbv iota.
  rewrite scan_string_encode.
  change (skip_ws (": " +:+ (encode_string v +:+ T)))
    with (String ":" (String " " (encode_string v +:+ T))).
  cbv iota beta.
  rewrite (skip_ws_drop " ") by reflexivity.
  rewrite (encode_string_app v), skip_ws_quote, <- encode_string_app.
  rewrite scan_once_string by exact Hfuel. reflexivity.
Qed.

(** The members of a dict of strings, from the first key to the closing
    brace. *)
Lemma scan_members_strings (d : list (string * string)) (k v : string)
    (level fuel : nat) (rest : string) :
  (length d + 2 <= fuel)%nat ->
  scan_members fuel
    (encode_string k +:+ ": " +:+ encode_string v +:+ members_text level (str_members d)
     +:+ newline_indent level +:+ "}" +:+ rest)
  = Ok ((k, VStr v) :: str_members d, rest).
Proof.
  revert k v fuel. induction d as [|[k' v'] d IH]; intros k v fuel Hfuel;
    (destruct fuel as [|fuel]; [simpl in Hfuel; lia|]); simpl in Hfuel;
    rewrite scan_member by lia.
  - change (members_text level (str_members [])) with EmptyString.
    rewrite app_nil_l, skip_ws_indent. reflexivity.
  - change (members_text level (str_members ((k', v') :: d)))
      with ("," +:+ newline_indent (S level) +:+ encode_string k' +:+ ": "
            +:+ encode_string v' +:+ members_text level (str_members d)).
    rewrite !app_assoc, app_cons, app_nil_l.
    rewrite (skip_ws_keep ",") by reflexivity.
    cbv iota beta. change (Ascii.eqb "," "}") with false.
    change (Ascii.eqb "," ",") with true. cbv iota.
    rewrite skip_ws_indent.
    rewrite (encode_string_app k'), skip_ws_quote, <- encode_string_app.
    rewrite IH by lia. reflexivity.
Qed.

(** A dict of strings is scanned back to the dict of its members. *)
Lemma scan_once_dict (d : list (string * string)) (k v : string)
    (level fuel : nat) (rest : string) :
  (length d + 3 <= fuel)%nat ->
  scan_once fuel (dumps level (VDict ((k, VStr v) :: str_members d)) +:+ rest)
  = Ok (VDict (dict_of_pairs ((k, VStr v) :: str_members d)), rest).
Proof.
  intros Hfuel. destruct fuel as [|fuel]; [lia|].
  rewrite dumps_dict. rewrite !app_assoc, app_cons, app_nil_l.
  cbn [scan_once]. change (Ascii.eqb "{" QUOTE) with false.
  change (Ascii.eqb "{" "{") with true. cbv iota.
  rewrite skip_ws_indent, (encode_string_app k), skip_ws_quote, <- encode_string_app.
  change (Ascii.eqb QUOTE "}") with false. cbv iota.
  change (dumps (S level) (VStr v)) with (encode_string v).
  rewrite scan_members_strings by lia. reflexivity.
Qed.

End JsonRoundTrip.

Section JsonBooks.

Import Json.

Lemma book_dict_members (b : book) :
  book_dict b
  = VDict (("Title", VStr (Title b))
           :: str_members [("Author", Author b); ("Year", Year b);
                           ("Genre", Genre b); ("Rating", Rating b)]).
Proof. reflexivity. Qed.

Lemma scan_once_book (b : book) (level fuel : nat) (rest : string) :
  (7 <= fuel)%nat ->
  scan_once fuel (dumps level (book_dict b) +:+ rest) = Ok (book_dict b, rest).
Proof.
  intros Hfuel. rewrite book_dict_members, scan_once_dict by (simpl; lia).
  reflexivity.
Qed.

Lemma skip_ws_book (b : book) (level : nat) (rest : string) :
  skip_ws (dumps level (book_dict b) +:+ rest) = dumps level (book_dict b) +:+ rest.
Proof.
  rewrite book_dict_members, dumps_dict, !app_assoc, app_cons.
  apply skip_ws_keep. reflexivity.
Qed.

Lemma book_text_head (b : book) (level : nat) (rest : string) :
  exists T, dumps level (book_dict b) +:+ rest = String "{" T.
Proof.
  rewrite book_dict_members, dumps_dict, !app_assoc, app_cons. eauto.
Qed.

(** The books of an array, from the first to the closing bracket. *)
Lemma scan_items_books (bs : list book) (b : book) (fuel : nat) (rest : string) :
  (length bs + 8 <= fuel)%nat ->
  scan_items fuel
    (dumps 1 (book_dict b) +:+ items_text 0 (map book_dict bs)
     +:+ newline_indent 0 +:+ "]" +:+ rest)
  = Ok (map book_dict (b :: bs), rest).
Proof.
  revert b fuel. induction bs as [|b' bs IH]; intros b fuel Hfuel;
    (destruct fuel as [|fuel]; [simpl in Hfuel; lia|]); simpl in Hfuel;
    cbn [scan_items]; rewrite scan_once_book by lia.
  - change (items_text 0 (map book_dict [])) with EmptyString.
    rewrite app_nil_l, skip_ws_indent. reflexivity.
  - change (items_text 0 (map book_dict (b' :: bs)))
      with ("," +:+ newline_indent 1 +:+ dumps 1 (book_dict b')
            +:+ items_text 0 (map book_dict bs)).
    rewrite !app_assoc, app_cons, app_nil_l.
    rewrite (skip_ws_keep ",") by reflexivity.
    change (Ascii.eqb "," "]") with false. change (Ascii.eqb "," ",") with true.
    cbv iota. rewrite skip_ws_indent, skip_ws_book.
    rewrite IH by lia. reflexivity.
Qed.

Lemma items_text_length (level : nat) (l : list value) :
  (length l <= String.length (items_text level l))%nat.
Proof.
  induction l as [|y l IH]; [reflexivity|].
  change (items_text level (y :: l))
    with ("," +:+ newline_indent (S level) +:+ dumps (S level) y +:+ items_text level l).
  rewrite !length_app. simpl. lia.
Qed.

(** The text that Export writes is loaded back as the list of dicts it
    was written from. *)
Lemma loads_json_text (b : book) (bs : list book) :
  loads (json_text (b :: bs)) = Ok (VList (map book_dict (b :: bs))).
Proof.
  unfold loads, json_text. cbn [map]. rewrite dumps_list.
  set (body := dumps 1 (book_dict b) +:+ items_text 0 (map book_dict bs)
               +:+ newline_indent 0 +:+ "]").
  assert (Hlen : (length bs + 8 <= String.length ("[" +:+ newline_indent 1 +:+ body))%nat).
  { subst body. rewrite !length_app.
    pose proof (items_text_length 0 (map book_dict bs)) as H.
    rewrite length_map in H. simpl. lia. }
  rewrite app_cons, app_nil_l in *.
  rewrite (skip_ws_keep "[") by reflexivity.
  cbn [scan_once]. change (Ascii.eqb "[" QUOTE) with false.
  change (Ascii.eqb "[" "{") with false. change (Ascii.eqb "[" "[") with true.
  cbv iota. rewrite skip_ws_indent.
  assert (Hfuel : (length bs + 8
                   <= 2 * String.length (String "[" (newline_indent 1 +:+ body)))%nat)
    by lia.
  pose proof (scan_items_books bs b _ EmptyString Hfuel) as Hscan.
  rewrite app_nil_r in Hscan. fold body in Hscan.
  subst body. rewrite skip_ws_book.
  destruct (book_text_head b 1 (items_text 0 (map book_dict bs)
                                +:+ newline_indent 0 +:+ "]")) as [T HT].
  rewrite HT in *. change (Ascii.eqb "{" "]") with false. cbv iota.
  rewrite Hscan. reflexivity.
Qed.

Lemma import_item_book (b : book) : import_item (book_dict b) = Ok (Some (as_entry b)).
Proof. destruct b. reflexivity. Qed.

Lemma import_items_books (books : list book) :
  import_items (map book_dict books) = Ok (map as_entry books).
Proof.
  induction books as [|b books IH]; [reflexivity|].
  cbn [map import_items]. rewrite import_item_book, IH. reflexivity.
Qed.

(** Importing the text that Export wrote gives the exported books. *)
Lemma import_json_text (books : list book) :
  books <> [] -> import_json (json_text books) = Ok (map as_entry books).
Proof.
  intros Hne. destruct books as [|b bs]; [congruence|].
  unfold import_json. rewrite loads_json_text. cbn [iterate].
  apply import_items_books.
Qed.

End JsonBooks.

(* ================================================================== *)
(** * Search and the filter of Delete *)
(* ================================================================== *)

Section Matching.



Lemma search_match_blank (b : book) : search_match EmptyString b = true.
Proof. unfold search_match. rewrite str_in_nil. reflexivity. Qed.

Lemma filter_all {A} (f : A -> bool) (l : list A) :
  (forall x, f x = true) -> List.filter f l = l.
Proof.
  intros H. induction l as [|x l IH]; [reflexivity|].
  simpl. rewrite H, IH. reflexivity.
Qed.

(** What [search_books] does once a line was typed and the store read. *)
Lemma search_books_run (w w' : world) (line : string) (rest : list string)
    (books : list book) :
  stdin w = line :: rest ->
  load_books (typed "Enter a search term: " rest w) = (Ok books, w') ->
  search_books w
  = (Ok tt, say (search_report
                   (List.filter (search_match (Py.lower (Py.strip line))) books)) w').
Proof.
  intros Hin Hload. unfold search_books.
  erewrite bind_ok by (apply input_run; exact Hin).
  erewrite bind_ok by exact Hload.
  unfold search_report.
  destruct (List.filter _ books) as [|m ms] eqn:Hm.
  - apply print_run.
  - erewrite bind_ok by apply print_run.
    rewrite print_all_run, say_say. reflexivity.
Qed.


(** C9. A search whose line strips to the empty string matches every
    record: the console shows the number of records of the collection and
    a line for each of them (for a collection without records, the message
    that nothing matched). *)
Theorem search_blank_lists_all (w w' : world) (line : string) (rest : list string)
    (books : list book) :
  stdin w = line :: rest ->
  Py.strip line = EmptyString ->
  load_books (typed "Enter a search term: " rest w) = (Ok books, w') ->
  List.filter (search_match (Py.lower (Py.strip line))) books = books
  /\ search_books w = (Ok tt, say (search_report books) w').
Proof.
  intros Hin Hblank Hload.
  assert (Hall : List.filter (search_match (Py.lower (Py.strip line))) books = books).
  { rewrite Hblank. apply filter_all, search_match_blank. }
  split; [exact Hall|].
  rewrite (search_books_run _ _ _ _ _ Hin Hload), Hall. reflexivity.
Qed.

End Matching.

(* ================================================================== *)
(** * Commands that only read *)
(* ================================================================== *)

Section ReadOnly.

Lemma list_books_keeps (w : world) (text : string) :
  files w !! STORE = Some text -> files (snd (list_books w)) = files w.
Proof.
  intros H. unfold list_books, bind. rewrite (load_books_present _ _ H).
  destruct (DictReader text) as [[|b bs]|e]; try reflexivity.
  rewrite print_run, print_all_run. reflexivity.
Qed.

Lemma search_books_keeps (w : world) (text : string) :
  files w !! STORE = Some text -> files (snd (search_books w)) = files w.
Proof.
  intros H. unfold search_books.
  destruct (stdin w) as [|line rest] eqn:Hin.
  - erewrite bind_raise by (apply input_eof; exact Hin). reflexivity.
  - erewrite bind_ok by (apply input_run; exact Hin).
    unfold bind. rewrite (load_books_present _ text) by exact H.
    destruct (DictReader text) as [books|e]; [|reflexivity].
    destruct (List.filter _ books); [reflexivity|].
    rewrite print_run, print_all_run. reflexivity.
Qed.

(** C7. With a store in place, neither listing nor searching changes any
    file, whatever is typed: the store holds the same text afterwards. *)
Theorem list_and_search_keep_store (w : world) (text : string) :
  files w !! STORE = Some text ->
  (files (snd (list_books w)) = files w
   /\ files (snd (list_books w)) !! STORE = Some text)
  /\ (files (snd (search_books w)) = files w
      /\ files (snd (search_books w)) !! STORE = Some text).
Proof.
  intros H.
  rewrite (list_books_keeps _ _ H), (search_books_keeps _ _ H). auto.
Qed.

(** C10. On an empty collection Export prints that the library is empty
    and returns: no line of input is read and no prompt is shown, and no
    file is written. (Reading the store creates it when it is missing; a
    store in place stays as it is, and so does every other file.) *)
Theorem export_empty_returns_first (w w1 : world) :
  load_books w = (Ok [], w1) ->
  export_library w = (Ok tt, say [Print "Your library is empty. Nothing to export."] w1)
  /\ stdin w1 = stdin w
  /\ console w1 = console w
  /\ (forall name, name <> STORE -> files w1 !! name = files w !! name)
  /\ (forall text, files w !! STORE = Some text -> files w1 = files w).
Proof.
  intros H. split; [|split; [|split; [|split]]].
  - unfold export_library. erewrite bind_ok by exact H. apply print_run.
  - pose proof (load_books_io w) as [Hs _]. rewrite H in Hs. exact Hs.
  - pose proof (load_books_io w) as [_ Hc]. rewrite H in Hc. exact Hc.
  - intros name Hne. pose proof (load_books_other w name Hne) as Ho.
    rewrite H in Ho. exact Ho.
  - intros text Ht. rewrite (load_books_present _ _ Ht) in H.
    injection H as _ ->. reflexivity.
Qed.

End ReadOnly.

(* ================================================================== *)
(** * The store *)
(* ================================================================== *)

Section Storage.

Lemma entries_text_books (books : list book) :
  entries_text (map as_entry books) = Some (map row_values books).
Proof.
  induction books as [|b books IH]; [reflexivity|].
  cbn [map entries_text]. rewrite IH. reflexivity.
Qed.

Lemma entries_text_app (es1 es2 : list entry) (r1 r2 : list (list string)) :
  entries_text es1 = Some r1 -> entries_text es2 = Some r2 ->
  entries_text (es1 ++ es2) = Some (r1 ++ r2).
Proof.
  revert r1. induction es1 as [|e es1 IH]; intros r1 H1 H2.
  - injection H1 as <-. exact H2.
  - cbn [app entries_text] in *.
    destruct (cells_text (row_values e)) as [r|]; [|discriminate].
    destruct (entries_text es1) as [rs|]; [|discriminate].
    injection H1 as <-. rewrite (IH rs) by auto. reflexivity.
Qed.

Lemma books_of_rows_values (books : list book) :
  books_of_rows (map row_values books) = Some books.
Proof.
  induction books as [|b books IH]; [reflexivity|].
  cbn [map]. destruct b as [t a y g r]. cbn [row_values books_of_rows book_of_cells].
  cbn [row_values] in IH. rewrite IH. reflexivity.
Qed.

(** A table under the header of the store is read as its books. *)
Lemma DictReader_table (text : string) (books : list book) :
  Csv.reader text = Some (FIELDNAMES :: map row_values books) ->
  DictReader text = Ok books.
Proof.
  intros H. unfold DictReader. rewrite H.
  destruct (decide (FIELDNAMES = FIELDNAMES)) as [_|Hne]; [|congruence].
  rewrite books_of_rows_values. reflexivity.
Qed.

Lemma forallb_fits_values (books : list book) :
  forallb (forallb fits) (map row_values books) = forallb book_fits books.
Proof.
  induction books as [|b books IH]; [reflexivity|].
  cbn [map forallb]. rewrite IH. reflexivity.
Qed.

(** The store written from a list of books is read as that list, when the
    fields of the books are within the field size limit. *)
Lemma reader_store_text (books : list book) :
  forallb book_fits books = true ->
  Csv.reader (store_text (map row_values books))
  = Some (FIELDNAMES :: map row_values books).
Proof.
  intros H. apply reader_writerows. cbn [forallb].
  rewrite forallb_fits_values, H. reflexivity.
Qed.

Lemma DictReader_store_text (books : list book) :
  forallb book_fits books = true ->
  DictReader (store_text (map row_values books)) = Ok books.
Proof. intros H. apply DictReader_table, reader_store_text, H. Qed.

Lemma books_of_rows_fits (rows : list (list string)) (books : list book) :
  forallb (forallb fits) rows = true -> books_of_rows rows = Some books ->
  forallb book_fits books = true.
Proof.
  revert books. induction rows as [|r rows IH]; intros books Hfit H.
  - injection H as <-. reflexivity.
  - cbn [forallb] in Hfit. apply andb_true_iff in Hfit as [Hr Hrows].
    destruct r as [|c r].
    + apply IH; assumption.
    + cbn [books_of_rows] in H.
      destruct (book_of_cells (c :: r)) as [b|] eqn:Hb; [|discriminate].
      destruct (books_of_rows rows) as [bs|]; [|discriminate].
      injection H as <-. cbn [forallb]. rewrite (IH bs Hrows eq_refl), andb_true_r.
      destruct r as [|a [|y [|g [|t [|? ?]]]]]; try discriminate.
      injection Hb as <-. exact Hr.
Qed.

(** The books that are read from a store have fields within the field size
    limit: the store can be written from them and read again. *)
Lemma DictReader_fits (text : string) (books : list book) :
  DictReader text = Ok books -> forallb book_fits books = true.
Proof.
  unfold DictReader. destruct (Csv.reader text) as [rows|] eqn:Hr; [|discriminate].
  apply reader_fits in Hr. destruct rows as [|header rows].
  - intros H. injection H as <-. reflexivity.
  - cbn [forallb] in Hr. apply andb_true_iff in Hr as [_ Hrows].
    destruct (decide (header = FIELDNAMES)).
    + destruct (books_of_rows rows) as [bs|] eqn:Hb; [|discriminate].
      intros H. injection H as <-. apply (books_of_rows_fits rows); assumption.
    + match goal with |- context [if ?b then _ else _] => destruct b end;
        [|discriminate].
      intros H. injection H as <-. reflexivity.
Qed.

Lemma load_books_table (w : world) (text : string) (books : list book) :
  files w !! STORE = Some text ->
  Csv.reader text = Some (FIELDNAMES :: map row_values books) ->
  load_books w = (Ok books, w).
Proof.
  intros Hf Hr. rewrite (load_books_present _ _ Hf), (DictReader_table _ _ Hr).
  reflexivity.
Qed.

Lemma save_books_run (es : list entry) (rows : list (list string)) (w : world) :
  entries_text es = Some rows ->
  save_books es w
  = (Ok tt, World (<[STORE := store_text rows]> (files w)) (stdin w) (console w)).
Proof. intros H. unfold save_books. rewrite H. reflexivity. Qed.

Lemma header_text :
  Csv.writerow FIELDNAMES = "Title,Author,Year,Genre,Rating" +:+ Csv.CRLF.
Proof. reflexivity. Qed.

(** C8. Without a store, [load_books] raises nothing: it creates the
    store as the header row alone and returns no record. With a store, a
    table under the header row, it returns the rows of the table in their
    order, each as a mapping under the five keys; every store that the
    program wrote from a list of books whose fields are within the field
    size limit of the csv reader is such a table and is read as that
    list. *)
Theorem load_books_creates_or_reads (w : world) :
  (files w !! STORE = None ->
   load_books w
   = (Ok [], World (<[STORE := "Title,Author,Year,Genre,Rating" +:+ Csv.CRLF]> (files w))
                   (stdin w) (console w))
   /\ Csv.reader ("Title,Author,Year,Genre,Rating" +:+ Csv.CRLF) = Some [FIELDNAMES])
  /\ (forall text books,
        files w !! STORE = Some text ->
        Csv.reader text = Some (FIELDNAMES :: map row_values books) ->
        load_books w = (Ok books, w))
  /\ (forall books,
        forallb book_fits books = true ->
        files w !! STORE = Some (store_text (map row_values books)) ->
        load_books w = (Ok books, w)).
Proof.
  split; [|split].
  - intros H. split; [|reflexivity]. rewrite <- header_text. apply load_books_absent, H.
  - intros text books. apply load_books_table.
  - intros books Hfit H. apply (load_books_table _ _ _ H), reader_store_text, Hfit.
Qed.

End Storage.

Section ExportImport.

Lemma export_json_run (w : world) (text fmt name : string) (rest : list string)
    (books : list book) :
  files w !! STORE = Some text -> DictReader text = Ok books -> books <> [] ->
  stdin w = fmt :: name :: rest ->
  Py.lower (Py.strip fmt) = "json" -> Py.strip name <> EmptyString ->
  export_library w
  = (Ok tt,
     World (<[Py.strip name := json_text books]> (files w)) rest
           (console w ++ [Prompt "Enter export format (json/txt): ";
                          Prompt "Enter filename: ";
                          Print ("Library exported to " +:+ Py.strip name
                                 +:+ " successfully.")])).
Proof.
  intros Hstore Hread Hne Hin Hfmt Hname. unfold export_library.
  erewrite bind_ok by (rewrite (load_books_present _ _ Hstore), Hread; reflexivity).
  destruct books as [|b bs]; [congruence|].
  erewrite bind_ok by (apply input_run; exact Hin).
  rewrite Hfmt. cbn [known_format negb String.eqb orb].
  change (known_format "json") with true. cbn [negb].
  erewrite bind_ok by (apply input_run; reflexivity).
  destruct (Py.strip name) as [|c n] eqn:Hn; [congruence|].
  cbn [Py.truthy negb]. change (String.eqb "json" "json") with true. cbv iota.
  unfold bind, write_file, print, emit, typed. simpl.
  rewrite <- !List.app_assoc. reflexivity.
Qed.

Lemma import_json_run (w : world) (fmt name : string) (rest : list string)
    (books : list book) :
  files w !! STORE = None \/ files w !! STORE = Some (Csv.writerow FIELDNAMES) ->
  stdin w = fmt :: name :: rest ->
  Py.lower (Py.strip fmt) = "json" -> Py.strip name <> EmptyString ->
  Py.strip name <> STORE ->
  files w !! Py.strip name = Some (json_text books) -> books <> [] ->
  import_library w
  = (Ok tt,
     World (<[STORE := store_text (map row_values books)]> (files w)) rest
           (console w ++ [Prompt "Enter import format (json/txt): ";
                          Prompt "Enter filename: ";
                          Print ("Imported " +:+ str_of_nat (length books)
                                 +:+ " books successfully.")])).
Proof.
  intros Hstore Hin Hfmt Hname Hother Hfile Hne. unfold import_library.
  erewrite bind_ok by (apply input_run; exact Hin).
  rewrite Hfmt. change (known_format "json") with true. cbn [negb].
  erewrite bind_ok by (apply input_run; reflexivity).
  destruct (Py.strip name) as [|c n] eqn:Hn; [congruence|].
  cbn [Py.truthy negb]. change (String.eqb "json" "json") with true. cbv iota.
  set (w1 := typed "Enter filename: " rest (typed "Enter import format (json/txt): "
                                               (name :: rest) w)).
  assert (Hload : exists fs1, load_books w1 = (Ok [], World fs1 rest (console w1))
                    /\ fs1 !! String c n = Some (json_text books)
                    /\ <[STORE := store_text (map row_values books)]> fs1
                       = <[STORE := store_text (map row_values books)]> (files w)).
  { destruct Hstore as [Hs|Hs].
    - exists (<[STORE := Csv.writerow FIELDNAMES]> (files w)). split; [|split].
      + rewrite load_books_absent by exact Hs. reflexivity.
      + rewrite lookup_insert_ne by congruence. exact Hfile.
      + apply insert_insert_eq.
    - exists (files w). split; [|split]; [|exact Hfile|reflexivity].
      rewrite (load_books_present w1 _ Hs). reflexivity. }
  destruct Hload as (fs1 & Hload & Hfile1 & Hfs).
  unfold try_except.
  erewrite bind_ok by exact Hload.
  unfold bind at 1. unfold read_file at 1. cbn [files]. rewrite Hfile1.
  rewrite import_json_text by exact Hne. cbn [of_result].
  unfold bind at 1. unfold ret at 1. cbn [map app].
  erewrite bind_ok by (apply save_books_run, entries_text_books).
  cbn [files stdin console]. rewrite Hfs. rewrite length_map.
  unfold print, emit, w1, typed. simpl. rewrite <- !List.app_assoc. reflexivity.
Qed.

End ExportImport.

(* ================================================================== *)
(** * Export and Import *)
(* ================================================================== *)

Section RoundTrip.

(** C4. A collection that is not empty is exported as json to a file other
    than the store; that file is then imported into a store that is empty
    (missing, or the header alone). The store then holds the records of
    the original collection, in their order: the same five-field tuples. *)
Theorem export_then_import_json (w w' : world) (text fmt1 name1 fmt2 name2 : string)
    (rest rest' : list string) (books : list book) :
  files w !! STORE = Some text -> DictReader text = Ok books -> books <> [] ->
  stdin w = fmt1 :: name1 :: rest ->
  Py.lower (Py.strip fmt1) = "json" ->
  Py.strip name1 <> EmptyString -> Py.strip name1 <> STORE ->
  files w' !! Py.strip name1 = files (snd (export_library w)) !! Py.strip name1 ->
  files w' !! STORE = None \/ files w' !! STORE = Some (Csv.writerow FIELDNAMES) ->
  stdin w' = fmt2 :: name2 :: rest' ->
  Py.lower (Py.strip fmt2) = "json" -> Py.strip name2 = Py.strip name1 ->
  let after := snd (import_library w') in
  load_books after = (Ok books, after)
  /\ (forall books', load_books after = (Ok books', after) ->
      forall b, In b books' <-> In b books).
Proof.
  intros Hstore Hread Hne Hin Hfmt Hname Hother Hfile Hempty Hin' Hfmt' Hname' after.
  rewrite (export_json_run _ _ _ _ _ _ Hstore Hread Hne Hin Hfmt Hname) in Hfile.
  cbn [snd files] in Hfile. rewrite lookup_insert_eq in Hfile.
  rewrite <- Hname' in Hfile, Hname, Hother.
  assert (Hload : load_books after = (Ok books, after)).
  { subst after.
    rewrite (import_json_run _ _ _ _ _ Hempty Hin' Hfmt' Hname Hother Hfile Hne).
    cbn [snd]. apply (load_books_table _ (store_text (map row_values books))).
    - cbn [files]. apply lookup_insert_eq.
    - apply reader_store_text, (DictReader_fits text), Hread. }
  split; [exact Hload|].
  intros books' H. rewrite Hload in H. injection H as <-. tauto.
Qed.

End RoundTrip.

(* ================================================================== *)
(** * Reports *)
(* ================================================================== *)

Section Reports.

Lemma generate_reports_run (w w' : world) (books : list book) :
  load_books w = (Ok books, w') -> books <> [] ->
  generate_reports w
  = (Ok tt,
     say (genre_events books
          ++ Print (NL +:+ "--- Average Rating ---" +:+ NL +:+ average_text books
                    +:+ " (from " +:+ str_of_nat (snd (rating_totals books))
                    +:+ " rated books)")
          :: year_events books) w').
Proof.
  intros Hload Hne. unfold generate_reports.
  erewrite bind_ok by exact Hload.
  destruct books as [|b bs]; [congruence|].
  erewrite bind_ok by apply print_run.
  erewrite bind_ok by apply print_all_run.
  erewrite bind_ok by apply print_run.
  unfold year_events, genre_events.
  destruct (years_of (b :: bs)) as [|y ys].
  - rewrite print_run, !say_say. reflexivity.
  - erewrite bind_ok by apply print_run.
    erewrite bind_ok by apply print_all_run.
    erewrite bind_ok by apply print_run.
    rewrite print_all_run, !say_say. reflexivity.
Qed.

Lemma rating_fold (books : list book) (total : Py.float) (count : nat) :
  fold_left rating_step books (total, count)
  = (fold_left Py.fadd (rated books) total, (count + length (rated books))%nat).
Proof.
  revert total count. induction books as [|b books IH]; intros total count.
  - simpl. rewrite Nat.add_0_r. reflexivity.
  - cbn [fold_left]. unfold rated. cbn [flat_map]. fold (rated books).
    unfold rating_step at 2. destruct (Rating b) as [|c r] eqn:Hr.
    + cbn [Py.truthy app]. apply IH.
    + cbn [Py.truthy]. destruct (Py.float_of_str (String c r)) as [x|].
      * rewrite IH. cbn [app fold_left length]. f_equal. lia.
      * cbn [app]. apply IH.
Qed.

(** The loop of the report adds up exactly the ratings that are not empty
    and read as floats, and counts them. *)
Lemma rating_totals_rated (books : list book) :
  rating_totals books = (fold_left Py.fadd (rated books) Py.fzero, length (rated books)).
Proof. unfold rating_totals. rewrite rating_fold. reflexivity. Qed.

Lemma average_text_mean (books : list book) :
  average_text books = mean_text (rated books).
Proof.
  unfold average_text. rewrite rating_totals_rated. unfold mean_text, mean.
  destruct (rated books); reflexivity.
Qed.

(** C6. On a collection that is not empty the report prints the mean of
    the ratings that are not empty and read as floats (the others are left
    out, not counted as zero), with two decimals, and the number of those
    ratings; without any such rating it prints 0.00 from 0 rated books.
    The mean is the one of binary64 arithmetic: the sum from the left,
    divided by the count. *)
Theorem report_average_of_rated (w w' : world) (books : list book) :
  load_books w = (Ok books, w') -> books <> [] ->
  fst (generate_reports w) = Ok tt
  /\ In (Print (average_line (rated books))) (console (snd (generate_reports w))).
Proof.
  intros Hload Hne. rewrite (generate_reports_run _ _ _ Hload Hne).
  split; [reflexivity|].
  cbn [snd say console]. rewrite !in_app_iff. right. right. left.
  unfold average_line. rewrite average_text_mean, rating_totals_rated. reflexivity.
Qed.

End Reports.

Section Years.

Lemma years_of_In (z : Z) (books : list book) :
  In z (years_of books) <-> exists b, In b books /\ year_of b = Some z.
Proof.
  unfold years_of. rewrite in_flat_map. split; intros (b & Hb & H); exists b;
    (split; [exact Hb|]); unfold year_of in *; destruct (Year b) as [|c y];
    simpl in *; try tauto; try discriminate.
  - destruct (Py.int (String c y)) as [n|]; simpl in H; [|tauto].
    destruct H as [->|[]]. reflexivity.
  - rewrite H. simpl. auto.
Qed.

Lemma min_list_In (y : Z) (ys : list Z) : In (min_list y ys) (y :: ys).
Proof.
  unfold min_list. revert y. induction ys as [|z ys IH]; intros y; [simpl; auto|].
  cbn [fold_left]. destruct (IH (Z.min y z)) as [H|H].
  - rewrite <- H. destruct (Z.min_spec y z) as [[_ ->]|[_ ->]]; simpl; auto.
  - simpl. auto.
Qed.

Lemma min_list_le (y : Z) (ys : list Z) (z : Z) : In z (y :: ys) -> min_list y ys <= z.
Proof.
  unfold min_list. revert y z. induction ys as [|x ys IH]; intros y z Hz.
  - destruct Hz as [->|[]]. simpl. lia.
  - cbn [fold_left]. destruct Hz as [->|[->|Hz]].
    + etransitivity; [apply (IH _ (Z.min z x)); left; reflexivity|]. lia.
    + etransitivity; [apply (IH _ (Z.min y z)); left; reflexivity|]. lia.
    + apply IH. right. exact Hz.
Qed.

Lemma max_list_In (y : Z) (ys : list Z) : In (max_list y ys) (y :: ys).
Proof.
  unfold max_list. revert y. induction ys as [|z ys IH]; intros y; [simpl; auto|].
  cbn [fold_left]. destruct (IH (Z.max y z)) as [H|H].
  - rewrite <- H. destruct (Z.max_spec y z) as [[_ ->]|[_ ->]]; simpl; auto.
  - simpl. auto.
Qed.

Lemma max_list_ge (y : Z) (ys : list Z) (z : Z) : In z (y :: ys) -> z <= max_list y ys.
Proof.
  unfold max_list. revert y z. induction ys as [|x ys IH]; intros y z Hz.
  - destruct Hz as [->|[]]. simpl. lia.
  - cbn [fold_left]. destruct Hz as [->|[->|Hz]].
    + etransitivity; [|apply (IH _ (Z.max z x)); left; reflexivity]. lia.
    + etransitivity; [|apply (IH _ (Z.max y z)); left; reflexivity]. lia.
    + apply IH. right. exact Hz.
Qed.

(** The records listed for a year that some record denotes, when every
    Year is written the way [str] writes it. *)
Lemma books_of_year_canonical (books : list book) (m : Z) :
  (forall b, In b books -> canonical_year b) ->
  In m (years_of books) ->
  forall b, In b (books_of_year m books) <-> In b books /\ year_of b = Some m.
Proof.
  intros Hcan Hm b. unfold books_of_year. rewrite filter_In, String.eqb_eq.
  split; intros [Hb H]; (split; [exact Hb|]).
  - apply years_of_In in Hm as (b0 & Hb0 & Hy0).
    pose proof (Hcan b0 Hb0 m Hy0) as Hc.
    unfold year_of in *. rewrite H, <- Hc. exact Hy0.
  - apply (Hcan b Hb). exact H.
Qed.

(** With every Year written the way [str] writes it, the oldest group is
    made of all the records of the least year, and the newest group of all
    the records of the greatest year. *)
Lemma report_groups_canonical (books : list book) (y : Z) (ys : list Z) :
  years_of books = y :: ys ->
  (forall b, In b books -> canonical_year b) ->
  let oldest := min_list y ys in
  let newest := max_list y ys in
  (forall b z, In b books -> year_of b = Some z -> oldest <= z <= newest)
  /\ (forall b, In b (books_of_year oldest books) <-> In b books /\ year_of b = Some oldest)
  /\ (forall b, In b (books_of_year newest books) <-> In b books /\ year_of b = Some newest).
Proof.
  intros Hy Hcan oldest newest. split; [|split].
  - intros b z Hb Hz.
    assert (Hin : In z (y :: ys)) by (rewrite <- Hy; apply years_of_In; eauto).
    split; [apply min_list_le | apply max_list_ge]; exact Hin.
  - apply books_of_year_canonical; [exact Hcan|]. rewrite Hy. apply min_list_In.
  - apply books_of_year_canonical; [exact Hcan|]. rewrite Hy. apply max_list_In.
Qed.

(** C3. A record whose Year reads as the least year but is not written
    the way [str] writes it is left out of the oldest group. Here the
    years read are 1950 and 2000; the record of 1950 has the Year 01950,
    and the report lists no record under the oldest books. Import brings
    such a store about: it copies the Year of a listing as it stands. *)
Theorem report_oldest_misses_padded_year :
  let old := Row "Old" "A" "01950" EmptyString EmptyString in
  let new := Row "New" "B" "2000" EmptyString EmptyString in
  let w := World {[ STORE := store_text [row_values old; row_values new] ]} [] [] in
  let listing :=
    "Title: Old" +:+ NL +:+ "Author: A" +:+ NL +:+ "Year: 01950" +:+ NL +:+ NL
    +:+ "Title: New" +:+ NL +:+ "Author: B" +:+ NL +:+ "Year: 2000" +:+ NL in
  let imported :=
    import_library (World {[ "books.txt" := listing ]} ["txt"; "books.txt"] []) in
  fst imported = Ok tt
  /\ files (snd imported) !! STORE = files w !! STORE
  /\ load_books w = (Ok [old; new], w)
  /\ year_of old = Some 1950 /\ year_of new = Some 2000
  /\ console (snd (generate_reports w))
     = [Print (NL +:+ "--- Genre Report ---"); Print "Uncategorized: 2 book(s)";
        Print (NL +:+ "--- Average Rating ---" +:+ NL +:+ "0.00 (from 0 rated books)");
        Print (NL +:+ "--- Oldest Book(s) ---");
        Print (NL +:+ "--- Newest Book(s) ---"); Print "New by B (2000)"].
Proof. vm_compute. repeat split. Qed.

End Years.

(* ================================================================== *)
(** * Add *)
(* ================================================================== *)

Section Add.

(** The year loop ends with [year] in one of its three states; the third
    is the rejected year left behind by an earlier round. *)
Lemma ask_year_value (current_year : Z) (prompt : string) (inp : list string) :
  forall (year : value) (evs : list event) (rest : list string) (v : value),
    year_value current_year year ->
    ask prompt (year_body current_year) year inp = (evs, rest, Ok v) ->
    year_value current_year v.
Proof.
  induction inp as [|line inp IH]; intros year evs rest v Hyear Hask.
  - discriminate.
  - cbn [ask] in Hask. unfold year_body in Hask at 1.
    destruct (Py.truthy (Py.strip line)).
    + cbn [negb] in Hask. destruct (Py.int (Py.strip line)) as [y|].
      * destruct ((y <? 0) || (current_year <? y)) eqn:Hrange.
        -- destruct (ask prompt (year_body current_year) (VInt y) inp)
             as [[evs' rest'] r] eqn:Hrec.
           injection Hask as _ _ ->.
           apply (IH (VInt y) evs' rest' v); [|exact Hrec].
           constructor. apply orb_true_iff in Hrange. lia.
        -- injection Hask as _ _ <-. constructor.
           apply orb_false_iff in Hrange. lia.
      * destruct (ask prompt (year_body current_year) year inp)
          as [[evs' rest'] r] eqn:Hrec.
        injection Hask as _ _ ->. apply (IH year evs' rest' v Hyear Hrec).
    + cbn [negb] in Hask. injection Hask as _ _ <-. exact Hyear.
Qed.

(** The rating loop ends with the empty string or with the text of a
    float between 0 and 5. *)
Lemma ask_rating_value (prompt : string) (inp : list string) :
  forall (evs : list event) (rest : list string) (v : value),
    ask prompt rating_body tt inp = (evs, rest, Ok v) -> rating_value v.
Proof.
  induction inp as [|line inp IH]; intros evs rest v Hask.
  - discriminate.
  - cbn [ask] in Hask. unfold rating_body in Hask at 1.
    destruct (Py.truthy (Py.strip line)).
    + cbn [negb] in Hask. destruct (Py.float_of_str (Py.strip line)) as [x|].
      * destruct (Py.fle Py.fzero x && Py.fle x (Py.float_of_int 5)) eqn:Hrange.
        -- injection Hask as _ _ <-. apply andb_true_iff in Hrange as [H0 H5].
           constructor; assumption.
        -- destruct (ask prompt rating_body tt inp) as [[evs' rest'] r].
           injection Hask as _ _ ->. apply (IH evs' rest' v). reflexivity.
      * destruct (ask prompt rating_body tt inp) as [[evs' rest'] r].
        injection Hask as _ _ ->. apply (IH evs' rest' v). reflexivity.
    + cbn [negb] in Hask. injection Hask as _ _ <-. constructor.
Qed.

(** C1. Add persists a Year outside [0, current_year]: in the year 2024,
    the year 3000 is rejected with a message, the next line is left empty,
    and the record is saved with the Year 3000. *)
Theorem add_book_keeps_rejected_year :
  let w := World ∅ ["T"; "A"; "3000"; EmptyString; EmptyString; EmptyString] [] in
  let after := snd (add_book 2024 w) in
  fst (add_book 2024 w) = Ok tt
  /\ In (Print "Year must be between 0 and 2024.") (console after)
  /\ load_books after
     = (Ok [Row "T" "A" "3000" EmptyString EmptyString], after)
  /\ Py.int "3000" = Some 3000 /\ 2024 < 3000.
Proof. vm_compute. repeat split; auto 10. Qed.

End Add.

Section AddPersists.

Lemma bind_inv {A B} (m : M A) (k : A -> M B) (w w' : world) (b : B) :
  bind m k w = (Ok b, w') ->
  exists a w1, m w = (Ok a, w1) /\ k a w1 = (Ok b, w').
Proof.
  unfold bind. destruct (m w) as [[a|e] w1]; [eauto | discriminate].
Qed.

Lemma ask_loop_inv {S A} (prompt : string) (body : S -> string -> list string * step S A)
    (s : S) (w w' : world) (a : A) :
  ask_loop prompt body s w = (Ok a, w') ->
  exists evs rest, ask prompt body s (stdin w) = (evs, rest, Ok a)
                   /\ files w' = files w.
Proof.
  unfold ask_loop. destruct (ask prompt body s (stdin w)) as [[evs rest] r].
  intros H. injection H as -> <-. eauto.
Qed.

(** The loops for the title and the author end with a text that is not
    empty. *)
Lemma ask_required_value (prompt message : string) (inp : list string) :
  forall (evs : list event) (rest : list string) (v : string),
    ask prompt (required_body message) tt inp = (evs, rest, Ok v) ->
    v <> EmptyString.
Proof.
  induction inp as [|line inp IH]; intros evs rest v Hask.
  - discriminate.
  - cbn [ask] in Hask. unfold required_body in Hask at 1.
    destruct (Py.truthy (Py.strip line)) eqn:Ht.
    + injection Hask as _ _ <-. intros E. rewrite E in Ht. discriminate.
    + destruct (ask prompt (required_body message) tt inp) as [[evs' rest'] r].
      injection Hask as _ _ ->. apply (IH evs' rest' v). reflexivity.
Qed.

(** What Add saves when it ends well: the books it read and one more row,
    with a title and an author that are not empty, the year in one of its
    three states and the rating in one of its two. *)
Lemma add_book_saves (current_year : Z) (w w' : world) :
  add_book current_year w = (Ok tt, w') ->
  exists (books : list book) (title author genre year_text rating_text : string)
         (year rating : value),
    fst (load_books w) = Ok books
    /\ title <> EmptyString /\ author <> EmptyString
    /\ year_value current_year year /\ cell_text year = Some year_text
    /\ rating_value rating /\ cell_text rating = Some rating_text
    /\ files w' !! STORE
       = Some (store_text (map row_values books
                           ++ [[title; author; year_text; genre; rating_text]])).
Proof.
  unfold add_book. intros H.
  apply bind_inv in H as (books & w1 & Hload & H).
  apply bind_inv in H as (title & w2 & Htitle & H).
  apply bind_inv in H as (author & w3 & Hauthor & H).
  apply bind_inv in H as (year & w4 & Hyear & H).
  apply bind_inv in H as (line & w5 & Hgenre & H).
  apply bind_inv in H as (rating & w6 & Hrating & H).
  apply bind_inv in H as ([] & w7 & Hsave & H).
  apply ask_loop_inv in Htitle as (? & ? & Htitle & _).
  apply ask_loop_inv in Hauthor as (? & ? & Hauthor & _).
  apply ask_loop_inv in Hyear as (? & ? & Hyear & _).
  apply ask_loop_inv in Hrating as (? & ? & Hrating & _).
  apply ask_required_value in Htitle. apply ask_required_value in Hauthor.
  apply ask_year_value in Hyear; [|constructor].
  apply ask_rating_value in Hrating.
  assert (Hy : exists t, cell_text year = Some t) by (destruct Hyear; simpl; eauto).
  assert (Hr : exists t, cell_text rating = Some t) by (destruct Hrating; simpl; eauto).
  destruct Hy as [yt Hy], Hr as [rt Hr].
  exists books, title, author, (Py.strip line), yt, rt, year, rating.
  rewrite Hload. repeat (split; [assumption || reflexivity|]).
  assert (Hrows : entries_text
                    (map as_entry books
                     ++ [Row (VStr title) (VStr author) year (VStr (Py.strip line)) rating])
                  = Some (map row_values books
                          ++ [[title; author; yt; Py.strip line; rt]])).
  { apply entries_text_app; [apply entries_text_books|].
    cbn [entries_text row_values Title Author Year Genre Rating cells_text cell_text].
    rewrite Hy, Hr. reflexivity. }
  rewrite (save_books_run _ _ _ Hrows) in Hsave. injection Hsave as <-.
  unfold print, emit in H. injection H as <-. cbn [files]. apply lookup_insert_eq.
Qed.

End AddPersists.

(* ================================================================== *)
(** * Delete *)
(* ================================================================== *)

Section Delete.

Lemma book_eqb_spec (a b : book) : book_eqb a b = true <-> a = b.
Proof.
  unfold book_eqb. rewrite !andb_true_iff, !String.eqb_eq.
  destruct a, b. simpl. split.
  - intros [[[[-> ->] ->] ->] ->]. reflexivity.
  - intros H. injection H as -> -> -> -> ->. auto.
Qed.

Lemma book_in_spec (b : book) (l : list book) : book_in b l = true <-> In b l.
Proof.
  unfold book_in. rewrite existsb_exists. split.
  - intros (x & Hx & H). apply book_eqb_spec in H. subst. exact Hx.
  - intros H. exists b. split; [exact H|]. apply book_eqb_spec. reflexivity.
Qed.

(** Removal by value: what stays are the records equal to none of the
    records to delete. *)
Lemma remove_books_spec (to_delete books : list book) (b : book) :
  In b (remove_books to_delete books) <-> In b books /\ ~ In b to_delete.
Proof.
  unfold remove_books. rewrite filter_In, negb_true_iff, <- (book_in_spec b to_delete).
  destruct (book_in b to_delete); intuition congruence.
Qed.

(** Indices outside the match list are dropped. *)
Lemma valid_indices_spec (matches : list book) (indices : list Z) (i : Z) :
  In i (valid_indices matches indices)
  <-> In i indices /\ 0 <= i < Z.of_nat (length matches).
Proof.
  unfold valid_indices. rewrite filter_In, andb_true_iff, Z.leb_le, Z.ltb_lt. tauto.
Qed.

Lemma select_spec (matches : list book) (valid : list Z) (b : book) :
  In b (select matches valid)
  <-> exists i, In i valid /\ nth_error matches (Z.to_nat i) = Some b.
Proof.
  unfold select. rewrite in_flat_map. split; intros (i & Hi & H); exists i;
    (split; [exact Hi|]).
  - destruct (nth_error matches (Z.to_nat i)) as [x|]; [|destruct H].
    destruct H as [->|[]]. reflexivity.
  - rewrite H. left. reflexivity.
Qed.

(** A line of integers is neither of the two words. *)
Lemma choice_body_indices (matches : list book) (line : string) (indices : list Z) :
  parse_indices (Py.split "," (Py.lower (Py.strip line))) = Some indices ->
  choice_body matches tt line
  = match valid_indices matches indices with
    | [] => (["No valid indices entered."], Continue tt)
    | valid => ([], Break (Indices valid))
    end.
Proof.
  intros H. unfold choice_body.
  destruct (String.eqb_spec (Py.lower (Py.strip line)) "cancel") as [E|_].
  { rewrite E in H. discriminate. }
  destruct (String.eqb_spec (Py.lower (Py.strip line)) "all") as [E|_].
  { rewrite E in H. discriminate. }
  rewrite H. reflexivity.
Qed.

(** Without a valid index the handler says so and asks again; nothing was
    written in between. *)
Lemma ask_no_valid_index (prompt : string) (matches : list book) (line : string)
    (rest : list string) (indices : list Z) :
  parse_indices (Py.split "," (Py.lower (Py.strip line))) = Some indices ->
  valid_indices matches indices = [] ->
  ask prompt (choice_body matches) tt (line :: rest)
  = let '(evs, rest', r) := ask prompt (choice_body matches) tt rest in
    (Prompt prompt :: Print "No valid indices entered." :: evs, rest', r).
Proof.
  intros Hparse Hvalid. cbn [ask].
  rewrite (choice_body_indices _ _ _ Hparse), Hvalid. reflexivity.
Qed.

(** The numeric path with a valid index: the records equal to a selected
    match leave the store, and the number printed is the number of valid
    indices typed. *)
Lemma delete_book_indices (w : world) (text term line : string) (rest : list string)
    (books matches : list book) (indices valid : list Z) :
  files w !! STORE = Some text -> DictReader text = Ok books ->
  stdin w = term :: line :: rest ->
  matches = List.filter (title_match (Py.lower (Py.strip term))) books ->
  matches <> [] ->
  parse_indices (Py.split "," (Py.lower (Py.strip line))) = Some indices ->
  valid = valid_indices matches indices ->
  valid <> [] ->
  delete_book w
  = (Ok tt,
     World (<[STORE := store_text
                         (map row_values (remove_books (select matches valid) books))]>
              (files w))
           rest
           (console w
            ++ (Prompt "Enter the title to delete: " :: Print "Matching books:"
                :: map Print (map short_line (enumerate 1 matches)))
            ++ [Prompt "Enter numbers to delete (comma-separated), 'all', or 'cancel': ";
                Print ("Deleted " +:+ str_of_nat (length valid) +:+ " books.")])).
Proof.
  intros Hstore Hread Hin Ematches Hm Hparse Evalid Hvalid. unfold delete_book.
  erewrite bind_ok by (rewrite (load_books_present _ _ Hstore), Hread; reflexivity).
  erewrite bind_ok by (apply input_run; exact Hin).
  rewrite <- Ematches.
  assert (Hgo : forall k1 k2 : M unit,
            match matches with [] => k1 | _ :: _ => k2 end = k2).
  { intros k1 k2. destruct matches; [congruence|reflexivity]. }
  rewrite Hgo. clear Hgo.
  erewrite bind_ok by apply print_run.
  erewrite bind_ok by apply print_all_run.
  unfold bind at 1. unfold ask_loop at 1. cbn [stdin say typed ask].
  rewrite (choice_body_indices _ _ _ Hparse), <- Evalid.
  assert (Hgo : forall A (k1 : A) (k2 : list Z -> A),
            match valid with [] => k1 | z :: l => k2 (z :: l) end = k2 valid).
  { intros A k1 k2. destruct valid; [congruence|reflexivity]. }
  rewrite (Hgo _ (["No valid indices entered."], Continue tt)
             (fun v => ([], Break (Indices v)))).
  cbn [map app].
  erewrite bind_ok by (apply save_books_run, entries_text_books).
  unfold print, emit, say, typed. cbn [files stdin console]. do 2 f_equal.
  rewrite <- !List.app_assoc. reflexivity.
Qed.

(** C2. The number that Delete prints is the number of valid indices
    typed, not the number of records removed: with one record matched and
    the line 1,1 one record leaves the store and two are reported. *)
Theorem delete_book_counts_indices :
  let dune := Row "Dune" "Herbert" "1965" "Sci-Fi" "4.8" in
  let w := World {[ STORE := store_text [row_values dune] ]} ["dune"; "1,1"] [] in
  let after := snd (delete_book w) in
  load_books w = (Ok [dune], w)
  /\ fst (delete_book w) = Ok tt
  /\ load_books after = (Ok [], after)
  /\ last (console after) = Some (Print "Deleted 2 books.").
Proof. vm_compute. repeat split. Qed.

End Delete.

(* ================================================================== *)
(** * What the commands leave alone *)
(* ================================================================== *)

Section Frames.

Lemma frame_refl (w : world) : frame w w.
Proof. repeat split; auto. Qed.

Lemma frame_trans (w1 w2 w3 : world) : frame w1 w2 -> frame w2 w3 -> frame w1 w3.
Proof.
  intros (Hf & Hs & Hi & Hc) (Hf' & Hs' & Hi' & Hc'). repeat split.
  - intros name Hne. rewrite (Hf' name Hne). apply Hf, Hne.
  - auto.
  - etransitivity; eassumption.
  - etransitivity; eassumption.
Qed.

Lemma framed_ret {A} (a : A) : framed (ret a).
Proof. intros w. apply frame_refl. Qed.

Lemma framed_raise {A} (e : exn) : framed (@raise A e).
Proof. intros w. apply frame_refl. Qed.

Lemma framed_bind {A B} (m : M A) (k : A -> M B) :
  framed m -> (forall a, framed (k a)) -> framed (bind m k).
Proof.
  intros Hm Hk w. unfold bind. specialize (Hm w).
  destruct (m w) as [[a|e] w1]; simpl in *; [|exact Hm].
  apply (frame_trans _ w1); [exact Hm | apply Hk].
Qed.

Lemma framed_emit (e : event) : framed (emit e).
Proof.
  intros w. repeat split; simpl; auto. apply prefix_app_r. reflexivity.
Qed.

Lemma framed_print (s : string) : framed (print s).
Proof. apply framed_emit. Qed.

Lemma framed_print_all (l : list string) : framed (print_all l).
Proof.
  induction l as [|s l IH]; [apply framed_ret|].
  apply framed_bind; [apply framed_print | intros _; exact IH].
Qed.

Lemma framed_input (prompt : string) : framed (input prompt).
Proof.
  intros w. unfold input. destruct (stdin w) as [|l rest] eqn:E;
    repeat split; simpl; auto; try (apply prefix_app_r; reflexivity).
  - rewrite E. reflexivity.
  - rewrite E. apply suffix_cons_r. reflexivity.
Qed.

Lemma framed_read_file (name : string) : framed (read_file name).
Proof. intros w. apply frame_refl. Qed.

(** Writing the store is within the frame; writing another file is not. *)
Lemma framed_write_store (text : string) : framed (write_file STORE text).
Proof.
  intros w. repeat split; simpl; auto.
  - intros name Hne. apply lookup_insert_ne. congruence.
  - intros _. rewrite lookup_insert_eq. eauto.
Qed.

Lemma ask_suffix {S A} (prompt : string) (body : S -> string -> list string * step S A)
    (inp : list string) :
  forall s, snd (fst (ask prompt body s inp)) `suffix_of` inp.
Proof.
  induction inp as [|line inp IH]; intros s; [reflexivity|].
  cbn [ask]. destruct (body s line) as [msgs [s'|a]].
  - specialize (IH s'). destruct (ask prompt body s' inp) as [[evs rest] r].
    simpl in *. apply suffix_cons_r. exact IH.
  - simpl. apply suffix_cons_r. reflexivity.
Qed.

Lemma framed_ask_loop {S A} (prompt : string)
    (body : S -> string -> list string * step S A) (s : S) :
  framed (ask_loop prompt body s).
Proof.
  intros w. unfold ask_loop. pose proof (ask_suffix prompt body (stdin w) s) as H.
  destruct (ask prompt body s (stdin w)) as [[evs rest] r]. simpl in *.
  repeat split; simpl; auto. apply prefix_app_r. reflexivity.
Qed.

Lemma framed_load_books : framed load_books.
Proof.
  unfold load_books. apply framed_bind; [apply framed_read_file|].
  intros [t|].
  - destruct (DictReader t); [apply framed_ret | apply framed_raise].
  - apply framed_bind; [apply framed_write_store | intros _; apply framed_ret].
Qed.

Lemma framed_save_books (es : list entry) : framed (save_books es).
Proof.
  unfold save_books. destruct (entries_text es);
    [apply framed_write_store | apply framed_raise].
Qed.

Lemma framed_try_except {A} (m : M A) (handler : exn -> M A) :
  framed m -> (forall e, framed (handler e)) -> framed (try_except m handler).
Proof.
  intros Hm Hh w. unfold try_except. specialize (Hm w).
  destruct (m w) as [[a|e] w1]; simpl in *; [exact Hm|].
  destruct e; try exact Hm; (apply (frame_trans _ w1); [exact Hm | apply Hh]).
Qed.

Lemma framed_of_result {A} (r : result A) : framed (of_result r).
Proof. destruct r; [apply framed_ret | apply framed_raise]. Qed.

End Frames.

(** Takes a command apart along its binds and its branches. *)
Ltac framing :=
  repeat first
    [ apply framed_bind; [|intros ?]
    | apply framed_ret | apply framed_raise | apply framed_print | apply framed_emit
    | apply framed_print_all | apply framed_input | apply framed_read_file
    | apply framed_load_books | apply framed_save_books | apply framed_ask_loop
    | apply framed_write_store | apply framed_of_result
    | apply framed_try_except; [|intros ?]
    | progress cbv zeta
    | match goal with
      | |- framed (match ?x with _ => _ end) => destruct x
      | |- framed (if ?b then _ else _) => destruct b
      end ].

Section FramedCommands.

Lemma framed_add_book (current_year : Z) : framed (add_book current_year).
Proof. unfold add_book. framing. Qed.

Lemma framed_list_books : framed list_books.
Proof. unfold list_books. framing. Qed.

Lemma framed_search_books : framed search_books.
Proof. unfold search_books. framing. Qed.

Lemma framed_delete_book : framed delete_book.
Proof. unfold delete_book. framing. Qed.

Lemma framed_generate_reports : framed generate_reports.
Proof. unfold generate_reports. framing. Qed.

Lemma framed_import_library : framed import_library.
Proof. unfold import_library. framing. Qed.

End FramedCommands.

Section Flows.

Lemma flow_refl (w : world) : flow w w.
Proof. repeat split; auto. Qed.

Lemma flow_trans (w1 w2 w3 : world) : flow w1 w2 -> flow w2 w3 -> flow w1 w3.
Proof.
  intros (Hf & Hi & Hc) (Hf' & Hi' & Hc'). repeat split.
  - auto.
  - etransitivity; eassumption.
  - etransitivity; eassumption.
Qed.

Lemma frame_flow (w w' : world) : frame w w' -> flow w w'.
Proof.
  intros (Hf & Hs & Hi & Hc). repeat split; [|exact Hi|exact Hc].
  intros name H. destruct (decide (name = STORE)) as [->|Hne]; [auto|].
  rewrite (Hf name Hne). exact H.
Qed.

Lemma flowing_framed {A} (m : M A) : framed m -> flowing m.
Proof. intros H w. apply frame_flow, H. Qed.

Lemma flowing_bind {A B} (m : M A) (k : A -> M B) :
  flowing m -> (forall a, flowing (k a)) -> flowing (bind m k).
Proof.
  intros Hm Hk w. unfold bind. specialize (Hm w).
  destruct (m w) as [[a|e] w1]; simpl in *; [|exact Hm].
  apply (flow_trans _ w1); [exact Hm | apply Hk].
Qed.

Lemma flowing_write_file (name text : string) : flowing (write_file name text).
Proof.
  intros w. repeat split; simpl; auto.
  intros n H. destruct (decide (n = name)) as [->|Hne].
  - rewrite lookup_insert_eq. eauto.
  - rewrite lookup_insert_ne by congruence. exact H.
Qed.

Lemma flowing_export_library : flowing export_library.
Proof.
  unfold export_library.
  repeat first
    [ apply flowing_bind; [|intros ?]
    | apply flowing_write_file
    | apply flowing_framed; framing; fail
    | progress cbv zeta
    | match goal with
      | |- flowing (match ?x with _ => _ end) => destruct x
      | |- flowing (if ?b then _ else _) => destruct b
      end ].
Qed.

Lemma flowing_menu_choice (current_year : Z) (choice : string) :
  flowing (menu_choice current_year choice).
Proof.
  unfold menu_choice.
  repeat match goal with |- flowing (if ?b then _ else _) => destruct b end;
    (apply flowing_bind; [|intros ?; apply flowing_framed, framed_ret]);
    first [ apply flowing_export_library
          | apply flowing_framed;
            first [ apply framed_add_book | apply framed_list_books
                  | apply framed_search_books | apply framed_delete_book
                  | apply framed_generate_reports | apply framed_import_library
                  | apply framed_print ] ].
Qed.

Lemma flowing_menu_round (current_year : Z) : flowing (menu_round current_year).
Proof.
  unfold menu_round.
  apply flowing_bind; [apply flowing_framed, framed_print_all | intros _].
  apply flowing_bind; [apply flowing_framed, framed_input | intros line].
  apply flowing_menu_choice.
Qed.

Lemma flowing_menu_rounds (n : nat) (current_year : Z) :
  flowing (menu_rounds n current_year).
Proof.
  induction n as [|n IH]; [apply flowing_framed, framed_raise|].
  cbn [menu_rounds]. apply flowing_bind; [apply flowing_menu_round|].
  intros [|]; [apply flowing_framed, framed_ret | exact IH].
Qed.

(** A round that ends well has read a line. *)
Lemma menu_choice_stop (current_year : Z) (choice : string) (w w' : world) :
  menu_choice current_year choice w = (Ok true, w') -> choice = "8".
Proof.
  unfold menu_choice. intros H.
  repeat match type of H with
         | (if ?b then _ else _) _ = _ => let E := fresh "E" in destruct b eqn:E
         end;
    try (apply bind_inv in H as (? & ? & _ & H); discriminate).
  apply String.eqb_eq. assumption.
Qed.

Lemma menu_round_reads (current_year : Z) (w w' : world) (stop : bool) :
  menu_round current_year w = (Ok stop, w') ->
  exists line rest, stdin w = line :: rest /\ stdin w' `suffix_of` rest
                    /\ (stop = true -> Py.strip line = "8").
Proof.
  unfold menu_round. intros H.
  apply bind_inv in H as ([] & w1 & H1 & H).
  rewrite print_all_run in H1. injection H1 as <-.
  apply bind_inv in H as (line & w2 & H2 & H).
  pose proof (flowing_menu_choice current_year (Py.strip line) w2) as (_ & Hs & _).
  rewrite H in Hs. cbn [snd] in Hs.
  unfold input in H2. cbn [stdin say] in H2.
  destruct (stdin w) as [|l rest] eqn:E; [discriminate|].
  injection H2 as -> <-. exists line, rest. split; [reflexivity|]. split.
  - exact Hs.
  - intros ->. apply (menu_choice_stop _ _ _ _ H).
Qed.

Lemma menu_rounds_any (current_year : Z) (n : nat) :
  forall (m : nat) (w : world),
    (length (stdin w) < n)%nat -> (length (stdin w) < m)%nat ->
    menu_rounds n current_year w = menu_rounds m current_year w.
Proof.
  induction n as [|n IH]; intros m w Hn Hm; [lia|].
  destruct m as [|m]; [lia|]. cbn [menu_rounds]. unfold bind.
  destruct (menu_round current_year w) as [[[|]|e] w1] eqn:Hr; try reflexivity.
  apply menu_round_reads in Hr as (line & rest & E & Hs & _).
  apply suffix_length in Hs. rewrite E in Hn, Hm. simpl in Hn, Hm.
  apply IH; lia.
Qed.

End Flows.

(* ================================================================== *)
(** * The menu *)
(* ================================================================== *)

Section Menu.

(** The bound on the rounds is never met: more rounds change nothing. *)
Lemma main_menu_rounds (current_year : Z) (n : nat) (w : world) :
  (length (stdin w) < n)%nat ->
  menu_rounds n current_year w = main_menu current_year w.
Proof. intros H. unfold main_menu. apply menu_rounds_any; lia. Qed.

(** X1. [main_menu] is its loop: one round (the menu, the choice, the
    command chosen), and then [main_menu] again unless the choice was 8.
    An exception of the command ends the loop with that exception. The
    bound on the rounds of the loop is never met: with any greater bound
    the run is the same. *)
Theorem main_menu_unrolls (current_year : Z) (w : world) :
  main_menu current_year w
  = (stop <- menu_round current_year ;;
     if stop then ret tt else main_menu current_year) w
  /\ (forall n, (length (stdin w) < n)%nat ->
       menu_rounds n current_year w = main_menu current_year w).
Proof.
  split; [|intros n; apply main_menu_rounds].
  unfold main_menu at 1. cbn [menu_rounds]. unfold bind.
  destruct (menu_round current_year w) as [[[|]|e] w1] eqn:Hr; try reflexivity.
  apply menu_round_reads in Hr as (line & rest & E & Hs & _).
  apply suffix_length in Hs. apply main_menu_rounds. rewrite E. simpl. lia.
Qed.

(** X2. Choice 8 (blanks around it are dropped) prints the menu and
    Goodbye! and ends the program: no file is touched and the lines after
    the choice stay unread. *)
Theorem main_menu_exit (current_year : Z) (w : world) (line : string)
    (rest : list string) :
  stdin w = line :: rest -> Py.strip line = "8" ->
  main_menu current_year w
  = (Ok tt, World (files w) rest
              (console w ++ map Print MENU
               ++ [Prompt "Enter your choice: "; Print "Goodbye!"])).
Proof.
  intros Hin Hline. unfold main_menu. rewrite Hin. cbn [length menu_rounds].
  unfold menu_round.
  erewrite bind_ok; [|erewrite bind_ok by apply print_all_run;
                      erewrite bind_ok by (apply input_run; exact Hin);
                      rewrite Hline; reflexivity].
  unfold ret, say, typed. cbn [files stdin console]. rewrite <- !List.app_assoc.
  reflexivity.
Qed.

Lemma menu_round_goodbye (current_year : Z) (w w' : world) :
  menu_round current_year w = (Ok true, w') ->
  last (console w') = Some (Print "Goodbye!").
Proof.
  unfold menu_round. intros H.
  apply bind_inv in H as ([] & w1 & _ & H).
  apply bind_inv in H as (line & w2 & _ & H).
  pose proof (menu_choice_stop _ _ _ _ H) as E. rewrite E in H.
  injection H as <-. cbn [console]. apply last_snoc.
Qed.

Lemma menu_rounds_ends (current_year : Z) (n : nat) :
  forall w w', menu_rounds n current_year w = (Ok tt, w') ->
    (exists line, In line (stdin w) /\ Py.strip line = "8")
    /\ last (console w') = Some (Print "Goodbye!").
Proof.
  induction n as [|n IH]; intros w w' H; [discriminate|].
  cbn [menu_rounds] in H. apply bind_inv in H as (stop & w1 & Hr & H).
  pose proof (menu_round_reads _ _ _ _ Hr) as (line & rest & E & Hs & Hstop).
  destruct stop.
  - injection H as <-. split; [|apply (menu_round_goodbye _ _ _ Hr)].
    exists line. rewrite E. split; [left; reflexivity | auto].
  - apply IH in H as [(l & Hl & Hl8) Hlast]. split; [|exact Hlast].
    exists l. split; [|exact Hl8]. rewrite E. right.
    destruct Hs as [k ->]. apply in_or_app. right. exact Hl.
Qed.

(** X3. The program ends well only through choice 8: when it does, a
    line of the input was 8 (with blanks around it, if any), and the last
    thing on the console is Goodbye!. So on an input without such a line
    the program ends with an exception. *)
Theorem main_menu_ends_by_exit (current_year : Z) (w : world) :
  fst (main_menu current_year w) = Ok tt ->
  (exists line, In line (stdin w) /\ Py.strip line = "8")
  /\ last (console (snd (main_menu current_year w))) = Some (Print "Goodbye!").
Proof.
  intros H. apply (menu_rounds_ends current_year (S (length (stdin w)))).
  unfold main_menu in *.
  destruct (menu_rounds _ current_year w) as [r w']. simpl in H. subst r. reflexivity.
Qed.

(** X4. Whatever is chosen at the menu, and for however many rounds, no
    file is removed, the input is read from the front (what is left is a
    final part of it) and the console only grows. *)
Theorem main_menu_flows (current_year : Z) (w : world) :
  flow w (snd (main_menu current_year w)).
Proof. apply flowing_menu_rounds. Qed.

End Menu.

Section CommandFrames.

(** X5. Add, List, Search, Delete, Report and Import keep to the store:
    whatever is typed, and also when they end with an exception, every
    other file is as it was, the store is not removed, the input is read
    from the front and the console only grows. *)
Theorem commands_keep_to_store (current_year : Z) (w : world) :
  frame w (snd (add_book current_year w))
  /\ frame w (snd (list_books w))
  /\ frame w (snd (search_books w))
  /\ frame w (snd (delete_book w))
  /\ frame w (snd (generate_reports w))
  /\ frame w (snd (import_library w)).
Proof.
  repeat split;
    first [ apply framed_add_book | apply framed_list_books | apply framed_search_books
          | apply framed_delete_book | apply framed_generate_reports
          | apply framed_import_library ].
Qed.

Lemma bind_files {A B} (m : M A) (k : A -> M B) (w : world) (name : string)
    (old : option string) :
  files (snd (m w)) !! name = old ->
  (forall a w1, m w = (Ok a, w1) -> files (snd (k a w1)) !! name = old) ->
  files (snd (bind m k w)) !! name = old.
Proof.
  intros Hm Hk. unfold bind. destruct (m w) as [[a|e] w1] eqn:E; [|exact Hm].
  apply (Hk a w1). reflexivity.
Qed.

(** X6. Export writes one file at most, the one named at its second
    prompt: every other file but the store is as it was (and the store
    only appears, with its header, when it was missing). *)
Theorem export_library_writes_target (w : world) (name : string) :
  name <> STORE ->
  match stdin w with
  | _ :: target :: _ => name <> Py.strip target
  | _ => True
  end ->
  files (snd (export_library w)) !! name = files w !! name.
Proof.
  intros Hne Htarget. unfold export_library.
  apply bind_files; [apply load_books_other, Hne|].
  intros books w1 Hload.
  assert (Hf : files w1 !! name = files w !! name).
  { pose proof (load_books_other w name Hne) as H. rewrite Hload in H. exact H. }
  assert (Hin : stdin w1 = stdin w).
  { pose proof (load_books_io w) as [H _]. rewrite Hload in H. exact H. }
  destruct books as [|b bs]; [exact Hf|].
  unfold bind at 1, input at 1. rewrite Hin.
  destruct (stdin w) as [|fmt [|target rest]]; [exact Hf | |].
  - destruct (negb _); [exact Hf|]. exact Hf.
  - destruct (negb _); [exact Hf|].
    unfold bind at 1, input at 1. cbn [stdin].
    destruct (negb _); [exact Hf|].
    destruct (String.eqb _ "json"); unfold bind, write_file, print, emit;
      cbn [files snd]; rewrite lookup_insert_ne by congruence; exact Hf.
Qed.

End CommandFrames.

Section SaveAndLoad.

(** X7. What [save_books] saves, [load_books] loads: after saving a list
    of books whose fields are within the field size limit of the csv
    reader, loading returns that list, in its order, whatever the fields
    hold (commas, quotes, line ends), and changes nothing. *)
Theorem save_then_load (w : world) (books : list book) :
  forallb book_fits books = true ->
  fst (save_books (map as_entry books) w) = Ok tt
  /\ load_books (snd (save_books (map as_entry books) w))
     = (Ok books, snd (save_books (map as_entry books) w)).
Proof.
  intros Hfit. rewrite (save_books_run _ _ _ (entries_text_books books)).
  split; [reflexivity|]. cbn [snd].
  apply (load_books_table _ (store_text (map row_values books))).
  - cbn [files]. apply lookup_insert_eq.
  - apply reader_store_text, Hfit.
Qed.

(** X8. Loading twice is loading once: the second [load_books] returns
    what the first returned (the same books, or the same exception) and
    leaves the world as the first left it; in particular the store that
    the first created is read as the empty collection. *)
Theorem load_books_again (w : world) :
  load_books (snd (load_books w)) = load_books w.
Proof.
  destruct (files w !! STORE) as [text|] eqn:H.
  - rewrite (load_books_present _ _ H). cbn [snd]. apply load_books_present, H.
  - rewrite (load_books_absent _ H). cbn [snd].
    erewrite load_books_present by (cbn [files]; apply lookup_insert_eq).
    reflexivity.
Qed.

End SaveAndLoad.

Section AddRecord.

Lemma ask_loop_files {S A} (prompt : string)
    (body : S -> string -> list string * step S A) (s : S) (w : world) :
  files (snd (ask_loop prompt body s w)) = files w.
Proof.
  unfold ask_loop. destruct (ask prompt body s (stdin w)) as [[evs rest] r]. reflexivity.
Qed.

Lemma input_files (prompt : string) (w : world) :
  files (snd (input prompt w)) = files w.
Proof. unfold input. destruct (stdin w); reflexivity. Qed.

(** Writing the store over the store that [load_books] left is writing it
    over the store that was. *)
Lemma load_then_store (w : world) (text : string) :
  <[STORE := text]> (files (snd (load_books w))) = <[STORE := text]> (files w).
Proof.
  destruct (files w !! STORE) as [t|] eqn:H.
  - rewrite (load_books_present _ _ H). reflexivity.
  - rewrite (load_books_absent _ H). cbn [snd files]. apply insert_insert_eq.
Qed.

(** X9. When Add ends well it has changed one file, the store, which now
    holds the records that were there, in their order, and after them one
    new record; the title and the author of that record are not empty,
    and the console ends with the message that names the title. *)
Theorem add_book_appends_record (current_year : Z) (w : world) :
  fst (add_book current_year w) = Ok tt ->
  exists (books : list book) (title author year genre rating : string),
    fst (load_books w) = Ok books
    /\ title <> EmptyString /\ author <> EmptyString
    /\ files (snd (add_book current_year w))
       = <[STORE := store_text (map row_values books
                                ++ [[title; author; year; genre; rating]])]> (files w)
    /\ last (console (snd (add_book current_year w)))
       = Some (Print ("Book '" +:+ title +:+ "' added successfully!")).
Proof.
  destruct (add_book current_year w) as [r w'] eqn:Hadd. cbn [fst snd].
  intros ->. pose proof Hadd as H. unfold add_book in H.
  apply bind_inv in H as (books & w1 & Hload & H).
  apply bind_inv in H as (title & w2 & Htitle & H).
  apply bind_inv in H as (author & w3 & Hauthor & H).
  apply bind_inv in H as (year & w4 & Hyear & H).
  apply bind_inv in H as (line & w5 & Hgenre & H).
  apply bind_inv in H as (rating & w6 & Hrating & H).
  apply bind_inv in H as ([] & w7 & Hsave & H).
  assert (Hfiles : files w6 = files w1).
  { pose proof (ask_loop_files "Enter the book's title: "
                  (required_body "Title is required.") tt w1) as F2.
    rewrite Htitle in F2.
    pose proof (ask_loop_files "Enter the author's name: "
                  (required_body "Author is required.") tt w2) as F3.
    rewrite Hauthor in F3.
    pose proof (ask_loop_files "Enter the publication year (optional): "
                  (year_body current_year) (VStr EmptyString) w3) as F4.
    rewrite Hyear in F4.
    pose proof (input_files "Enter the genre (optional): " w4) as F5.
    rewrite Hgenre in F5.
    pose proof (ask_loop_files "Enter the rating (0-5, optional): " rating_body tt w5)
      as F6.
    rewrite Hrating in F6. cbn [snd] in *. congruence. }
  apply ask_loop_inv in Htitle as (? & ? & Htitle & _).
  apply ask_loop_inv in Hauthor as (? & ? & Hauthor & _).
  apply ask_loop_inv in Hyear as (? & ? & Hyear & _).
  apply ask_loop_inv in Hrating as (? & ? & Hrating & _).
  apply ask_required_value in Htitle. apply ask_required_value in Hauthor.
  apply ask_year_value in Hyear; [|constructor].
  apply ask_rating_value in Hrating.
  assert (Hy : exists t, cell_text year = Some t) by (destruct Hyear; simpl; eauto).
  assert (Hr : exists t, cell_text rating = Some t) by (destruct Hrating; simpl; eauto).
  destruct Hy as [yt Hy], Hr as [rt Hr].
  exists books, title, author, yt, (Py.strip line), rt.
  rewrite Hload. repeat (split; [assumption || reflexivity|]).
  assert (Hrows : entries_text
                    (map as_entry books
                     ++ [Row (VStr title) (VStr author) year (VStr (Py.strip line)) rating])
                  = Some (map row_values books
                          ++ [[title; author; yt; Py.strip line; rt]])).
  { apply entries_text_app; [apply entries_text_books|].
    cbn [entries_text row_values Title Author Year Genre Rating cells_text cell_text].
    rewrite Hy, Hr. reflexivity. }
  rewrite (save_books_run _ _ _ Hrows) in Hsave. injection Hsave as <-.
  unfold print, emit in H. injection H as <-. cbn [files console].
  split; [|apply last_snoc].
  rewrite Hfiles. pose proof (load_then_store w) as L. rewrite Hload in L. apply L.
Qed.

(** X10. The Rating of the record that Add saves is empty or the text of
    a float from 0 to 5, written the way [str] writes a float (4 is saved
    as 4.0). *)
Theorem add_book_rating_in_range (current_year : Z) (w : world) :
  fst (add_book current_year w) = Ok tt ->
  exists (rows : list (list string)) (title author year genre rating : string),
    files (snd (add_book current_year w)) !! STORE
    = Some (store_text (rows ++ [[title; author; year; genre; rating]]))
    /\ (rating = EmptyString
        \/ exists x, rating = Py.float_repr x
                     /\ Py.fle Py.fzero x = true /\ Py.fle x (Py.float_of_int 5) = true).
Proof.
  destruct (add_book current_year w) as [r w'] eqn:Hadd. cbn [fst snd]. intros ->.
  apply add_book_saves in Hadd
    as (books & title & author & genre & yt & rt & year & rating
        & _ & _ & _ & _ & _ & Hrating & Hrt & Hstore).
  exists (map row_values books), title, author, yt, genre, rt.
  split; [exact Hstore|].
  destruct Hrating as [|x H0 H5]; simpl in Hrt; injection Hrt as <-; [left; reflexivity|].
  right. exists x. auto.
Qed.


End AddRecord.

Section Listing.

Lemma enumerate_nth {A} (l : list A) :
  forall (start i : nat) (x : A),
    nth_error l i = Some x -> nth_error (enumerate start l) i = Some ((start + i)%nat, x).
Proof.
  induction l as [|y l IH]; intros start i x H; [destruct i; discriminate|].
  destruct i as [|i]; simpl in *.
  - injection H as ->. rewrite Nat.add_0_r. reflexivity.
  - rewrite (IH (S start) i x H). f_equal. f_equal. lia.
Qed.

Lemma enumerate_length {A} (l : list A) (start : nat) :
  length (enumerate start l) = length l.
Proof. revert start. induction l as [|y l IH]; intros start; simpl; auto. Qed.

(** X12. List prints the heading, then one line for every record of the
    store, in the order of the store and numbered from 1 (the line at
    position i has the number i + 1 and the five fields of the record at
    position i), then the number of records. *)
Theorem list_books_shows_all (w w' : world) (books : list book) :
  load_books w = (Ok books, w') -> books <> [] ->
  list_books w
  = (Ok tt,
     say (Print (NL +:+ "--- Your Library ---")
          :: map Print (map book_line (enumerate 1 books))
          ++ [Print ("Total books: " +:+ str_of_nat (length books) +:+ NL)]) w')
  /\ length (map book_line (enumerate 1 books)) = length books
  /\ (forall i b, nth_error books i = Some b ->
        nth_error (map book_line (enumerate 1 books)) i = Some (book_line (S i, b))).
Proof.
  intros Hload Hne. split; [|split].
  - unfold list_books. erewrite bind_ok by exact Hload.
    destruct books as [|b bs]; [congruence|].
    erewrite bind_ok by apply print_run.
    erewrite bind_ok by apply print_all_run.
    rewrite print_run, !say_say. reflexivity.
  - rewrite length_map. apply enumerate_length.
  - intros i b H. rewrite nth_error_map, (enumerate_nth books 1 i b H). reflexivity.
Qed.

End Listing.

Section Deleting.

(** Delete up to its selection loop, when some title matches. *)
Lemma delete_book_asks (w : world) (text term : string) (rest : list string)
    (books matches : list book) :
  files w !! STORE = Some text -> DictReader text = Ok books ->
  stdin w = term :: rest ->
  matches = List.filter (title_match (Py.lower (Py.strip term))) books ->
  matches <> [] ->
  delete_book w
  = (sel <- ask_loop "Enter numbers to delete (comma-separated), 'all', or 'cancel': "
              (choice_body matches) tt ;;
     match sel with
     | Cancel => print "Deletion cancelled."
     | All =>
         save_books (map as_entry (remove_books matches books)) ;;
         print ("Deleted " +:+ str_of_nat (length matches) +:+ " books.")
     | Indices valid =>
         save_books (map as_entry (remove_books (select matches valid) books)) ;;
         print ("Deleted " +:+ str_of_nat (length valid) +:+ " books.")
     end)
      (World (files w) rest
         (console w ++ Prompt "Enter the title to delete: " :: Print "Matching books:"
                       :: map Print (map short_line (enumerate 1 matches)))).
Proof.
  intros Hstore Hread Hin Ematches Hm. unfold delete_book.
  erewrite bind_ok by (rewrite (load_books_present _ _ Hstore), Hread; reflexivity).
  erewrite bind_ok by (apply input_run; exact Hin).
  rewrite <- Ematches.
  assert (Hgo : forall k1 k2 : M unit,
            match matches with [] => k1 | _ :: _ => k2 end = k2).
  { intros k1 k2. destruct matches; [congruence|reflexivity]. }
  rewrite Hgo. clear Hgo.
  erewrite bind_ok by apply print_run.
  erewrite bind_ok by apply print_all_run.
  unfold say, typed. cbn [files stdin console]. rewrite <- !List.app_assoc. reflexivity.
Qed.

(** X13. When no title holds the term, Delete says so and returns: no
    file is written and the next line of input stays unread. *)
Theorem delete_book_no_match (w : world) (text term : string) (rest : list string)
    (books : list book) :
  files w !! STORE = Some text -> DictReader text = Ok books ->
  stdin w = term :: rest ->
  List.filter (title_match (Py.lower (Py.strip term))) books = [] ->
  delete_book w
  = (Ok tt, World (files w) rest
              (console w ++ [Prompt "Enter the title to delete: ";
                             Print "No books found with that title."])).
Proof.
  intros Hstore Hread Hin Hm. unfold delete_book.
  erewrite bind_ok by (rewrite (load_books_present _ _ Hstore), Hread; reflexivity).
  erewrite bind_ok by (apply input_run; exact Hin).
  rewrite Hm. unfold print, emit, typed. cbn [files stdin console].
  rewrite <- List.app_assoc. reflexivity.
Qed.

Lemma choice_body_cancel (matches : list book) (line : string) :
  Py.lower (Py.strip line) = "cancel" -> choice_body matches tt line = ([], Break Cancel).
Proof. intros H. unfold choice_body. rewrite H. reflexivity. Qed.

Lemma choice_body_all (matches : list book) (line : string) :
  Py.lower (Py.strip line) = "all" -> choice_body matches tt line = ([], Break All).
Proof. intros H. unfold choice_body. rewrite H. reflexivity. Qed.

(** X14. The answer cancel, in any letter case and with blanks around it,
    ends Delete with a message and without writing: every file is as it
    was. *)
Theorem delete_book_cancel (w : world) (text term line : string) (rest : list string)
    (books : list book) :
  files w !! STORE = Some text -> DictReader text = Ok books ->
  stdin w = term :: line :: rest ->
  List.filter (title_match (Py.lower (Py.strip term))) books <> [] ->
  Py.lower (Py.strip line) = "cancel" ->
  let matches := List.filter (title_match (Py.lower (Py.strip term))) books in
  delete_book w
  = (Ok tt,
     World (files w) rest
       (console w
        ++ (Prompt "Enter the title to delete: " :: Print "Matching books:"
            :: map Print (map short_line (enumerate 1 matches)))
        ++ [Prompt "Enter numbers to delete (comma-separated), 'all', or 'cancel': ";
            Print "Deletion cancelled."])).
Proof.
  intros Hstore Hread Hin Hm Hline matches.
  rewrite (delete_book_asks _ _ _ _ _ _ Hstore Hread Hin eq_refl Hm).
  unfold bind, ask_loop. cbn [stdin ask]. rewrite (choice_body_cancel _ _ Hline).
  unfold print, emit. cbn [map app files stdin console].
  rewrite <- !List.app_assoc. reflexivity.
Qed.

Lemma removed_all (term : string) (books : list book) :
  remove_books (List.filter (title_match term) books) books
  = List.filter (fun b => negb (title_match term b)) books.
Proof.
  unfold remove_books. apply filter_ext_in. intros b Hb. f_equal.
  apply eq_true_iff_eq. rewrite book_in_spec, filter_In. tauto.
Qed.

(** X15. The answer all removes from the store exactly the records whose
    title holds the term and keeps the others in their order; the number
    that is printed is the number of records removed. *)
Theorem delete_book_all (w : world) (text term line : string) (rest : list string)
    (books : list book) :
  files w !! STORE = Some text -> DictReader text = Ok books ->
  stdin w = term :: line :: rest ->
  List.filter (title_match (Py.lower (Py.strip term))) books <> [] ->
  Py.lower (Py.strip line) = "all" ->
  let matches := List.filter (title_match (Py.lower (Py.strip term))) books in
  let kept := List.filter (fun b => negb (title_match (Py.lower (Py.strip term)) b)) books in
  delete_book w
  = (Ok tt,
     World (<[STORE := store_text (map row_values kept)]> (files w)) rest
       (console w
        ++ (Prompt "Enter the title to delete: " :: Print "Matching books:"
            :: map Print (map short_line (enumerate 1 matches)))
        ++ [Prompt "Enter numbers to delete (comma-separated), 'all', or 'cancel': ";
            Print ("Deleted " +:+ str_of_nat (length matches) +:+ " books.")]))
  /\ (length kept + length matches = length books)%nat.
Proof.
  intros Hstore Hread Hin Hm Hline matches kept. split.
  - rewrite (delete_book_asks _ _ _ _ _ _ Hstore Hread Hin eq_refl Hm).
    unfold bind at 1, ask_loop. cbn [stdin ask]. rewrite (choice_body_all _ _ Hline).
    cbn [map app files console].
    erewrite bind_ok by (apply save_books_run, entries_text_books).
    rewrite removed_all. unfold print, emit. cbn [files stdin console].
    rewrite <- !List.app_assoc. reflexivity.
  - subst matches kept. rewrite Nat.add_comm. apply filter_length.
Qed.

Lemma filter_sublist {A} (f : A -> bool) (l : list A) : sublist (List.filter f l) l.
Proof.
  induction l as [|x l IH]; [constructor|]. simpl.
  destruct (f x); [apply sublist_skip | apply sublist_cons]; exact IH.
Qed.

(** X16. A line of numbers removes the records that are equal to a match
    whose number was typed: numbers count the matches from 1, numbers
    outside the list of matches are dropped, and every other record stays,
    in its order. *)
Theorem delete_book_selected (w : world) (text term line : string) (rest : list string)
    (books : list book) (indices : list Z) :
  files w !! STORE = Some text -> DictReader text = Ok books ->
  stdin w = term :: line :: rest ->
  List.filter (title_match (Py.lower (Py.strip term))) books <> [] ->
  parse_indices (Py.split "," (Py.lower (Py.strip line))) = Some indices ->
  valid_indices (List.filter (title_match (Py.lower (Py.strip term))) books) indices <> [] ->
  let matches := List.filter (title_match (Py.lower (Py.strip term))) books in
  let chosen := fun b => exists i, In i indices /\ 0 <= i < Z.of_nat (length matches)
                                   /\ nth_error matches (Z.to_nat i) = Some b in
  exists kept,
    fst (delete_book w) = Ok tt
    /\ files (snd (delete_book w)) = <[STORE := store_text (map row_values kept)]> (files w)
    /\ (forall b, In b kept <-> In b books /\ ~ chosen b)
    /\ sublist kept books.
Proof.
  intros Hstore Hread Hin Hm Hparse Hvalid matches chosen.
  exists (remove_books (select matches (valid_indices matches indices)) books).
  rewrite (delete_book_indices _ _ _ _ _ _ _ _ _ Hstore Hread Hin eq_refl Hm Hparse
             eq_refl Hvalid).
  cbn [fst snd files]. repeat split.
  - apply remove_books_spec in H. tauto.
  - apply remove_books_spec in H as [_ H]. intros (i & Hi & Hr & Hn). apply H.
    apply select_spec. exists i. split; [|exact Hn]. apply valid_indices_spec. tauto.
  - intros [Hb Hc]. apply remove_books_spec. split; [exact Hb|].
    intros Hs. apply Hc. apply select_spec in Hs as (i & Hi & Hn).
    apply valid_indices_spec in Hi as [Hi Hr]. exists i. tauto.
  - apply filter_sublist.
Qed.

Lemma ask_continue {S A} (prompt : string)
    (body : S -> string -> list string * step S A) (s s' : S) (line : string)
    (msgs rest : list string) :
  body s line = (msgs, Continue s') ->
  ask prompt body s (line :: rest)
  = let '(evs, rest', r) := ask prompt body s' rest in
    (Prompt prompt :: map Print msgs ++ evs, rest', r).
Proof. intros H. cbn [ask]. rewrite H. reflexivity. Qed.

Lemma choice_body_bad (matches : list book) (line : string) :
  Py.lower (Py.strip line) <> "cancel" -> Py.lower (Py.strip line) <> "all" ->
  parse_indices (Py.split "," (Py.lower (Py.strip line))) = None
  \/ (exists indices,
        parse_indices (Py.split "," (Py.lower (Py.strip line))) = Some indices
        /\ valid_indices matches indices = []) ->
  exists msg, choice_body matches tt line = ([msg], Continue tt)
              /\ (msg = "Invalid input. Please enter numbers separated by commas."
                  \/ msg = "No valid indices entered.").
Proof.
  intros Hc Ha Hbad. unfold choice_body.
  destruct (String.eqb_spec (Py.lower (Py.strip line)) "cancel") as [E|_]; [congruence|].
  destruct (String.eqb_spec (Py.lower (Py.strip line)) "all") as [E|_]; [congruence|].
  destruct Hbad as [-> | (indices & -> & ->)]; eauto.
Qed.

(** X17. A selection that cannot be used (a token that is no integer, or
    no number within the list of matches) is answered with a message and
    asked again, without writing: Delete then ends as it would have ended
    had that line not been typed, with the same result, the same files and
    the same input left. *)
Theorem delete_book_skips_bad_selection (w : world) (text term line : string)
    (rest : list string) (books : list book) :
  files w !! STORE = Some text -> DictReader text = Ok books ->
  stdin w = term :: line :: rest ->
  List.filter (title_match (Py.lower (Py.strip term))) books <> [] ->
  Py.lower (Py.strip line) <> "cancel" -> Py.lower (Py.strip line) <> "all" ->
  parse_indices (Py.split "," (Py.lower (Py.strip line))) = None
  \/ (exists indices,
        parse_indices (Py.split "," (Py.lower (Py.strip line))) = Some indices
        /\ valid_indices (List.filter (title_match (Py.lower (Py.strip term))) books)
             indices = []) ->
  let without := World (files w) (term :: rest) (console w) in
  fst (delete_book w) = fst (delete_book without)
  /\ files (snd (delete_book w)) = files (snd (delete_book without))
  /\ stdin (snd (delete_book w)) = stdin (snd (delete_book without))
  /\ (In (Print "Invalid input. Please enter numbers separated by commas.")
         (console (snd (delete_book w)))
      \/ In (Print "No valid indices entered.") (console (snd (delete_book w)))).
Proof.
  intros Hstore Hread Hin Hm Hc Ha Hbad without.
  rewrite (delete_book_asks _ _ _ _ _ _ Hstore Hread Hin eq_refl Hm).
  rewrite (delete_book_asks without text term rest books _ Hstore Hread eq_refl eq_refl Hm).
  destruct (choice_body_bad _ _ Hc Ha Hbad) as (msg & Hbody & Hmsg).
  unfold bind, ask_loop. cbn [stdin files console].
  rewrite (ask_continue _ _ _ _ _ _ _ Hbody).
  destruct (ask _ _ tt rest) as [[evs rest'] [sel|e]];
    [destruct sel as [| |valid]; unfold save_books, write_file, print, emit, raise;
     try destruct (entries_text _)|];
    cbn [fst snd files stdin console map app]; repeat (split; [reflexivity|]);
    rewrite !in_app_iff; cbn [In]; destruct Hmsg as [-> | ->]; auto 10.
Qed.

End Deleting.

Section GenreReport.

Lemma tally_bump (g g0 : string) (counts : list (string * nat)) :
  tally g (bump g0 counts)
  = (tally g counts + if String.eqb g0 g then 1 else 0)%nat.
Proof.
  induction counts as [|[g' n] counts IH]; cbn [bump tally].
  - destruct (String.eqb g0 g); reflexivity.
  - destruct (String.eqb_spec g' g0) as [->|Hne]; cbn [tally].
    + destruct (String.eqb g0 g); lia.
    + rewrite IH. destruct (String.eqb g' g); lia.
Qed.

Lemma bump_keys (g0 : string) (counts : list (string * nat)) :
  map fst (bump g0 counts)
  = if existsb (String.eqb g0) (map fst counts) then map fst counts
    else map fst counts ++ [g0].
Proof.
  induction counts as [|[g' n] counts IH]; [reflexivity|].
  cbn [bump map fst existsb]. rewrite (String.eqb_sym g0 g').
  destruct (String.eqb g' g0); [reflexivity|].
  cbn [map fst orb]. rewrite IH. destruct (existsb _ _); reflexivity.
Qed.

Lemma bump_NoDup (g0 : string) (counts : list (string * nat)) :
  NoDup (map fst counts) -> NoDup (map fst (bump g0 counts)).
Proof.
  intros H. rewrite bump_keys. destruct (existsb _ _) eqn:E; [exact H|].
  apply NoDup_app. split; [exact H|]. split; [|apply NoDup_singleton].
  intros x Hx Hx0. apply list_elem_of_singleton in Hx0. subst x.
  assert (existsb (String.eqb g0) (map fst counts) = true); [|congruence].
  apply existsb_exists. exists g0. split; [|apply String.eqb_refl].
  apply list_elem_of_In. exact Hx.
Qed.

Lemma bump_positive (g0 : string) (counts : list (string * nat)) :
  Forall (fun gn => snd gn <> O) counts -> Forall (fun gn => snd gn <> O) (bump g0 counts).
Proof.
  induction 1 as [|[g n] counts Hn Hc IH]; cbn [bump].
  - repeat constructor. discriminate.
  - destruct (String.eqb g g0); constructor; simpl in *; auto.
Qed.

Lemma bump_sum (g0 : string) (counts : list (string * nat)) :
  list_sum (map snd (bump g0 counts)) = S (list_sum (map snd counts)).
Proof.
  unfold list_sum. induction counts as [|[g n] counts IH]; [reflexivity|].
  cbn [bump]. destruct (String.eqb g g0); cbn [map snd fold_right]; [|rewrite IH]; lia.
Qed.

Lemma tally_In (g : string) (n : nat) (counts : list (string * nat)) :
  NoDup (map fst counts) -> In (g, n) counts -> tally g counts = n.
Proof.
  induction counts as [|[g' m] counts IH]; intros Hnd Hin; [destruct Hin|].
  cbn [map fst] in Hnd. apply NoDup_cons in Hnd as [Hg' Hnd]. cbn [tally].
  rewrite list_elem_of_In in Hg'.
  destruct Hin as [H|H].
  - injection H as -> ->. rewrite String.eqb_refl.
    assert (tally g counts = O); [|lia].
    clear IH Hnd. induction counts as [|[g2 k] counts IH]; [reflexivity|].
    cbn [tally]. destruct (String.eqb_spec g2 g) as [->|_].
    + exfalso. apply Hg'. cbn [map fst]. left. reflexivity.
    + apply IH. intros Hc. apply Hg'. cbn [map fst]. right. exact Hc.
  - destruct (String.eqb_spec g' g) as [->|_]; [|auto].
    exfalso. apply Hg'. apply in_map_iff. exists (g, n). auto.
Qed.

Lemma tally_found (g : string) (counts : list (string * nat)) :
  tally g counts <> O -> exists n, In (g, n) counts.
Proof.
  induction counts as [|[g' m] counts IH]; cbn [tally]; [congruence|].
  destruct (String.eqb_spec g' g) as [->|_].
  - intros _. exists m. left. reflexivity.
  - intros H. destruct (IH H) as [n Hn]. exists n. right. exact Hn.
Qed.

Lemma genre_counts_snoc (books : list book) (b : book) :
  genre_counts (books ++ [b]) = bump (genre_of b) (genre_counts books).
Proof. unfold genre_counts. rewrite fold_left_app. reflexivity. Qed.

Lemma genre_counts_inv (books : list book) :
  NoDup (map fst (genre_counts books))
  /\ Forall (fun gn => snd gn <> O) (genre_counts books)
  /\ list_sum (map snd (genre_counts books)) = length books
  /\ forall g, tally g (genre_counts books)
               = length (List.filter (fun b => String.eqb (genre_of b) g) books).
Proof.
  induction books as [|b books (Hnd & Hpos & Hsum & Htally)] using rev_ind.
  - repeat split; constructor.
  - rewrite genre_counts_snoc. repeat split.
    + apply bump_NoDup, Hnd.
    + apply bump_positive, Hpos.
    + rewrite bump_sum, Hsum, List.length_app. simpl. lia.
    + intros g. rewrite tally_bump, Htally, List.filter_app, List.length_app. cbn [List.filter].
      destruct (String.eqb (genre_of b) g); reflexivity.
Qed.

(** X18. The genre report counts every record once, under its genre or,
    when that is empty, under Uncategorized: each genre has one line, the
    number on it is the number of records of that genre, no line has the
    number 0, and the numbers add up to the number of records. *)
Theorem genre_counts_count (books : list book) :
  NoDup (map fst (genre_counts books))
  /\ (forall g n, In (g, n) (genre_counts books)
        <-> n = length (List.filter (fun b => String.eqb (genre_of b) g) books)
            /\ n <> O)
  /\ list_sum (map snd (genre_counts books)) = length books.
Proof.
  destruct (genre_counts_inv books) as (Hnd & Hpos & Hsum & Htally).
  split; [exact Hnd|]. split; [|exact Hsum].
  intros g n. split.
  - intros Hin. split.
    + rewrite <- Htally. symmetry. apply tally_In; assumption.
    + rewrite Forall_forall in Hpos. apply (Hpos (g, n)), list_elem_of_In, Hin.
  - intros [Hn Hne]. rewrite <- Htally in Hn.
    destruct (tally_found g (genre_counts books)) as [m Hm]; [congruence|].
    rewrite (tally_In g m _ Hnd Hm) in Hn. subst m. exact Hm.
Qed.

End GenreReport.

Section YearReport.

Lemma years_of_none (books : list book) :
  (forall b, In b books -> year_of b = None) -> years_of books = [].
Proof.
  intros H. destruct (years_of books) as [|y ys] eqn:E; [reflexivity|].
  assert (Hy : In y (years_of books)) by (rewrite E; left; reflexivity).
  apply years_of_In in Hy as (b & Hb & Hyb). rewrite (H b Hb) in Hyb. discriminate.
Qed.

(** X19. When no record has a Year that is not empty and reads as an
    integer, the report ends, after the genres and the average, with the
    line that no publication years are available, and lists no record. *)
Theorem report_without_years (w w' : world) (books : list book) :
  load_books w = (Ok books, w') -> books <> [] ->
  (forall b, In b books -> year_of b = None) ->
  generate_reports w
  = (Ok tt,
     say (genre_events books
          ++ [Print (average_line (rated books));
              Print (NL +:+ "No publication years available for oldest/newest report.")])
         w').
Proof.
  intros Hload Hne Hnone.
  rewrite (generate_reports_run _ _ _ Hload Hne). unfold year_events.
  rewrite (years_of_none _ Hnone). unfold average_line.
  rewrite average_text_mean, rating_totals_rated. reflexivity.
Qed.

(** X20. When every Year of the store is written the way [str] writes an
    integer, which is how Add writes an accepted year, the report lists
    under the oldest books all the records of the least year and no other,
    under the newest books all the records of the greatest year and no
    other, each group in the order of the store, and every year read lies
    between the two. *)
Theorem report_years_canonical (w w' : world) (books : list book) (y : Z) (ys : list Z) :
  load_books w = (Ok books, w') ->
  years_of books = y :: ys ->
  (forall b, In b books -> canonical_year b) ->
  let oldest := min_list y ys in
  let newest := max_list y ys in
  let olds := books_of_year oldest books in
  let news := books_of_year newest books in
  generate_reports w
  = (Ok tt,
     say (genre_events books
          ++ Print (average_line (rated books))
          :: Print (NL +:+ "--- Oldest Book(s) ---") :: map Print (map year_line olds)
          ++ Print (NL +:+ "--- Newest Book(s) ---") :: map Print (map year_line news)) w')
  /\ (forall b, In b olds <-> In b books /\ year_of b = Some oldest)
  /\ (forall b, In b news <-> In b books /\ year_of b = Some newest)
  /\ sublist olds books /\ sublist news books
  /\ (forall b z, In b books -> year_of b = Some z -> oldest <= z <= newest).
Proof.
  intros Hload Hy Hcan oldest newest olds news.
  assert (Hne : books <> []) by (intros ->; discriminate).
  destruct (report_groups_canonical books y ys Hy Hcan) as (Hbetween & Hold & Hnew).
  split; [|split; [exact Hold|split; [exact Hnew|split; [|split]]]].
  - rewrite (generate_reports_run _ _ _ Hload Hne). unfold year_events. rewrite Hy.
    unfold average_line. rewrite average_text_mean, rating_totals_rated. reflexivity.
  - unfold olds, books_of_year. clear. induction books as [|b bs IH]; [constructor|].
    simpl. destruct (String.eqb _ _); [apply sublist_skip | apply sublist_cons]; exact IH.
  - unfold news, books_of_year. clear. induction books as [|b bs IH]; [constructor|].
    simpl. destruct (String.eqb _ _); [apply sublist_skip | apply sublist_cons]; exact IH.
  - exact Hbetween.
Qed.

End YearReport.

Section Formats.

Lemma load_books_world (w w' : world) (books : list book) :
  load_books w = (Ok books, w') -> w' = World (files w') (stdin w) (console w).
Proof.
  intros H. pose proof (load_books_io w) as [Hs Hc]. rewrite H in Hs, Hc.
  destruct w' as [f s c]. simpl in *. congruence.
Qed.

(** X21. A format other than json and txt (after dropping blanks and
    lowering the case) is refused at once by Import and, on a collection
    that is not empty, by Export: the message is printed, no file name is
    asked for and nothing is written. *)
Theorem unknown_format_refused (w : world) (fmt : string) (rest : list string) :
  stdin w = fmt :: rest ->
  known_format (Py.lower (Py.strip fmt)) = false ->
  import_library w
  = (Ok tt, World (files w) rest
              (console w ++ [Prompt "Enter import format (json/txt): ";
                             Print "Invalid format. Use 'json' or 'txt'."]))
  /\ (forall books w', load_books w = (Ok books, w') -> books <> [] ->
      export_library w
      = (Ok tt, World (files w') rest
                  (console w ++ [Prompt "Enter export format (json/txt): ";
                                 Print "Invalid format. Use 'json' or 'txt'."]))).
Proof.
  intros Hin Hfmt. split.
  - unfold import_library. erewrite bind_ok by (apply input_run; exact Hin).
    rewrite Hfmt. unfold print, emit, typed. cbn [negb files stdin console].
    rewrite <- List.app_assoc. reflexivity.
  - intros books w' Hload Hne. unfold export_library.
    erewrite bind_ok by exact Hload. destruct books as [|b bs]; [congruence|].
    rewrite (load_books_world _ _ _ Hload).
    erewrite bind_ok by (apply input_run; exact Hin).
    rewrite Hfmt. unfold print, emit, typed. cbn [negb files stdin console].
    rewrite <- List.app_assoc. reflexivity.
Qed.

(** X22. A file name that is empty once its blanks are dropped is refused
    by Import and by Export: the message is printed and nothing is read
    or written under any name. *)
Theorem empty_filename_refused (w : world) (fmt name : string) (rest : list string) :
  stdin w = fmt :: name :: rest ->
  known_format (Py.lower (Py.strip fmt)) = true ->
  Py.strip name = EmptyString ->
  import_library w
  = (Ok tt, World (files w) rest
              (console w ++ [Prompt "Enter import format (json/txt): ";
                             Prompt "Enter filename: ";
                             Print "Filename cannot be empty."]))
  /\ (forall books w', load_books w = (Ok books, w') -> books <> [] ->
      export_library w
      = (Ok tt, World (files w') rest
                  (console w ++ [Prompt "Enter export format (json/txt): ";
                                 Prompt "Enter filename: ";
                                 Print "Filename cannot be empty."]))).
Proof.
  intros Hin Hfmt Hname. split.
  - unfold import_library. erewrite bind_ok by (apply input_run; exact Hin).
    rewrite Hfmt. cbn [negb].
    erewrite bind_ok by (apply input_run; reflexivity).
    rewrite Hname. unfold print, emit, typed. cbn [Py.truthy negb files stdin console].
    rewrite <- !List.app_assoc. reflexivity.
  - intros books w' Hload Hne. unfold export_library.
    erewrite bind_ok by exact Hload. destruct books as [|b bs]; [congruence|].
    rewrite (load_books_world _ _ _ Hload).
    erewrite bind_ok by (apply input_run; exact Hin).
    rewrite Hfmt. cbn [negb].
    erewrite bind_ok by (apply input_run; reflexivity).
    rewrite Hname. unfold print, emit, typed. cbn [Py.truthy negb files stdin console].
    rewrite <- !List.app_assoc. reflexivity.
Qed.

End Formats.

Section Importing.

(** Import up to its [try], once a format and a file name were given. *)
Lemma import_library_tries (w : world) (fmt name : string) (rest : list string) :
  stdin w = fmt :: name :: rest ->
  known_format (Py.lower (Py.strip fmt)) = true ->
  Py.strip name <> EmptyString ->
  import_library w
  = try_except
      (existing <- load_books ;;
       text <- read_file (Py.strip name) ;;
       match text with
       | None => raise FileNotFoundError
       | Some t =>
           new_books <- (if String.eqb (Py.lower (Py.strip fmt)) "json"
                         then of_result (import_json t) else ret (import_txt t)) ;;
           save_books (map as_entry existing ++ new_books) ;;
           print ("Imported " +:+ str_of_nat (length new_books) +:+ " books successfully.")
       end)
      (fun e => emit (PrintExn "Error importing: " e))
      (World (files w) rest
         (console w ++ [Prompt "Enter import format (json/txt): ";
                        Prompt "Enter filename: "])).
Proof.
  intros Hin Hfmt Hname. unfold import_library.
  erewrite bind_ok by (apply input_run; exact Hin).
  rewrite Hfmt. cbn [negb].
  erewrite bind_ok by (apply input_run; reflexivity).
  destruct (Py.strip name) as [|c n] eqn:E; [congruence|].
  cbn [Py.truthy negb]. unfold typed. cbn [files stdin console].
  rewrite <- !List.app_assoc. reflexivity.
Qed.

(** X23. An import that fails leaves the collection alone. When the file
    named is missing, or holds no json text, or json text that is no list
    of records, Import prints the error and ends well: the files are as
    reading the store left them. *)
Theorem import_failure_keeps_store (w w1 : world) (fmt name : string)
    (rest : list string) (existing : list book) :
  stdin w = fmt :: name :: rest ->
  known_format (Py.lower (Py.strip fmt)) = true ->
  Py.strip name <> EmptyString ->
  load_books w = (Ok existing, w1) ->
  (files w1 !! Py.strip name = None
   \/ exists text e, files w1 !! Py.strip name = Some text
                     /\ Py.lower (Py.strip fmt) = "json"
                     /\ import_json text = Raise e /\ e <> Unmodelled) ->
  exists e,
    import_library w
    = (Ok tt, World (files w1) rest
                (console w ++ [Prompt "Enter import format (json/txt): ";
                               Prompt "Enter filename: ";
                               PrintExn "Error importing: " e])).
Proof.
  intros Hin Hfmt Hname Hload Hfail.
  rewrite (import_library_tries _ _ _ _ Hin Hfmt Hname).
  set (w0 := World (files w) rest _).
  assert (Hload0 : load_books w0 = (Ok existing, World (files w1) (stdin w0) (console w0))).
  { destruct (files w !! STORE) as [t|] eqn:Hs.
    - rewrite (load_books_present w _ Hs) in Hload.
      rewrite (load_books_present w0 t) by exact Hs.
      injection Hload as -> <-. reflexivity.
    - rewrite (load_books_absent w Hs) in Hload.
      rewrite (load_books_absent w0) by exact Hs.
      injection Hload as <- <-. reflexivity. }
  unfold try_except. erewrite bind_ok by exact Hload0.
  unfold bind at 1, read_file at 1. cbn [files].
  destruct Hfail as [Hnone | (text & e & Hsome & Hjson & Himp & He)].
  - rewrite Hnone. exists FileNotFoundError. unfold raise, emit.
    cbn [files stdin console]. unfold w0. cbn [stdin console].
    rewrite <- !List.app_assoc. reflexivity.
  - rewrite Hsome, Hjson. cbn [String.eqb Ascii.eqb Bool.eqb]. rewrite Himp.
    exists e. unfold bind, of_result, raise, emit.
    destruct e; try congruence; cbn [files stdin console]; unfold w0; cbn [stdin console];
      rewrite <- !List.app_assoc; reflexivity.
Qed.

(** What a successful import does. *)
Lemma import_library_adds (w w1 : world) (fmt name text : string) (rest : list string)
    (existing : list book) (new_books : list entry) (rows : list (list string)) :
  stdin w = fmt :: name :: rest ->
  known_format (Py.lower (Py.strip fmt)) = true ->
  Py.strip name <> EmptyString ->
  load_books w = (Ok existing, w1) ->
  files w1 !! Py.strip name = Some text ->
  (if String.eqb (Py.lower (Py.strip fmt)) "json" then import_json text
   else Ok (import_txt text)) = Ok new_books ->
  entries_text new_books = Some rows ->
  import_library w
  = (Ok tt,
     World (<[STORE := store_text (map row_values existing ++ rows)]> (files w)) rest
       (console w ++ [Prompt "Enter import format (json/txt): ";
                      Prompt "Enter filename: ";
                      Print ("Imported " +:+ str_of_nat (length new_books)
                             +:+ " books successfully.")])).
Proof.
  intros Hin Hfmt Hname Hload Hfile Hnew Hrows.
  rewrite (import_library_tries _ _ _ _ Hin Hfmt Hname).
  set (w0 := World (files w) rest _).
  assert (Hload0 : load_books w0 = (Ok existing, World (files w1) (stdin w0) (console w0))).
  { destruct (files w !! STORE) as [t|] eqn:Hs.
    - rewrite (load_books_present w _ Hs) in Hload.
      rewrite (load_books_present w0 t) by exact Hs.
      injection Hload as -> <-. reflexivity.
    - rewrite (load_books_absent w Hs) in Hload.
      rewrite (load_books_absent w0) by exact Hs.
      injection Hload as <- <-. reflexivity. }
  assert (Hstore : <[STORE := store_text (map row_values existing ++ rows)]> (files w1)
                   = <[STORE := store_text (map row_values existing ++ rows)]> (files w)).
  { pose proof (load_then_store w (store_text (map row_values existing ++ rows))) as L.
    rewrite Hload in L. exact L. }
  unfold try_except. erewrite bind_ok by exact Hload0.
  unfold bind at 1, read_file at 1. cbn [files]. rewrite Hfile.
  assert (Hget : (if String.eqb (Py.lower (Py.strip fmt)) "json"
                  then of_result (import_json text) else ret (import_txt text))
                   (World (files w1) (stdin w0) (console w0))
                 = (Ok new_books, World (files w1) (stdin w0) (console w0))).
  { destruct (String.eqb _ "json"); [rewrite Hnew | injection Hnew as <-]; reflexivity. }
  erewrite bind_ok by exact Hget.
  erewrite bind_ok
    by (apply save_books_run, entries_text_app; [apply entries_text_books | exact Hrows]).
  cbn [files stdin console]. rewrite Hstore.
  unfold print, emit, w0. cbn [files stdin console]. rewrite <- !List.app_assoc.
  reflexivity.
Qed.

Lemma entries_text_length (es : list entry) (rows : list (list string)) :
  entries_text es = Some rows -> length rows = length es.
Proof.
  revert rows. induction es as [|e es IH]; intros rows H.
  - injection H as <-. reflexivity.
  - cbn [entries_text] in H. destruct (cells_text (row_values e)); [|discriminate].
    destruct (entries_text es) as [rs|]; [|discriminate].
    injection H as <-. simpl. rewrite (IH rs); reflexivity.
Qed.

(** X24. An import that succeeds adds and never removes: the store then
    holds the records it held, in their order, and after them one record
    for every record taken from the file, in the order of the file; the
    number printed is the number of records added. *)
Theorem import_appends (w w1 : world) (fmt name text : string) (rest : list string)
    (existing : list book) (new_books : list entry) (rows : list (list string)) :
  stdin w = fmt :: name :: rest ->
  known_format (Py.lower (Py.strip fmt)) = true ->
  Py.strip name <> EmptyString ->
  load_books w = (Ok existing, w1) ->
  files w1 !! Py.strip name = Some text ->
  (if String.eqb (Py.lower (Py.strip fmt)) "json" then import_json text
   else Ok (import_txt text)) = Ok new_books ->
  entries_text new_books = Some rows ->
  import_library w
  = (Ok tt,
     World (<[STORE := store_text (map row_values existing ++ rows)]> (files w)) rest
       (console w ++ [Prompt "Enter import format (json/txt): ";
                      Prompt "Enter filename: ";
                      Print ("Imported " +:+ str_of_nat (length rows)
                             +:+ " books successfully.")])).
Proof.
  intros Hin Hfmt Hname Hload Hfile Hnew Hrows.
  rewrite (entries_text_length _ _ Hrows).
  eapply import_library_adds; eassumption.
Qed.

End Importing.

(* ================================================================== *)
(** * The text format *)
(* ================================================================== *)

Section TextFormat.

Lemma file_lines_line (s rest : string) :
  no_breaks s = true ->
  Csv.file_lines (s +:+ NL +:+ rest) = (s +:+ NL) :: Csv.file_lines rest.
Proof.
  induction s as [|c s IH]; intros H; [reflexivity|].
  cbn [no_breaks] in H. apply andb_true_iff in H as [Hc Hs].
  apply negb_true_iff in Hc. unfold Csv.is_newline in Hc.
  apply orb_false_iff in Hc as [Hcr Hlf].
  rewrite !app_cons. cbn [Csv.file_lines]. rewrite Hlf, Hcr, (IH Hs). reflexivity.
Qed.

Lemma rstrip_snoc_space (s : string) (c : ascii) :
  Py.isspace c = true ->
  Py.rstrip Py.isspace (s +:+ String c EmptyString) = Py.rstrip Py.isspace s.
Proof.
  intros Hc. induction s as [|a s IH].
  - rewrite app_nil_l. cbn [Py.rstrip]. rewrite Hc. reflexivity.
  - rewrite app_cons. cbn [Py.rstrip]. rewrite IH. reflexivity.
Qed.

Lemma rstrip_keep (p f : string) :
  f <> EmptyString -> Py.rstrip Py.isspace f = f ->
  Py.rstrip Py.isspace (p +:+ f) = p +:+ f.
Proof.
  intros Hne Hf. induction p as [|a p IH]; [exact Hf|].
  rewrite app_cons. cbn [Py.rstrip]. rewrite IH.
  destruct (p +:+ f) as [|x r] eqn:E; [|reflexivity].
  destruct p; [rewrite app_nil_l in E; congruence | discriminate].
Qed.

(** A line of the text format, stripped: the key and the field, which
    loses nothing. *)
Lemma strip_field_line (a : ascii) (p f : string) :
  Py.isspace a = false -> f <> EmptyString -> Py.rstrip Py.isspace f = f ->
  Py.strip ((String a p +:+ f) +:+ NL) = String a p +:+ f.
Proof.
  intros Ha Hne Hf. unfold Py.strip. rewrite !app_cons. cbn [Py.lstrip]. rewrite Ha.
  rewrite <- !app_cons. unfold NL. rewrite rstrip_snoc_space by reflexivity.
  apply rstrip_keep; assumption.
Qed.

Lemma txt_field_parts (f : string) :
  txt_field f = true -> no_breaks f = true /\ Py.rstrip Py.isspace f = f.
Proof.
  unfold txt_field. rewrite andb_true_iff, String.eqb_eq. tauto.
Qed.

Lemma no_breaks_app (a b : string) :
  no_breaks (a +:+ b) = no_breaks a && no_breaks b.
Proof.
  induction a as [|c a IH]; [reflexivity|].
  rewrite app_cons. cbn [no_breaks]. rewrite IH, andb_assoc. reflexivity.
Qed.

Lemma field_line (p f rest : string) :
  no_breaks p = true -> no_breaks f = true ->
  Csv.file_lines (p +:+ f +:+ NL +:+ rest)
  = ((p +:+ f) +:+ NL) :: Csv.file_lines rest.
Proof.
  intros Hp Hf. rewrite <- (app_assoc p f), <- app_assoc.
  rewrite (app_assoc (p +:+ f) NL rest).
  apply file_lines_line. rewrite no_breaks_app, Hp, Hf. reflexivity.
Qed.

(** One line of a record read by Import: the key is set to the field,
    or left absent when the field is empty. *)
Ltac txt_line_tac f Hf Hcur :=
  apply txt_field_parts in Hf as [_ Hf];
  destruct f as [|c f];
  [ match goal with cur : row (option string) |- _ =>
      destruct cur; cbn [Title Author Year Genre Rating] in *; subst; reflexivity
    end
  | unfold txt_line; cbv zeta;
    rewrite strip_field_line by (reflexivity || discriminate || exact Hf);
    reflexivity ].

Lemma txt_line_title (acc : list entry) (cur : row (option string)) (f : string) :
  txt_field f = true -> Title cur = None ->
  txt_line (acc, cur) (("Title: " +:+ f) +:+ NL)
  = (acc, Row (txt_key f) (Author cur) (Year cur) (Genre cur) (Rating cur)).
Proof. intros Hf Hcur. txt_line_tac f Hf Hcur. Qed.

Lemma txt_line_author (acc : list entry) (cur : row (option string)) (f : string) :
  txt_field f = true -> Author cur = None ->
  txt_line (acc, cur) (("Author: " +:+ f) +:+ NL)
  = (acc, Row (Title cur) (txt_key f) (Year cur) (Genre cur) (Rating cur)).
Proof. intros Hf Hcur. txt_line_tac f Hf Hcur. Qed.

Lemma txt_line_year (acc : list entry) (cur : row (option string)) (f : string) :
  txt_field f = true -> Year cur = None ->
  txt_line (acc, cur) (("Year: " +:+ f) +:+ NL)
  = (acc, Row (Title cur) (Author cur) (txt_key f) (Genre cur) (Rating cur)).
Proof. intros Hf Hcur. txt_line_tac f Hf Hcur. Qed.

Lemma txt_line_genre (acc : list entry) (cur : row (option string)) (f : string) :
  txt_field f = true -> Genre cur = None ->
  txt_line (acc, cur) (("Genre: " +:+ f) +:+ NL)
  = (acc, Row (Title cur) (Author cur) (Year cur) (txt_key f) (Rating cur)).
Proof. intros Hf Hcur. txt_line_tac f Hf Hcur. Qed.

Lemma txt_line_rating (acc : list entry) (cur : row (option string)) (f : string) :
  txt_field f = true -> Rating cur = None ->
  txt_line (acc, cur) (("Rating: " +:+ f) +:+ NL)
  = (acc, Row (Title cur) (Author cur) (Year cur) (Genre cur) (txt_key f)).
Proof. intros Hf Hcur. txt_line_tac f Hf Hcur. Qed.

Lemma txt_line_blank (acc : list entry) (cur : row (option string)) :
  txt_line (acc, cur) NL
  = (if complete cur then acc ++ [pending_entry cur] else acc, no_keys).
Proof. reflexivity. Qed.

Lemma txt_book_parts (b : book) :
  txt_book b = true ->
  txt_field (Title b) = true /\ txt_field (Author b) = true
  /\ txt_field (Year b) = true /\ txt_field (Genre b) = true
  /\ txt_field (Rating b) = true
  /\ Title b <> EmptyString /\ Author b <> EmptyString.
Proof.
  unfold txt_book. cbn [row_values forallb]. rewrite !andb_true_iff.
  intros [[(Ht & Ha & Hy & Hg & Hr & _) Htt] Hta].
  repeat split; try assumption.
  - intros E. rewrite E in Htt. discriminate.
  - intros E. rewrite E in Hta. discriminate.
Qed.

(** The six lines of a record bring one record to the list. *)
Lemma txt_record (b : book) (bs : list book) (acc : list entry) :
  txt_book b = true ->
  fold_left txt_line (Csv.file_lines (txt_text (b :: bs))) (acc, no_keys)
  = fold_left txt_line (Csv.file_lines (txt_text bs))
      (acc ++ [pending_entry (row_map txt_key b)], no_keys).
Proof.
  intros Hb. apply txt_book_parts in Hb as (Ht & Ha & Hy & Hg & Hr & Htn & Han).
  pose proof (txt_field_parts _ Ht) as [Bt _]. pose proof (txt_field_parts _ Ha) as [Ba _].
  pose proof (txt_field_parts _ Hy) as [By _]. pose proof (txt_field_parts _ Hg) as [Bg _].
  pose proof (txt_field_parts _ Hr) as [Br _].
  cbn [txt_text].
  rewrite (field_line "Title: ") by (reflexivity || assumption). cbn [fold_left].
  rewrite txt_line_title by (assumption || reflexivity).
  rewrite (field_line "Author: ") by (reflexivity || assumption). cbn [fold_left].
  rewrite txt_line_author by (assumption || reflexivity).
  rewrite (field_line "Year: ") by (reflexivity || assumption). cbn [fold_left].
  rewrite txt_line_year by (assumption || reflexivity).
  rewrite (field_line "Genre: ") by (reflexivity || assumption). cbn [fold_left].
  rewrite txt_line_genre by (assumption || reflexivity).
  rewrite (field_line "Rating: ") by (reflexivity || assumption). cbn [fold_left].
  rewrite txt_line_rating by (assumption || reflexivity).
  change (Csv.file_lines (NL +:+ txt_text bs)) with (NL :: Csv.file_lines (txt_text bs)).
  cbn [fold_left]. rewrite txt_line_blank. cbn [Title Author Year Genre Rating no_keys].
  destruct b as [t a y g r]. cbn [Title Author] in Htn, Han.
  destruct t; [congruence|]. destruct a; [congruence|]. reflexivity.
Qed.

Lemma txt_records (books : list book) (acc : list entry) :
  forallb txt_book books = true ->
  fold_left txt_line (Csv.file_lines (txt_text books)) (acc, no_keys)
  = (acc ++ map (fun b => pending_entry (row_map txt_key b)) books, no_keys).
Proof.
  revert acc. induction books as [|b bs IH]; intros acc H.
  - cbn. rewrite List.app_nil_r. reflexivity.
  - cbn [forallb] in H. apply andb_true_iff in H as [Hb Hbs].
    rewrite (txt_record b bs acc Hb), (IH _ Hbs), <- List.app_assoc. reflexivity.
Qed.

(** Import reads the text that Export wrote as one record for each book,
    with a key for every field that is not empty. *)
Lemma import_txt_text (books : list book) :
  forallb txt_book books = true ->
  import_txt (txt_text books) = map (fun b => pending_entry (row_map txt_key b)) books.
Proof. intros H. unfold import_txt. rewrite (txt_records books [] H). reflexivity. Qed.

Lemma entries_text_keys (books : list book) :
  entries_text (map (fun b => pending_entry (row_map txt_key b)) books)
  = Some (map row_values books).
Proof.
  induction books as [|b books IH]; [reflexivity|].
  cbn [map entries_text]. rewrite IH.
  destruct b as [[|? ?] [|? ?] [|? ?] [|? ?] [|? ?]]; reflexivity.
Qed.

Lemma export_txt_run (w : world) (text fmt name : string) (rest : list string)
    (books : list book) :
  files w !! STORE = Some text -> DictReader text = Ok books -> books <> [] ->
  stdin w = fmt :: name :: rest ->
  Py.lower (Py.strip fmt) = "txt" -> Py.strip name <> EmptyString ->
  export_library w
  = (Ok tt,
     World (<[Py.strip name := txt_text books]> (files w)) rest
           (console w ++ [Prompt "Enter export format (json/txt): ";
                          Prompt "Enter filename: ";
                          Print ("Library exported to " +:+ Py.strip name
                                 +:+ " successfully.")])).
Proof.
  intros Hstore Hread Hne Hin Hfmt Hname. unfold export_library.
  erewrite bind_ok by (rewrite (load_books_present _ _ Hstore), Hread; reflexivity).
  destruct books as [|b bs]; [congruence|].
  erewrite bind_ok by (apply input_run; exact Hin).
  rewrite Hfmt. change (known_format "txt") with true. cbn [negb].
  erewrite bind_ok by (apply input_run; reflexivity).
  destruct (Py.strip name) as [|c n] eqn:Hn; [congruence|].
  cbn [Py.truthy negb]. change (String.eqb "txt" "json") with false. cbv iota.
  unfold bind, write_file, print, emit, typed. cbn [files stdin console].
  rewrite <- !List.app_assoc. reflexivity.
Qed.

(** X25. The text format keeps a collection whose fields are each on one
    line and do not end in white space, and whose titles and authors are
    not empty: when such a collection is exported as txt to a file other
    than the store, and that file is imported into a store that is empty
    (missing, or the header alone), the store then holds the records of
    the collection, in their order. *)
Theorem export_then_import_txt (w w' : world) (text fmt1 name1 fmt2 name2 : string)
    (rest rest' : list string) (books : list book) :
  files w !! STORE = Some text -> DictReader text = Ok books -> books <> [] ->
  forallb txt_book books = true ->
  stdin w = fmt1 :: name1 :: rest ->
  Py.lower (Py.strip fmt1) = "txt" ->
  Py.strip name1 <> EmptyString -> Py.strip name1 <> STORE ->
  files w' !! Py.strip name1 = files (snd (export_library w)) !! Py.strip name1 ->
  files w' !! STORE = None \/ files w' !! STORE = Some (Csv.writerow FIELDNAMES) ->
  stdin w' = fmt2 :: name2 :: rest' ->
  Py.lower (Py.strip fmt2) = "txt" -> Py.strip name2 = Py.strip name1 ->
  fst (import_library w') = Ok tt
  /\ load_books (snd (import_library w')) = (Ok books, snd (import_library w')).
Proof.
  intros Hstore Hread Hne Hsafe Hin Hfmt Hname Hother Hfile Hempty Hin' Hfmt' Hname'.
  rewrite (export_txt_run _ _ _ _ _ _ Hstore Hread Hne Hin Hfmt Hname) in Hfile.
  cbn [snd files] in Hfile. rewrite lookup_insert_eq in Hfile.
  rewrite <- Hname' in Hfile, Hname, Hother.
  assert (Hload : exists w1, load_books w' = (Ok [], w1)
                    /\ files w1 !! Py.strip name2 = Some (txt_text books)).
  { destruct Hempty as [Hs|Hs].
    - rewrite (load_books_absent _ Hs). eexists. split; [reflexivity|].
      cbn [files]. rewrite lookup_insert_ne by congruence. exact Hfile.
    - rewrite (load_books_present _ _ Hs). eexists. split; [reflexivity|]. exact Hfile. }
  destruct Hload as (w1 & Hload & Hfile1).
  assert (Hknown : known_format (Py.lower (Py.strip fmt2)) = true)
    by (rewrite Hfmt'; reflexivity).
  assert (Hnew : (if String.eqb (Py.lower (Py.strip fmt2)) "json"
                  then import_json (txt_text books) else Ok (import_txt (txt_text books)))
                 = Ok (map (fun b => pending_entry (row_map txt_key b)) books)).
  { rewrite Hfmt'. change (String.eqb "txt" "json") with false. cbv iota.
    rewrite (import_txt_text _ Hsafe). reflexivity. }
  rewrite (import_library_adds _ _ _ _ _ _ _ _ _ Hin' Hknown Hname Hload Hfile1 Hnew
             (entries_text_keys books)).
  cbn [fst snd]. split; [reflexivity|].
  apply (load_books_table _ (store_text (map row_values books))).
  - cbn [files map app]. apply lookup_insert_eq.
  - apply reader_store_text, (DictReader_fits text), Hread.
Qed.

End TextFormat.

Section JsonItems.

Lemma import_item_object (d : list (string * value)) :
  import_item (VDict d) = Ok (record_of_object d).
Proof.
  unfold import_item, record_of_object, has_key, subscript, get_or_empty.
  destruct (Json.dict_get "Title" d) as [t|]; [|reflexivity].
  destruct (Json.dict_get "Author" d) as [a|]; [|reflexivity].
  destruct (Json.dict_get "Year" d), (Json.dict_get "Genre" d),
    (Json.dict_get "Rating" d); reflexivity.
Qed.

Lemma import_items_objects (ds : list (list (string * value))) :
  import_items (map VDict ds) = Ok (omap record_of_object ds).
Proof.
  induction ds as [|d ds IH]; [reflexivity|].
  cbn [map import_items]. rewrite import_item_object, IH. cbn [omap list_omap].
  destruct (record_of_object d); reflexivity.
Qed.

Lemma records_of_objects_length (ds : list (list (string * value))) :
  (length (omap record_of_object ds) <= length ds)%nat.
Proof.
  induction ds as [|d l IH]; [reflexivity|].
  cbn [omap list_omap]. destruct (record_of_object d); simpl; lia.
Qed.

(** X26. From a json file that holds a list of objects, Import takes the
    objects that have both a Title and an Author, in their order, and
    skips the others without an error; a Year, Genre or Rating that an
    object lacks becomes the empty string, and keys other than the five
    are dropped. So no more records are added than the list has
    objects. *)
Theorem import_json_objects (text : string) (ds : list (list (string * value))) :
  Json.loads text = Ok (VList (map VDict ds)) ->
  import_json text = Ok (omap record_of_object ds)
  /\ (length (omap record_of_object ds) <= length ds)%nat.
Proof.
  intros H. split; [|apply records_of_objects_length].
  unfold import_json. rewrite H. cbn [iterate]. apply import_items_objects.
Qed.

End JsonItems.

Section SearchListing.

(** X27. Search lists the records that match, and only those, in the
    order of the store and numbered from 1 in the order of the listing,
    after a line that gives their number; when no record matches it
    prints that no matching books were found instead. *)
Theorem search_books_lists_matches (w w' : world) (line : string) (rest : list string)
    (books : list book) :
  stdin w = line :: rest ->
  load_books (typed "Enter a search term: " rest w) = (Ok books, w') ->
  let matches := List.filter (search_match (Py.lower (Py.strip line))) books in
  search_books w
  = (Ok tt,
     say (match matches with
          | [] => [Print "No matching books found."]
          | _ => Print (NL +:+ "Found " +:+ str_of_nat (length matches)
                        +:+ " matching books:")
                 :: map Print (map book_line (enumerate 1 matches))
          end) w')
  /\ sublist matches books
  /\ (forall b, In b matches
        <-> In b books /\ search_match (Py.lower (Py.strip line)) b = true)
  /\ (forall i b, nth_error matches i = Some b ->
        nth_error (map book_line (enumerate 1 matches)) i = Some (book_line (S i, b))).
Proof.
  intros Hin Hload matches. split; [|split; [|split]].
  - rewrite (search_books_run _ _ _ _ _ Hin Hload). reflexivity.
  - apply filter_sublist.
  - intros b. apply filter_In.
  - intros i b H. rewrite nth_error_map, (enumerate_nth matches 1 i b H). reflexivity.
Qed.

End SearchListing.

Section FirstRun.

(** X28. On a first run, when there is no store yet, List, Report and
    Export create the store as the header row alone, report that the
    library is empty and return; they read no input and write no other
    file. *)
Theorem first_run_creates_store (w : world) :
  files w !! STORE = None ->
  let created := <[STORE := "Title,Author,Year,Genre,Rating" +:+ Csv.CRLF]> (files w) in
  list_books w
  = (Ok tt, World created (stdin w) (console w ++ [Print "Your library is empty."]))
  /\ generate_reports w
     = (Ok tt, World created (stdin w)
                 (console w ++ [Print "Your library is empty. No reports to generate."]))
  /\ export_library w
     = (Ok tt, World created (stdin w)
                 (console w ++ [Print "Your library is empty. Nothing to export."])).
Proof.
  intros H created. unfold created. rewrite <- header_text.
  unfold list_books, generate_reports, export_library.
  rewrite !(bind_ok _ _ _ _ _ (load_books_absent w H)). auto.
Qed.

End FirstRun.

(* ================================================================== *)
(** * The theorems at work on small libraries *)
(* ================================================================== *)

Section Witnesses.

Lemma search_blank_lists_all_witness :
  let w := World two_books ["  "] [] in
  List.filter (search_match (Py.lower (Py.strip "  "))) [dune; emma] = [dune; emma]
  /\ search_books w
     = (Ok tt,
        World two_books []
          [Prompt "Enter a search term: ";
           Print (NL +:+ "Found 2 matching books:");
           Print "1. Dune by Herbert (1965) - Genre: Sci-Fi, Rating: 4.8";
           Print "2. Emma by Austen (1815) - Genre: , Rating: "]).
Proof.
  apply (search_blank_lists_all (World two_books ["  "] [])
           (World two_books [] [Prompt "Enter a search term: "]) "  " [] [dune; emma]);
    reflexivity.
Defined.

Lemma list_and_search_keep_store_witness :
  let w := World two_books ["dune"] [] in
  (files (snd (list_books w)) = files w
   /\ files (snd (list_books w)) !! STORE
      = Some (store_text [row_values dune; row_values emma]))
  /\ (files (snd (search_books w)) = files w
      /\ files (snd (search_books w)) !! STORE
         = Some (store_text [row_values dune; row_values emma])).
Proof.
  apply (list_and_search_keep_store (World two_books ["dune"] [])
           (store_text [row_values dune; row_values emma])).
  reflexivity.
Defined.

Lemma export_empty_returns_first_witness :
  let w := World ∅ ["json"; "out.json"] [] in
  let w1 := World {[ STORE := Csv.writerow FIELDNAMES ]} ["json"; "out.json"] [] in
  export_library w
  = (Ok tt, say [Print "Your library is empty. Nothing to export."] w1)
  /\ stdin w1 = stdin w
  /\ console w1 = console w
  /\ (forall name, name <> STORE -> files w1 !! name = files w !! name)
  /\ (forall text, files w !! STORE = Some text -> files w1 = files w).
Proof.
  apply (export_empty_returns_first (World ∅ ["json"; "out.json"] [])
           (World {[ STORE := Csv.writerow FIELDNAMES ]} ["json"; "out.json"] [])).
  reflexivity.
Defined.

Lemma load_books_creates_or_reads_witness :
  load_books (World ∅ [] [])
  = (Ok [], World {[ STORE := "Title,Author,Year,Genre,Rating" +:+ Csv.CRLF ]} [] [])
  /\ load_books (World two_books [] []) = (Ok [dune; emma], World two_books [] []).
Proof.
  split.
  - apply (load_books_creates_or_reads (World ∅ [] [])). reflexivity.
  - apply (proj2 (proj2 (load_books_creates_or_reads (World two_books [] [])))
             [dune; emma]); reflexivity.
Defined.

Lemma report_average_of_rated_witness :
  let w := World {[ STORE := store_text (map row_values four_ratings) ]} [] [] in
  let w0 := World {[ STORE := store_text [row_values emma] ]} [] [] in
  (fst (generate_reports w) = Ok tt
   /\ In (Print (NL +:+ "--- Average Rating ---" +:+ NL +:+ "3.75 (from 2 rated books)"))
         (console (snd (generate_reports w))))
  /\ (fst (generate_reports w0) = Ok tt
      /\ In (Print (NL +:+ "--- Average Rating ---" +:+ NL +:+ "0.00 (from 0 rated books)"))
            (console (snd (generate_reports w0)))).
Proof.
  split.
  - apply (report_average_of_rated
             (World {[ STORE := store_text (map row_values four_ratings) ]} [] [])
             (World {[ STORE := store_text (map row_values four_ratings) ]} [] [])
             four_ratings); [reflexivity | discriminate].
  - apply (report_average_of_rated
             (World {[ STORE := store_text [row_values emma] ]} [] [])
             (World {[ STORE := store_text [row_values emma] ]} [] [])
             [emma]); [reflexivity | discriminate].
Defined.

Lemma export_then_import_json_witness :
  let w := World two_books ["JSON"; " out.json "] [] in
  let w' := World {[ "out.json" := json_text [dune; emma] ]} [" json"; "out.json"] [] in
  let after := snd (import_library w') in
  load_books after = (Ok [dune; emma], after)
  /\ (forall books', load_books after = (Ok books', after) ->
      forall b, In b books' <-> In b [dune; emma]).
Proof.
  apply (export_then_import_json
           (World two_books ["JSON"; " out.json "] [])
           (World {[ "out.json" := json_text [dune; emma] ]} [" json"; "out.json"] [])
           (store_text [row_values dune; row_values emma])
           "JSON" " out.json " " json" "out.json" [] [] [dune; emma]).
  - reflexivity.
  - reflexivity.
  - discriminate.
  - reflexivity.
  - reflexivity.
  - vm_compute. discriminate.
  - vm_compute. discriminate.
  - reflexivity.
  - left. reflexivity.
  - reflexivity.
  - reflexivity.
  - reflexivity.
Defined.

Lemma main_menu_exit_witness :
  let w := World two_books [" 8 "; "1"] [] in
  main_menu 2024 w
  = (Ok tt, World (files w) ["1"]
              (console w ++ map Print MENU
               ++ [Prompt "Enter your choice: "; Print "Goodbye!"])).
Proof.
  apply (main_menu_exit 2024 (World two_books [" 8 "; "1"] []) " 8 " ["1"]); reflexivity.
Defined.

Lemma main_menu_ends_by_exit_witness :
  let w := World two_books ["2"; "9"; "8"] [] in
  (exists line, In line (stdin w) /\ Py.strip line = "8")
  /\ last (console (snd (main_menu 2024 w))) = Some (Print "Goodbye!").
Proof.
  apply (main_menu_ends_by_exit 2024 (World two_books ["2"; "9"; "8"] [])).
  vm_compute. reflexivity.
Defined.

Lemma export_library_writes_target_witness :
  let w := World (<["notes.txt" := "keep"]> two_books) ["json"; "out.json"] [] in
  files (snd (export_library w)) !! "notes.txt" = files w !! "notes.txt".
Proof.
  apply (export_library_writes_target
           (World (<["notes.txt" := "keep"]> two_books) ["json"; "out.json"] [])
           "notes.txt").
  - discriminate.
  - vm_compute. discriminate.
Defined.

Lemma save_then_load_witness :
  let saved := snd (save_books (map as_entry [dune; emma]) (World ∅ [] [])) in
  fst (save_books (map as_entry [dune; emma]) (World ∅ [] [])) = Ok tt
  /\ load_books saved = (Ok [dune; emma], saved).
Proof. apply (save_then_load (World ∅ [] []) [dune; emma]). reflexivity. Defined.

Lemma add_book_appends_record_witness :
  let w := World two_books ["T"; "A"; "1999"; "G"; "4"] [] in
  exists (books : list book) (title author year genre rating : string),
    fst (load_books w) = Ok books
    /\ title <> EmptyString /\ author <> EmptyString
    /\ files (snd (add_book 2024 w))
       = <[STORE := store_text (map row_values books
                                ++ [[title; author; year; genre; rating]])]> (files w)
    /\ last (console (snd (add_book 2024 w)))
       = Some (Print ("Book '" +:+ title +:+ "' added successfully!")).
Proof.
  apply (add_book_appends_record 2024 (World two_books ["T"; "A"; "1999"; "G"; "4"] [])).
  vm_compute. reflexivity.
Defined.

Lemma add_book_rating_in_range_witness :
  let w := World two_books ["T"; "A"; "1999"; "G"; "4"] [] in
  exists (rows : list (list string)) (title author year genre rating : string),
    files (snd (add_book 2024 w)) !! STORE
    = Some (store_text (rows ++ [[title; author; year; genre; rating]]))
    /\ (rating = EmptyString
        \/ exists x, rating = Py.float_repr x
                     /\ Py.fle Py.fzero x = true /\ Py.fle x (Py.float_of_int 5) = true).
Proof.
  apply (add_book_rating_in_range 2024 (World two_books ["T"; "A"; "1999"; "G"; "4"] [])).
  vm_compute. reflexivity.
Defined.


Lemma list_books_shows_all_witness :
  let w := World two_books [] [] in
  list_books w
  = (Ok tt,
     say (Print (NL +:+ "--- Your Library ---")
          :: map Print (map book_line (enumerate 1 [dune; emma]))
          ++ [Print ("Total books: " +:+ str_of_nat (length [dune; emma]) +:+ NL)]) w)
  /\ length (map book_line (enumerate 1 [dune; emma])) = length [dune; emma]
  /\ (forall i b, nth_error [dune; emma] i = Some b ->
        nth_error (map book_line (enumerate 1 [dune; emma])) i = Some (book_line (S i, b))).
Proof.
  apply (list_books_shows_all (World two_books [] []) (World two_books [] []) [dune; emma]).
  - reflexivity.
  - discriminate.
Defined.

Lemma delete_book_no_match_witness :
  let w := World two_books ["moby"; "all"] [] in
  delete_book w
  = (Ok tt, World (files w) ["all"]
              (console w ++ [Prompt "Enter the title to delete: ";
                             Print "No books found with that title."])).
Proof.
  apply (delete_book_no_match (World two_books ["moby"; "all"] [])
           (store_text [row_values dune; row_values emma]) "moby" ["all"] [dune; emma]);
    reflexivity.
Defined.

Lemma delete_book_cancel_witness :
  let w := World two_books ["m"; " Cancel "] [] in
  delete_book w
  = (Ok tt,
     World (files w) []
       (console w
        ++ (Prompt "Enter the title to delete: " :: Print "Matching books:"
            :: map Print (map short_line (enumerate 1 [emma])))
        ++ [Prompt "Enter numbers to delete (comma-separated), 'all', or 'cancel': ";
            Print "Deletion cancelled."])).
Proof.
  apply (delete_book_cancel (World two_books ["m"; " Cancel "] [])
           (store_text [row_values dune; row_values emma]) "m" " Cancel " [] [dune; emma]);
    try reflexivity.
  vm_compute. discriminate.
Defined.

Lemma delete_book_all_witness :
  let w := World two_books ["EMM"; "ALL"] [] in
  delete_book w
  = (Ok tt,
     World (<[STORE := store_text (map row_values [dune])]> (files w)) []
       (console w
        ++ (Prompt "Enter the title to delete: " :: Print "Matching books:"
            :: map Print (map short_line (enumerate 1 [emma])))
        ++ [Prompt "Enter numbers to delete (comma-separated), 'all', or 'cancel': ";
            Print ("Deleted " +:+ str_of_nat (length [emma]) +:+ " books.")]))
  /\ (length [dune] + length [emma] = length [dune; emma])%nat.
Proof.
  apply (delete_book_all (World two_books ["EMM"; "ALL"] [])
           (store_text [row_values dune; row_values emma]) "EMM" "ALL" [] [dune; emma]);
    try reflexivity.
  vm_compute. discriminate.
Defined.

Lemma delete_book_selected_witness :
  let w := World two_books ["e"; "2, 7"] [] in
  let chosen := fun b => exists i, In i [1; 6] /\ 0 <= i < Z.of_nat (length [dune; emma])
                                   /\ nth_error [dune; emma] (Z.to_nat i) = Some b in
  exists kept,
    fst (delete_book w) = Ok tt
    /\ files (snd (delete_book w)) = <[STORE := store_text (map row_values kept)]> (files w)
    /\ (forall b, In b kept <-> In b [dune; emma] /\ ~ chosen b)
    /\ sublist kept [dune; emma].
Proof.
  apply (delete_book_selected (World two_books ["e"; "2, 7"] [])
           (store_text [row_values dune; row_values emma]) "e" "2, 7" [] [dune; emma]
           [1; 6]);
    try reflexivity; vm_compute; discriminate.
Defined.

Lemma delete_book_skips_bad_selection_witness :
  let w := World two_books ["e"; "one"; "1"] [] in
  let without := World (files w) ["e"; "1"] (console w) in
  fst (delete_book w) = fst (delete_book without)
  /\ files (snd (delete_book w)) = files (snd (delete_book without))
  /\ stdin (snd (delete_book w)) = stdin (snd (delete_book without))
  /\ (In (Print "Invalid input. Please enter numbers separated by commas.")
         (console (snd (delete_book w)))
      \/ In (Print "No valid indices entered.") (console (snd (delete_book w)))).
Proof.
  apply (delete_book_skips_bad_selection (World two_books ["e"; "one"; "1"] [])
           (store_text [row_values dune; row_values emma]) "e" "one" ["1"] [dune; emma]);
    try reflexivity; try (vm_compute; discriminate).
  left. reflexivity.
Defined.

Lemma report_without_years_witness :
  let w := World {[ STORE := store_text [row_values undated] ]} [] [] in
  generate_reports w
  = (Ok tt,
     say (genre_events [undated]
          ++ [Print (average_line (rated [undated]));
              Print (NL +:+ "No publication years available for oldest/newest report.")])
         w).
Proof.
  apply (report_without_years (World {[ STORE := store_text [row_values undated] ]} [] [])
           (World {[ STORE := store_text [row_values undated] ]} [] []) [undated]).
  - reflexivity.
  - discriminate.
  - intros b [<-|[]]. reflexivity.
Defined.

Lemma report_years_canonical_witness :
  let w := World two_books [] [] in
  let olds := books_of_year (min_list 1965 [1815]) [dune; emma] in
  let news := books_of_year (max_list 1965 [1815]) [dune; emma] in
  generate_reports w
  = (Ok tt,
     say (genre_events [dune; emma]
          ++ Print (average_line (rated [dune; emma]))
          :: Print (NL +:+ "--- Oldest Book(s) ---") :: map Print (map year_line olds)
          ++ Print (NL +:+ "--- Newest Book(s) ---") :: map Print (map year_line news)) w)
  /\ (forall b, In b olds <-> In b [dune; emma] /\ year_of b = Some (min_list 1965 [1815]))
  /\ (forall b, In b news <-> In b [dune; emma] /\ year_of b = Some (max_list 1965 [1815]))
  /\ sublist olds [dune; emma] /\ sublist news [dune; emma]
  /\ (forall b z, In b [dune; emma] -> year_of b = Some z ->
        min_list 1965 [1815] <= z <= max_list 1965 [1815]).
Proof.
  apply (report_years_canonical (World two_books [] []) (World two_books [] [])
           [dune; emma] 1965 [1815]).
  - reflexivity.
  - reflexivity.
  - intros b [<-|[<-|[]]] z H; vm_compute in H; injection H as <-; reflexivity.
Defined.

Lemma unknown_format_refused_witness :
  let w := World two_books [" XML "; "out.xml"] [] in
  import_library w
  = (Ok tt, World (files w) ["out.xml"]
              (console w ++ [Prompt "Enter import format (json/txt): ";
                             Print "Invalid format. Use 'json' or 'txt'."]))
  /\ export_library w
     = (Ok tt, World (files w) ["out.xml"]
                 (console w ++ [Prompt "Enter export format (json/txt): ";
                                Print "Invalid format. Use 'json' or 'txt'."])).
Proof.
  destruct (unknown_format_refused (World two_books [" XML "; "out.xml"] []) " XML "
              ["out.xml"] eq_refl eq_refl) as [Himport Hexport].
  split; [exact Himport|].
  apply (Hexport [dune; emma] (World two_books [" XML "; "out.xml"] []));
    [reflexivity | discriminate].
Defined.

Lemma empty_filename_refused_witness :
  let w := World two_books ["txt"; "   "] [] in
  import_library w
  = (Ok tt, World (files w) []
              (console w ++ [Prompt "Enter import format (json/txt): ";
                             Prompt "Enter filename: ";
                             Print "Filename cannot be empty."]))
  /\ export_library w
     = (Ok tt, World (files w) []
                 (console w ++ [Prompt "Enter export format (json/txt): ";
                                Prompt "Enter filename: ";
                                Print "Filename cannot be empty."])).
Proof.
  destruct (empty_filename_refused (World two_books ["txt"; "   "] []) "txt" "   " []
              eq_refl eq_refl eq_refl) as [Himport Hexport].
  split; [exact Himport|].
  apply (Hexport [dune; emma] (World two_books ["txt"; "   "] []));
    [reflexivity | discriminate].
Defined.

Lemma import_failure_keeps_store_witness :
  let w := World two_books ["json"; "missing.json"] [] in
  exists e,
    import_library w
    = (Ok tt, World (files w) []
                (console w ++ [Prompt "Enter import format (json/txt): ";
                               Prompt "Enter filename: ";
                               PrintExn "Error importing: " e])).
Proof.
  apply (import_failure_keeps_store (World two_books ["json"; "missing.json"] [])
           (World two_books ["json"; "missing.json"] []) "json" "missing.json" []
           [dune; emma]);
    try reflexivity.
  - vm_compute. discriminate.
  - left. reflexivity.
Defined.

Lemma import_appends_witness :
  let w := World (<["books.txt" := listing]> two_books) ["txt"; "books.txt"] [] in
  let rows := [["Old"; "A"; "01950"; EmptyString; EmptyString];
               ["New"; "B"; "2000"; EmptyString; EmptyString]] in
  import_library w
  = (Ok tt,
     World (<[STORE := store_text (map row_values [dune; emma] ++ rows)]> (files w)) []
       (console w ++ [Prompt "Enter import format (json/txt): ";
                      Prompt "Enter filename: ";
                      Print ("Imported " +:+ str_of_nat (length rows)
                             +:+ " books successfully.")])).
Proof.
  apply (import_appends (World (<["books.txt" := listing]> two_books) ["txt"; "books.txt"] [])
           (World (<["books.txt" := listing]> two_books) ["txt"; "books.txt"] [])
           "txt" "books.txt" listing [] [dune; emma] (import_txt listing));
    try reflexivity.
  vm_compute. discriminate.
Defined.

Lemma export_then_import_txt_witness :
  let w := World two_books ["TXT"; " out.txt "] [] in
  let w' := World {[ "out.txt" := txt_text [dune; emma] ]} [" txt"; "out.txt"] [] in
  fst (import_library w') = Ok tt
  /\ load_books (snd (import_library w')) = (Ok [dune; emma], snd (import_library w')).
Proof.
  apply (export_then_import_txt
           (World two_books ["TXT"; " out.txt "] [])
           (World {[ "out.txt" := txt_text [dune; emma] ]} [" txt"; "out.txt"] [])
           (store_text [row_values dune; row_values emma])
           "TXT" " out.txt " " txt" "out.txt" [] [] [dune; emma]);
    try reflexivity; try (vm_compute; discriminate).
  left. reflexivity.
Defined.

Lemma import_json_objects_witness :
  let text := Json.dumps 0 (VList (map VDict two_objects)) in
  import_json text = Ok (omap record_of_object two_objects)
  /\ (length (omap record_of_object two_objects) <= length two_objects)%nat.
Proof.
  apply (import_json_objects (Json.dumps 0 (VList (map VDict two_objects))) two_objects).
  vm_compute. reflexivity.
Defined.

Lemma search_books_lists_matches_witness :
  let w := World two_books ["AUSTEN"] [] in
  let w' := World two_books [] [Prompt "Enter a search term: "] in
  let matches := List.filter (search_match (Py.lower (Py.strip "AUSTEN"))) [dune; emma] in
  search_books w
  = (Ok tt,
     say (match matches with
          | [] => [Print "No matching books found."]
          | _ => Print (NL +:+ "Found " +:+ str_of_nat (length matches)
                        +:+ " matching books:")
                 :: map Print (map book_line (enumerate 1 matches))
          end) w')
  /\ sublist matches [dune; emma]
  /\ (forall b, In b matches
        <-> In b [dune; emma] /\ search_match (Py.lower (Py.strip "AUSTEN")) b = true)
  /\ (forall i b, nth_error matches i = Some b ->
        nth_error (map book_line (enumerate 1 matches)) i = Some (book_line (S i, b))).
Proof.
  apply (search_books_lists_matches (World two_books ["AUSTEN"] [])
           (World two_books [] [Prompt "Enter a search term: "]) "AUSTEN" [] [dune; emma]);
    reflexivity.
Defined.

Lemma first_run_creates_store_witness :
  let w := World ∅ ["json"] [] in
  let created := <[STORE := "Title,Author,Year,Genre,Rating" +:+ Csv.CRLF]> (files w) in
  list_books w
  = (Ok tt, World created (stdin w) (console w ++ [Print "Your library is empty."]))
  /\ generate_reports w
     = (Ok tt, World created (stdin w)
                 (console w ++ [Print "Your library is empty. No reports to generate."]))
  /\ export_library w
     = (Ok tt, World created (stdin w)
                 (console w ++ [Print "Your library is empty. Nothing to export."])).
Proof. apply (first_run_creates_store (World ∅ ["json"] [])). reflexivity. Defined.

End Witnesses.
